(** * Interconnector flows: the ingestion Lambda and the query Lambda

    A shallow embedding of [Examples/entsoe_and_3rd_partyAPI_key.py] (the
    ingestion job, module [Entsoe]) and [Examples/second_Lambda_func.py] (the
    query service, module [SecondLambda]), together with the parts of the
    Python runtime they rest on (module [Py]: exceptions, [str]/[int],
    the proleptic Gregorian calendar of [datetime], [strftime]/[strptime],
    [calendar.timegm]), of pandas (module [Pd]) and of the DynamoDB table
    (module [Dynamo]).  The second half of the file states and proves the
    properties of the two handlers. *)

From Stdlib Require Import ZArith List String Ascii Bool Lia.
From Stdlib Require Import Sorting.Sorted Sorting.Permutation.
From Stdlib Require Import Floats.SpecFloat.
From stdpp Require Import gmap.
Import ListNotations.
Local Open Scope Z_scope.

(* ===================================================================== *)
(** * Python runtime *)
(* ===================================================================== *)

Module Py.

(** ** Exceptions and outcomes *)

(** The exceptions the two handlers tell apart.  [HTTPError] is
    [requests.exceptions.HTTPError]; it carries [str(e)] and the status code
    of [e.response] ([None] when the error has no response attached).
    [PyError cls msg] is any other subclass of [Exception], named by its
    class, with [str(e) = msg]. *)
Inductive exn : Type :=
| HTTPError (msg : string) (status_code : option Z)
| PyError (cls : string) (msg : string).

Definition str_exn (e : exn) : string :=
  match e with
  | HTTPError msg _ => msg
  | PyError _ msg => msg
  end.

(** What running a piece of code yields: a value, a raised exception, or
    no return at all (a loop that is still running when the fuel of the
    model is spent). *)
Inductive outcome (A : Type) : Type :=
| Ok (a : A)
| Raise (e : exn)
| Hang.
Arguments Ok {A} a.
Arguments Raise {A} e.
Arguments Hang {A}.

Definition ValueError (msg : string) : exn := PyError "ValueError" msg.
Definition OverflowError (msg : string) : exn := PyError "OverflowError" msg.
Definition AttributeError (msg : string) : exn := PyError "AttributeError" msg.

(** ** [str] and [int] on integers *)

Definition digit_char (d : Z) : ascii := ascii_of_nat (48 + Z.to_nat d).

(** [zfill width n]: the last [width] decimal digits of [n], as ["%0<width>d"]
    prints a number of at most [width] digits. *)
Fixpoint zfill (width : nat) (n : Z) : string :=
  match width with
  | O => EmptyString
  | S w => (zfill w (n / 10) ++ String (digit_char (n mod 10)) EmptyString)%string
  end.

(** Decimal digits of [n >= 0] without leading zeros. *)
Fixpoint str_digits (fuel : nat) (n : Z) : string :=
  match fuel with
  | O => EmptyString
  | S f =>
      if n <? 10 then String (digit_char n) EmptyString
      else (str_digits f (n / 10) ++ String (digit_char (n mod 10)) EmptyString)%string
  end.

(** [str(n)] for an [int]. *)
Definition str_int (n : Z) : string :=
  if n <? 0 then String "-" (str_digits (S (Z.to_nat (Z.log2 (- n)))) (- n))
  else str_digits (S (Z.to_nat (Z.log2 n))) n.

Definition digit_val (c : ascii) : option Z :=
  let n := Z.of_nat (nat_of_ascii c) in
  if (48 <=? n) && (n <=? 57) then Some (n - 48) else None.

Fixpoint int_digits (s : string) (acc : Z) : option Z :=
  match s with
  | EmptyString => Some acc
  | String c s' =>
      match digit_val c with
      | Some d => int_digits s' (acc * 10 + d)
      | None => None
      end
  end.

Fixpoint lstrip (s : string) : string :=
  match s with
  | String " " s' => lstrip s'
  | _ => s
  end.

(** [int(s)] on the strings this program builds: optional leading blanks, an
    optional minus sign, then one or more decimal digits. *)
Definition int_str (s : string) : outcome Z :=
  let invalid := Raise (ValueError "invalid literal for int() with base 10") in
  match lstrip s with
  | EmptyString => invalid
  | String "-" EmptyString => invalid
  | String "-" s' =>
      match int_digits s' 0 with Some v => Ok (- v) | None => invalid end
  | s' =>
      match int_digits s' 0 with Some v => Ok v | None => invalid end
  end.

(** [s[:n]] *)
Fixpoint prefix (n : nat) (s : string) : string :=
  match n, s with
  | S n', String c s' => String c (prefix n' s')
  | _, _ => EmptyString
  end.

(** ** The calendar of [datetime] ([_pydatetime.py]) *)

Definition MINYEAR : Z := 1.
Definition MAXYEAR : Z := 9999.
Definition MAXORDINAL : Z := 3652059.

Definition DAYS_IN_MONTH : list Z :=
  [-1; 31; 28; 31; 30; 31; 30; 31; 31; 30; 31; 30; 31].
Definition DAYS_BEFORE_MONTH : list Z :=
  [-1; 0; 31; 59; 90; 120; 151; 181; 212; 243; 273; 304; 334].

Definition is_leap (year : Z) : bool :=
  (year mod 4 =? 0) && (negb (year mod 100 =? 0) || (year mod 400 =? 0)).

Definition days_before_year (year : Z) : Z :=
  let y := year - 1 in
  y * 365 + y / 4 - y / 100 + y / 400.

Definition days_in_month (year month : Z) : Z :=
  if (month =? 2) && is_leap year then 29
  else nth (Z.to_nat month) DAYS_IN_MONTH 0.

Definition days_before_month (year month : Z) : Z :=
  nth (Z.to_nat month) DAYS_BEFORE_MONTH 0
  + (if (2 <? month) && is_leap year then 1 else 0).

Definition ymd2ord (year month day : Z) : Z :=
  days_before_year year + days_before_month year month + day.

Definition DI400Y : Z := 146097.
Definition DI100Y : Z := 36524.
Definition DI4Y : Z := 1461.

(** The month and day of the [n]-th day (from 0) of a year. *)
Definition month_day (leapyear : bool) (n : Z) : Z * Z :=
  let month := Z.shiftr (n + 50) 5 in
  let preceding :=
    nth (Z.to_nat month) DAYS_BEFORE_MONTH 0
    + (if (2 <? month) && leapyear then 1 else 0) in
  if n <? preceding then
    let month' := month - 1 in
    let preceding' :=
      preceding - (nth (Z.to_nat month') DAYS_IN_MONTH 0
                   + (if (month' =? 2) && leapyear then 1 else 0)) in
    (month', n - preceding' + 1)
  else (month, n - preceding + 1).

(** The year, and the position in it, of the [n]-th day (from 0) of a
    400-year cycle; the year counts from 1 within the cycle. *)
Definition cycle_ymd (n : Z) : Z * Z * Z :=
  let n100 := n / DI100Y in
  let n := n mod DI100Y in
  let n4 := n / DI4Y in
  let n := n mod DI4Y in
  let n1 := n / 365 in
  let n := n mod 365 in
  let year := 1 + n100 * 100 + n4 * 4 + n1 in
  if (n1 =? 4) || (n100 =? 4) then (year - 1, 12, 31)
  else
    let leapyear := (n1 =? 3) && (negb (n4 =? 24) || (n100 =? 3)) in
    let '(month, day) := month_day leapyear n in
    (year, month, day).

(** [_ord2ymd]: ordinal (1 is 0001-01-01) to (year, month, day). *)
Definition ord2ymd (n : Z) : Z * Z * Z :=
  let n := n - 1 in
  let n400 := n / DI400Y in
  let '(year, month, day) := cycle_ymd (n mod DI400Y) in
  (n400 * 400 + year, month, day).

(** ** [datetime.datetime] (naive) and [datetime.timedelta] *)

Record datetime : Type := mkdatetime {
  year : Z; month : Z; day : Z;
  hour : Z; minute : Z; second : Z; microsecond : Z
}.

(** A [timedelta] is kept as its total number of microseconds. *)
Definition timedelta (days hours minutes : Z) : Z :=
  ((days * 24 + hours) * 60 + minutes) * 60000000.

Definition US_PER_DAY : Z := 86400000000.

(** The invariant the constructor of [datetime] enforces. *)
Definition valid (t : datetime) : bool :=
  (MINYEAR <=? year t) && (year t <=? MAXYEAR)
  && (1 <=? month t) && (month t <=? 12)
  && (1 <=? day t) && (day t <=? days_in_month (year t) (month t))
  && (0 <=? hour t) && (hour t <=? 23)
  && (0 <=? minute t) && (minute t <=? 59)
  && (0 <=? second t) && (second t <=? 59)
  && (0 <=? microsecond t) && (microsecond t <=? 999999).

Definition toordinal (t : datetime) : Z := ymd2ord (year t) (month t) (day t).

(** Position on the time line: microseconds since the start of ordinal 0. *)
Definition to_microseconds (t : datetime) : Z :=
  toordinal t * US_PER_DAY
  + ((hour t * 60 + minute t) * 60 + second t) * 1000000 + microsecond t.

(** [date.fromordinal(days)] combined with the time of day [us]. *)
Definition of_day_time (days us : Z) : datetime :=
  let '(y, m, d) := ord2ymd days in
  let seconds := us / 1000000 in
  {| year := y; month := m; day := d;
     hour := seconds / 3600; minute := (seconds mod 3600) / 60;
     second := (seconds mod 3600) mod 60; microsecond := us mod 1000000 |}.

(** [t + delta] ([datetime.__add__]); [t - delta] is [add t (- delta)]. *)
Definition add (t : datetime) (delta : Z) : outcome datetime :=
  let total := to_microseconds t + delta in
  let days := total / US_PER_DAY in
  if (0 <? days) && (days <=? MAXORDINAL)
  then Ok (of_day_time days (total mod US_PER_DAY))
  else Raise (OverflowError "date value out of range").

(** [a <= b]: comparison of the field tuples. *)
Fixpoint lex_le (a b : list Z) : bool :=
  match a, b with
  | x :: a', y :: b' => (x <? y) || ((x =? y) && lex_le a' b')
  | _, _ => true
  end.

Definition fields (t : datetime) : list Z :=
  [year t; month t; day t; hour t; minute t; second t; microsecond t].

Definition le (a b : datetime) : bool := lex_le (fields a) (fields b).

(** [t.replace(minute=0, second=0, microsecond=0, hour=t.hour)] *)
Definition replace_hour_start (t : datetime) : datetime :=
  {| year := year t; month := month t; day := day t;
     hour := hour t; minute := 0; second := 0; microsecond := 0 |}.

Definition EPOCH_ORD : Z := Eval vm_compute in ymd2ord 1970 1 1.

(** [datetime.fromtimestamp] of a clock reading, given in microseconds since
    the epoch; the local time zone of the Lambda runtime is UTC. *)
Definition fromtimestamp (us : Z) : outcome datetime :=
  let days := us / US_PER_DAY + EPOCH_ORD in
  if (0 <? days) && (days <=? MAXORDINAL)
  then Ok (of_day_time days (us mod US_PER_DAY))
  else Raise (ValueError "year is out of range").

(** [t.strftime("%Y%m%d")] and [t.strftime("%Y%m%d%H%M%S")].  The year is
    written with four digits; a C library that drops the leading zeros of a
    year below 1000 gives a string that [int] reads as the same number. *)
Definition strftime_Ymd (t : datetime) : string :=
  (zfill 4 (year t) ++ zfill 2 (month t) ++ zfill 2 (day t))%string.

Definition strftime_YmdHMS (t : datetime) : string :=
  (strftime_Ymd t ++ zfill 2 (hour t) ++ zfill 2 (minute t)
   ++ zfill 2 (second t))%string.

(** ** [datetime.strptime(s, "%Y%m%d%H%M%S")] ([_strptime.py]) *)

Definition char_class : Type := ascii -> bool.

Definition between (lo hi : ascii) : char_class :=
  fun c => (nat_of_ascii lo <=? nat_of_ascii c)%nat
           && (nat_of_ascii c <=? nat_of_ascii hi)%nat.

Definition only (a : ascii) : char_class := between a a.
Definition any_digit : char_class := between "0" "9".

(** The pattern of a directive is a list of alternatives, tried in order;
    an alternative is a sequence of character classes. *)
Definition re_Y : list (list char_class) :=
  [[any_digit; any_digit; any_digit; any_digit]].
Definition re_m : list (list char_class) :=
  [[only "1"; between "0" "2"]; [only "0"; between "1" "9"]; [between "1" "9"]].
Definition re_d : list (list char_class) :=
  [[only "3"; between "0" "1"]; [between "1" "2"; any_digit];
   [only "0"; between "1" "9"]; [between "1" "9"]; [only " "; between "1" "9"]].
Definition re_H : list (list char_class) :=
  [[only "2"; between "0" "3"]; [between "0" "1"; any_digit]; [any_digit]].
Definition re_M : list (list char_class) :=
  [[between "0" "5"; any_digit]; [any_digit]].
Definition re_S : list (list char_class) :=
  [[only "6"; between "0" "1"]; [between "0" "5"; any_digit]; [any_digit]].

(** Match one alternative at the head of [s]: the text matched and the rest. *)
Fixpoint match_alt (alt : list char_class) (s : string) : option (string * string) :=
  match alt with
  | [] => Some (EmptyString, s)
  | cls :: alt' =>
      match s with
      | String c s' =>
          if cls c then
            match match_alt alt' s' with
            | Some (txt, rest) => Some (String c txt, rest)
            | None => None
            end
          else None
      | EmptyString => None
      end
  end.

(** [re.match] for a sequence of groups: the first match in the order the
    backtracking search tries them (earlier alternatives of earlier groups
    first). *)
Fixpoint re_match (groups : list (list (list char_class))) (s : string)
  : option (list string * string) :=
  match groups with
  | [] => Some ([], s)
  | alts :: groups' =>
      (fix try (alts : list (list char_class)) : option (list string * string) :=
         match alts with
         | [] => None
         | alt :: alts' =>
             match match_alt alt s with
             | Some (txt, s') =>
                 match re_match groups' s' with
                 | Some (found, rest) => Some (txt :: found, rest)
                 | None => try alts'
                 end
             | None => try alts'
             end
         end) alts
  end.

Fixpoint int_all (l : list string) : outcome (list Z) :=
  match l with
  | [] => Ok []
  | s :: l' =>
      match int_str s with
      | Ok v =>
          match int_all l' with
          | Ok vs => Ok (v :: vs)
          | Raise e => Raise e
          | Hang => Hang
          end
      | Raise e => Raise e
      | Hang => Hang
      end
  end.

Definition strptime_YmdHMS (s : string) : outcome datetime :=
  match re_match [re_Y; re_m; re_d; re_H; re_M; re_S] s with
  | None => Raise (ValueError "time data does not match format")
  | Some (found, String _ _) => Raise (ValueError "unconverted data remains")
  | Some (found, EmptyString) =>
      match int_all found with
      | Ok [y; mo; d; h; mi; sec] =>
          let t := {| year := y; month := mo; day := d; hour := h;
                      minute := mi; second := sec; microsecond := 0 |} in
          if valid t then Ok t
          else Raise (ValueError "value out of range")
      | Ok _ => Raise (ValueError "time data does not match format")
      | Raise e => Raise e
      | Hang => Hang
      end
  end.

(** [calendar.timegm(t.timetuple())] *)
Definition timegm (t : datetime) : Z :=
  let days := ymd2ord (year t) (month t) 1 - EPOCH_ORD + day t - 1 in
  let hours := days * 24 + hour t in
  let minutes := hours * 60 + minute t in
  minutes * 60 + second t.

(** The inverse reading of an epoch value, as [time.gmtime] gives it:
    (year, month, day, hour, minute, second) in UTC. *)
Definition gmtime (epoch : Z) : list Z :=
  let '(y, m, d) := ord2ymd (epoch / 86400 + EPOCH_ORD) in
  let s := epoch mod 86400 in
  [y; m; d; s / 3600; (s mod 3600) / 60; (s mod 3600) mod 60].

End Py.

(* ===================================================================== *)
(** * pandas and numpy *)
(* ===================================================================== *)

Module Pd.

(** A [float64] is an IEEE 754 binary64 value. *)
Definition prec : Z := 53.
Definition emax : Z := 1024.
Definition NaN : spec_float := S754_nan.

(** A time-indexed [Series]: (timestamp, value) pairs, index ascending. *)
Definition Series : Type := list (Py.datetime * spec_float).

(** A [DataFrame] with a time index and one [float64] column per name. *)
Record DataFrame : Type := {
  columns : list string;
  rows : list (Py.datetime * list spec_float)
}.

(** The same frame after [astype(int)]: [int64] columns. *)
Record IntFrame : Type := {
  int_columns : list string;
  int_rows : list (Py.datetime * list Z)
}.

Definition same_instant (a b : Py.datetime) : bool :=
  Py.to_microseconds a =? Py.to_microseconds b.

Fixpoint get (t : Py.datetime) (s : Series) : spec_float :=
  match s with
  | [] => NaN
  | (u, v) :: s' => if same_instant t u then v else get t s'
  end.

Fixpoint insert_index (t : Py.datetime) (idx : list Py.datetime) : list Py.datetime :=
  match idx with
  | [] => [t]
  | u :: idx' =>
      if Py.to_microseconds t <? Py.to_microseconds u then t :: idx
      else if same_instant t u then idx
      else u :: insert_index t idx'
  end.

(** Outer join of two indexes. *)
Definition union_index (a b : list Py.datetime) : list Py.datetime :=
  fold_left (fun acc t => insert_index t acc) b a.

(** [a - b] on two series: aligned on the union of the indexes, a label
    missing on one side gives NaN. *)
Definition sub (a b : Series) : Series :=
  map (fun t => (t, SFsub prec emax (get t a) (get t b)))
      (union_index (map fst a) (map fst b)).

(** Two indexes with the same labels in the same order. *)
Fixpoint same_index (a b : list Py.datetime) : bool :=
  match a, b with
  | [], [] => true
  | t :: a', u :: b' => same_instant t u && same_index a' b'
  | _, _ => false
  end.

(** An index in which no label comes twice. *)
Fixpoint unique_index (idx : list Py.datetime) : bool :=
  match idx with
  | [] => true
  | t :: idx' => negb (existsb (same_instant t) idx') && unique_index idx'
  end.

Definition is_empty {A : Type} (l : list A) : bool :=
  match l with [] => true | _ => false end.

(** The row at position [i] of series that share the index [index]: each
    series gives its [i]-th value, a series without readings gives NaN. *)
Definition row_at (d : list (string * Series)) (i : nat) : list spec_float :=
  map (fun s => nth i (map snd (snd s)) NaN) d.

Definition positions {A : Type} (l : list A) : list nat := seq 0 (length l).

(** [pd.concat(d, axis=1)] for a dict [d] of series with a time index.
    An empty dict is refused.  When the series that have readings all carry
    the same index, the frame has that index as it is, in its order and with
    its repeated labels, and the values stay in their places.  When the
    indexes differ and none repeats a label, the frame has the labels of all
    of them in ascending order, and a series has NaN where it has no
    reading.  What pandas makes of indexes that differ while one of them
    repeats a label is not fixed here: it is [unaligned d]. *)
Definition concat (unaligned : list (string * Series) -> Py.outcome DataFrame)
  (d : list (string * Series)) : Py.outcome DataFrame :=
  match d with
  | [] => Py.Raise (Py.ValueError "No objects to concatenate")
  | _ =>
      let indexes := map (fun s => map fst (snd s)) d in
      match List.filter (fun idx => negb (is_empty idx)) indexes with
      | [] => Py.Ok {| columns := map fst d; rows := [] |}
      | index :: others =>
          if forallb (same_index index) others then
            Py.Ok {| columns := map fst d;
                     rows := map (fun i => (nth i index (Py.mkdatetime 0 0 0 0 0 0 0),
                                            row_at d i))
                                 (positions index) |}
          else if forallb unique_index indexes then
            let index := fold_left union_index indexes [] in
            Py.Ok {| columns := map fst d;
                     rows := map (fun t => (t, map (fun s => get t (snd s)) d)) index |}
          else unaligned d
      end
  end.

Definition is_nan (v : spec_float) : bool :=
  match v with S754_nan => true | _ => false end.

Fixpoint fill_from (last vs : list spec_float) : list spec_float :=
  match last, vs with
  | l :: last', v :: vs' => (if is_nan v then l else v) :: fill_from last' vs'
  | _, _ => vs
  end.

Fixpoint ffill_rows (last : list spec_float)
  (rs : list (Py.datetime * list spec_float)) : list (Py.datetime * list spec_float) :=
  match rs with
  | [] => []
  | (t, vs) :: rs' => let vs' := fill_from last vs in (t, vs') :: ffill_rows vs' rs'
  end.

(** [df.ffill()] *)
Definition ffill (df : DataFrame) : DataFrame :=
  {| columns := columns df; rows := ffill_rows [] (rows df) |}.

Definition map_values (f : spec_float -> spec_float) (df : DataFrame) : DataFrame :=
  {| columns := columns df;
     rows := map (fun r => (fst r, map f (snd r))) (rows df) |}.

(** [df.replace([np.inf, -np.inf], np.nan)] *)
Definition replace_inf_nan (df : DataFrame) : DataFrame :=
  map_values (fun v => match v with S754_infinity _ => NaN | _ => v end) df.

(** [df.fillna(value=0)] *)
Definition fillna_0 (df : DataFrame) : DataFrame :=
  map_values (fun v => if is_nan v then S754_zero false else v) df.

Definition INT64_MIN : Z := - 2 ^ 63.
Definition INT64_MAX : Z := 2 ^ 63 - 1.

(** The integer part of a finite value, rounded toward zero. *)
Definition trunc_finite (s : bool) (m : positive) (e : Z) : Z :=
  let a := if 0 <=? e then Z.shiftl (Z.pos m) e else Z.shiftr (Z.pos m) (- e) in
  if s then - a else a.

(** The cast of one [float64] to [int64].  A value whose integer part does
    not fit 64 bits gives the "integer indefinite" value [INT64_MIN], as the
    conversion instruction of x86-64 does; pandas refuses NaN and the
    infinities before it casts. *)
Definition float_to_int64 (v : spec_float) : Py.outcome Z :=
  match v with
  | S754_zero _ => Py.Ok 0
  | S754_finite s m e =>
      let z := trunc_finite s m e in
      if (INT64_MIN <=? z) && (z <=? INT64_MAX) then Py.Ok z else Py.Ok INT64_MIN
  | S754_infinity _ | S754_nan =>
      Py.Raise (Py.ValueError "Cannot convert non-finite values (NA or inf) to integer")
  end.

Fixpoint cast_all (vs : list spec_float) : Py.outcome (list Z) :=
  match vs with
  | [] => Py.Ok []
  | v :: vs' =>
      match float_to_int64 v with
      | Py.Ok z =>
          match cast_all vs' with
          | Py.Ok zs => Py.Ok (z :: zs)
          | other => other
          end
      | Py.Raise e => Py.Raise e
      | Py.Hang => Py.Hang
      end
  end.

Fixpoint cast_rows (rs : list (Py.datetime * list spec_float))
  : Py.outcome (list (Py.datetime * list Z)) :=
  match rs with
  | [] => Py.Ok []
  | (t, vs) :: rs' =>
      match cast_all vs with
      | Py.Ok zs =>
          match cast_rows rs' with
          | Py.Ok out => Py.Ok ((t, zs) :: out)
          | other => other
          end
      | Py.Raise e => Py.Raise e
      | Py.Hang => Py.Hang
      end
  end.

(** [df.astype(int)] *)
Definition astype_int (df : DataFrame) : Py.outcome IntFrame :=
  match cast_rows (rows df) with
  | Py.Ok rs => Py.Ok {| int_columns := columns df; int_rows := rs |}
  | Py.Raise e => Py.Raise e
  | Py.Hang => Py.Hang
  end.

End Pd.

(* ===================================================================== *)
(** * The DynamoDB table and the Lambda runtime *)
(* ===================================================================== *)

Module Dynamo.

(** One item of the table [interconnector-data]: the two key attributes and
    one number per interconnector. *)
Record Item : Type := {
  datetime : Z;
  date : Z;
  flows : list (string * Z)
}.

Definition key_of (i : Item) : Z * Z := (datetime i, date i).

(** The result of [batch_get_item], a dict: the member ["Responses"] maps a
    table name to the items found. *)
Record BatchGetResult : Type := {
  Responses : option (list (string * list Item))
}.

Fixpoint dict_get {V : Type} (k : string) (d : list (string * V)) : option V :=
  match d with
  | [] => None
  | (k', v) :: d' => if String.eqb k k' then Some v else dict_get k d'
  end.

Definition ClientError (msg : string) : Py.exn := Py.PyError "ClientError" msg.

End Dynamo.

Module Runtime.

(** What an invocation finds outside itself: the system clock (its [n]-th
    reading, in microseconds since the epoch), the remote market-data API
    (a query either returns a series or raises), the failures of the
    store (an operation on the given argument either goes through or
    raises), the keys a batch read gets to, in the order in which the
    service answers them, and what pandas makes of series it cannot align
    (see [Pd.concat]). *)
Record Env : Type := {
  clock : nat -> Z;
  query_crossborder_flows :
    string -> string -> Py.datetime -> Py.datetime -> Py.outcome Pd.Series;
  get_item_error : Z * Z -> option Py.exn;
  put_item_error : Dynamo.Item -> option Py.exn;
  batch_get_item_error : list (Z * Z) -> option Py.exn;
  batch_get_item_answer : list (Z * Z) -> list (Z * Z);
  concat_unaligned : list (string * Pd.Series) -> Py.outcome Pd.DataFrame
}.

(** What an invocation changes: the contents of the table, keyed by
    (datetime, date), and how often the clock has been read. *)
Record World : Type := {
  table : gmap (Z * Z) Dynamo.Item;
  clock_reads : nat
}.

(** Code that runs in a world: it yields an outcome and the world after. *)
Definition M (A : Type) : Type := World -> Py.outcome A * World.

Definition ret {A : Type} (a : A) : M A := fun w => (Py.Ok a, w).

Definition raise {A : Type} (e : Py.exn) : M A := fun w => (Py.Raise e, w).

Definition lift {A : Type} (o : Py.outcome A) : M A := fun w => (o, w).

Definition bind {A B : Type} (c : M A) (k : A -> M B) : M B :=
  fun w =>
    match c w with
    | (Py.Ok a, w') => k a w'
    | (Py.Raise e, w') => (Py.Raise e, w')
    | (Py.Hang, w') => (Py.Hang, w')
    end.

(** [try: c  except Exception as e: handler(e)]; what the body did to the
    world before it raised stays done. *)
Definition try_except {A : Type} (c : M A) (handler : Py.exn -> M A) : M A :=
  fun w =>
    match c w with
    | (Py.Raise e, w') => handler e w'
    | other => other
    end.

(** [for x in xs: body(x)] *)
Fixpoint for_each {A : Type} (xs : list A) (body : A -> M unit) : M unit :=
  match xs with
  | [] => ret tt
  | x :: xs' => bind (body x) (fun _ => for_each xs' body)
  end.

(** [[f(x) for x in xs]] *)
Fixpoint map_m {A B : Type} (f : A -> M B) (xs : list A) : M (list B) :=
  match xs with
  | [] => ret []
  | x :: xs' => bind (f x) (fun y => bind (map_m f xs') (fun ys => ret (y :: ys)))
  end.

(** A [while] loop: [step] either moves to the next state or leaves the
    loop with a result.  At most [fuel] steps are run; the fuel is binary,
    so that a bound far above any run costs nothing. *)
Fixpoint iterate {S R : Type} (fuel : positive) (step : S -> S + R) (s : S) : S + R :=
  match fuel with
  | xH => step s
  | xO p =>
      match iterate p step s with
      | inl s' => iterate p step s'
      | inr r => inr r
      end
  | xI p =>
      match step s with
      | inl s' =>
          match iterate p step s' with
          | inl s'' => iterate p step s''
          | inr r => inr r
          end
      | inr r => inr r
      end
  end.

Definition LOOP_FUEL : positive := Eval vm_compute in (2 ^ 40)%positive.

(** [datetime.datetime.today()] *)
Definition today (env : Env) : M Py.datetime :=
  fun w =>
    (Py.fromtimestamp (clock env (clock_reads w)),
     {| table := table w; clock_reads := S (clock_reads w) |}).

(** [dynamo_db_table.get_item(Key=...)]: the item, when there is one. *)
Definition get_item (env : Env) (key : Z * Z) : M (option Dynamo.Item) :=
  fun w =>
    match get_item_error env key with
    | Some e => (Py.Raise e, w)
    | None => (Py.Ok (table w !! key), w)
    end.

(** [dynamo_db_table.put_item(Item=...)] *)
Definition put_item (env : Env) (item : Dynamo.Item) : M unit :=
  fun w =>
    match put_item_error env item with
    | Some e => (Py.Raise e, w)
    | None =>
        (Py.Ok tt,
         {| table := <[Dynamo.key_of item := item]> (table w);
            clock_reads := clock_reads w |})
    end.

(** The keys of a batch read that the service answers: those among the
    keys asked for that it gets to, each once, in the order of its choosing.
    The others are what the answer lists as unprocessed. *)
Definition batch_answered (env : Env) (keys : list (Z * Z)) : list (Z * Z) :=
  remove_dups (filter (fun k => k ∈ keys) (batch_get_item_answer env keys)).

(** [botocore.exceptions.ParamValidationError], raised by the client for a
    request without keys, and the [ClientError] of the service for a request
    with more than 100 keys. *)
Definition no_keys : Py.exn :=
  Py.PyError "ParamValidationError"
    "Invalid length for parameter RequestItems.interconnector-data.Keys, value: 0, valid min length: 1".

Definition too_many_keys : Py.exn :=
  Dynamo.ClientError
    "An error occurred (ValidationException) when calling the BatchGetItem operation: Too many items requested for the BatchGetItem call".

(** [boto_client.batch_get_item(RequestItems={"interconnector-data":
    {"Keys": keys}})].  The client refuses an empty list of keys before any
    request is made, the service refuses more than 100; the table requested
    is always a member of ["Responses"], with the items found under the keys
    answered (none for a key that is absent), in no order the caller can
    rely on. *)
Definition batch_get_item (env : Env) (keys : list (Z * Z)) : M Dynamo.BatchGetResult :=
  fun w =>
    match keys with
    | [] => (Py.Raise no_keys, w)
    | _ =>
        match batch_get_item_error env keys with
        | Some e => (Py.Raise e, w)
        | None =>
            if (length keys <=? 100)%nat then
              (Py.Ok {| Dynamo.Responses :=
                          Some [("interconnector-data"%string,
                                 omap (fun k => table w !! k) (batch_answered env keys))] |},
               w)
            else (Py.Raise too_many_keys, w)
        end
    end.

(** The response of a handler; [body] is the document [json.dumps]
    writes out. *)
#[local] Set Warnings "-register-all".
Inductive json : Type :=
| JString (s : string)
| JNumber (n : Z)
| JFloat (f : spec_float)
| JArray (l : list json)
| JObject (members : list (string * json)).

Record Response : Type := {
  statusCode : Z;
  headers : option (list (string * string));
  body : json
}.

End Runtime.

Notation "'let*' x ':=' c 'in' k" := (Runtime.bind c (fun x => k))
  (at level 10, x name, c at level 100, k at level 200).
Notation "'let*' ' pat ':=' c 'in' k" :=
  (Runtime.bind c (fun x => match x with pat => k end))
  (at level 10, pat pattern, c at level 100, k at level 200).
Notation "c ';;' k" := (Runtime.bind c (fun _ => k))
  (at level 100, k at level 200, right associativity).

(* ===================================================================== *)
(** * Examples/entsoe_and_3rd_partyAPI_key.py: the ingestion job *)
(* ===================================================================== *)

Module Entsoe.
Import Runtime.

Definition uk_country_code : string := "10YGB----------A".

(** The dict of the connected countries, in the order it is written. *)
Definition country_code_non_uk_dict : list (string * string) :=
  [("France", "10YFR-RTE------C"); ("Netherlands", "10YNL----------L");
   ("Belgium", "10YBE----------2"); ("Norway", "10YNO-0--------C")]%string.

(** [pd.Timestamp(t.strftime("%Y-%m-%d %H:%M:%S"), tz="UTC")]: the
    microseconds are dropped. *)
Definition whole_seconds (t : Py.datetime) : Py.datetime :=
  {| Py.year := Py.year t; Py.month := Py.month t; Py.day := Py.day t;
     Py.hour := Py.hour t; Py.minute := Py.minute t; Py.second := Py.second t;
     Py.microsecond := 0 |}.

Definition get_date_range (env : Env) : M (Py.datetime * Py.datetime) :=
  let* now1 := today env in
  let* twenty_four_hours := lift (Py.add now1 (- Py.timedelta 1 0 0)) in
  let* now2 := today env in
  let* tomorrow := lift (Py.add now2 (Py.timedelta 0 2 0)) in
  ret (whole_seconds twenty_four_hours, whole_seconds tomorrow).

Definition get_net_flow (env : Env) (start_end_range : Py.datetime * Py.datetime)
  (country_code : string) : M Pd.Series :=
  try_except
    (let* flows_outward_from_uk :=
       lift (query_crossborder_flows env uk_country_code country_code
               (fst start_end_range) (snd start_end_range)) in
     let* flows_inward_to_uk :=
       lift (query_crossborder_flows env country_code uk_country_code
               (fst start_end_range) (snd start_end_range)) in
     ret (Pd.sub flows_outward_from_uk flows_inward_to_uk))
    (fun e =>
       match e with
       | Py.HTTPError _ None =>
           (* the handler prints [e.response.content] *)
           raise (Py.AttributeError "'NoneType' object has no attribute 'content'")
       | _ => raise e
       end).

Fixpoint collect_flows (env : Env) (date_range : Py.datetime * Py.datetime)
  (countries : list (string * string)) : M (list (string * Pd.Series)) :=
  match countries with
  | [] => ret []
  | (country, code) :: countries' =>
      let* flow := try_except (get_net_flow env date_range code) (fun e => raise e) in
      let* others := collect_flows env date_range countries' in
      ret ((country, flow) :: others)
  end.

Definition get_all_interconnector_flows (env : Env)
  (country_code_non_uk_dict : list (string * string)) : M Pd.DataFrame :=
  let* date_range := get_date_range env in
  let* all_interconnector_dict := collect_flows env date_range country_code_non_uk_dict in
  let* all_interconnector_df :=
    lift (Pd.concat (concat_unaligned env) all_interconnector_dict) in
  ret (Pd.ffill all_interconnector_df).

(** The frame once the index is turned into the two key columns. *)
Record KeyedRow : Type := {
  row_datetime : Z;
  row_date : Z;
  row_values : list Z
}.

Definition convert_row (r : Py.datetime * list Z) : Py.outcome KeyedRow :=
  match Py.int_str (Py.strftime_Ymd (fst r)) with
  | Py.Ok d =>
      match Py.int_str (Py.strftime_YmdHMS (fst r)) with
      | Py.Ok dt => Py.Ok {| row_datetime := dt; row_date := d; row_values := snd r |}
      | Py.Raise e => Py.Raise e
      | Py.Hang => Py.Hang
      end
  | Py.Raise e => Py.Raise e
  | Py.Hang => Py.Hang
  end.

Fixpoint convert_rows (rs : list (Py.datetime * list Z)) : Py.outcome (list KeyedRow) :=
  match rs with
  | [] => Py.Ok []
  | r :: rs' =>
      match convert_row r with
      | Py.Ok k =>
          match convert_rows rs' with
          | Py.Ok ks => Py.Ok (k :: ks)
          | other => other
          end
      | Py.Raise e => Py.Raise e
      | Py.Hang => Py.Hang
      end
  end.

Definition convert_df_datetime_to_strftime (interconnector_flow_df : Pd.IntFrame)
  : Py.outcome (list string * list KeyedRow) :=
  match convert_rows (Pd.int_rows interconnector_flow_df) with
  | Py.Ok ks => Py.Ok (Pd.int_columns interconnector_flow_df, ks)
  | Py.Raise e => Py.Raise e
  | Py.Hang => Py.Hang
  end.

Definition convert_float_to_int (interconnector_flow_df : Pd.DataFrame)
  : Py.outcome Pd.IntFrame :=
  let interconnector_flow_df := Pd.replace_inf_nan interconnector_flow_df in
  let interconnector_flow_df := Pd.fillna_0 interconnector_flow_df in
  Pd.astype_int interconnector_flow_df.

(** [json.loads(df.reset_index().to_json(orient="records"))]: one dict per
    row. *)
Definition convert_df_to_json (df : list string * list KeyedRow) : list Dynamo.Item :=
  map (fun r => {| Dynamo.datetime := row_datetime r;
                   Dynamo.date := row_date r;
                   Dynamo.flows := combine (fst df) (row_values r) |})
      (snd df).

Definition check_if_exists (env : Env) (input : Dynamo.Item) : M bool :=
  let* response := get_item env (Dynamo.datetime input, Dynamo.date input) in
  match response with
  | Some _ => ret true
  | None => ret false
  end.

Definition put_into_dynamo_db (env : Env) (input : Dynamo.Item) : M unit :=
  let* found := check_if_exists env input in
  if negb found then put_item env input else ret tt.

Definition update_dynamo_db (env : Env) (interconnector_dict : list Dynamo.Item) : M unit :=
  for_each interconnector_dict (put_into_dynamo_db env).

Definition possible_causes : list string :=
  ["API key not correctly set in SSM"; "API key expired or invalid";
   "IP address blocked"; "Request parameters invalid"]%string.

(** The [try] block of [lambda_handler]. *)
Definition lambda_handler_try (env : Env) : M Response :=
  let* date_range := get_date_range env in
  let* interconnector_df := get_all_interconnector_flows env country_code_non_uk_dict in
  let* interconnector_df := lift (convert_float_to_int interconnector_df) in
  let* interconnector_df := lift (convert_df_datetime_to_strftime interconnector_df) in
  let interconnector_dict := convert_df_to_json interconnector_df in
  update_dynamo_db env interconnector_dict ;;
  ret {| statusCode := 200; headers := None; body := JString "Everything works!" |}.

Definition authentication_failed (details : string) : json :=
  JObject [("error", JString "API Authentication Failed");
           ("details", JString details);
           ("possible_causes", JArray (map JString possible_causes))]%string.

(** [lambda_handler]: the only [except] clause is for
    [requests.exceptions.HTTPError]. *)
Definition lambda_handler (env : Env) : M Response :=
  fun w =>
    match lambda_handler_try env w with
    | (Py.Raise (Py.HTTPError msg response), w') =>
        match response with
        | Some status_code =>
            let error_msg :=
              if status_code =? 403 then authentication_failed msg
              else JObject [("error"%string, JString msg)] in
            (Py.Ok {| statusCode := 500; headers := None; body := error_msg |}, w')
        | None =>
            (Py.Raise (Py.AttributeError
                         "'NoneType' object has no attribute 'status_code'"), w')
        end
    | other => other
    end.

End Entsoe.

(* ===================================================================== *)
(** * Examples/second_Lambda_func.py: the query service *)
(* ===================================================================== *)

Module SecondLambda.
Import Runtime.

Definition hour_rounder (t : Py.datetime) : Py.outcome Py.datetime :=
  Py.add (Py.replace_hour_start t) (Py.timedelta 0 (Py.minute t / 30) 0).

(** The state of the [while] loop of [get_date_keys]. *)
Definition loop_state : Type := Py.datetime * list Z * World.

(** One turn of the loop: the test against a fresh reading of the clock,
    then the body. *)
Definition date_keys_step (env : Env) (st : loop_state)
  : loop_state + Py.outcome (list Z) * World :=
  let '(start_range, date_keys, w) := st in
  match today env w with
  | (Py.Ok now, w') =>
      if Py.le start_range now then
        match Py.add start_range (Py.timedelta 0 0 15) with
        | Py.Ok start_range' =>
            match Py.int_str (Py.strftime_YmdHMS start_range') with
            | Py.Ok key => inl (start_range', date_keys ++ [key], w')
            | Py.Raise e => inr (Py.Raise e, w')
            | Py.Hang => inr (Py.Hang, w')
            end
        | Py.Raise e => inr (Py.Raise e, w')
        | Py.Hang => inr (Py.Hang, w')
        end
      else inr (Py.Ok date_keys, w')
  | (Py.Raise e, w') => inr (Py.Raise e, w')
  | (Py.Hang, w') => inr (Py.Hang, w')
  end.

Definition get_date_keys (env : Env) : M (list Z) :=
  let* now := today env in
  let* end_range := lift (hour_rounder now) in
  let* start_range := lift (Py.add end_range (- Py.timedelta 0 24 0)) in
  fun w =>
    match iterate LOOP_FUEL (date_keys_step env) (start_range, [], w) with
    | inr r => r
    | inl (_, _, w') => (Py.Hang, w')
    end.

Definition set_datetime (i : Dynamo.Item) (v : Z) : Dynamo.Item :=
  {| Dynamo.datetime := v; Dynamo.date := Dynamo.date i; Dynamo.flows := Dynamo.flows i |}.

(** The body of the loop of [convert_to_epoch] for one item. *)
Definition epoch_item (i : Dynamo.Item) : Py.outcome Dynamo.Item :=
  match Py.strptime_YmdHMS (Py.str_int (Dynamo.datetime i)) with
  | Py.Ok time_stamp => Py.Ok (set_datetime i (Py.timegm time_stamp))
  | Py.Raise e => Py.Raise e
  | Py.Hang => Py.Hang
  end.

Fixpoint epoch_items (l : list Dynamo.Item) : Py.outcome (list Dynamo.Item) :=
  match l with
  | [] => Py.Ok []
  | i :: l' =>
      match epoch_item i with
      | Py.Ok i' =>
          match epoch_items l' with
          | Py.Ok out => Py.Ok (i' :: out)
          | other => other
          end
      | Py.Raise e => Py.Raise e
      | Py.Hang => Py.Hang
      end
  end.

Definition TABLE : string := "interconnector-data".

Definition KeyError (k : string) : Py.exn := Py.PyError "KeyError" k.

(** [d[k] = v] on a dict. *)
Fixpoint dict_set {V : Type} (k : string) (v : V) (d : list (string * V)) : list (string * V) :=
  match d with
  | [] => [(k, v)]
  | (k', v') :: d' => if String.eqb k k' then (k, v) :: d' else (k', v') :: dict_set k v d'
  end.

Definition convert_to_epoch (interconnector_data : Dynamo.BatchGetResult)
  : Py.outcome Dynamo.BatchGetResult :=
  let wrap (e : Py.exn) :=
    Py.Raise (Py.PyError "Exception" ("Error converting to epoch: " ++ Py.str_exn e)) in
  match Dynamo.Responses interconnector_data with
  | None => wrap (KeyError "Responses")
  | Some responses =>
      match Dynamo.dict_get TABLE responses with
      | None => wrap (KeyError TABLE)
      | Some items =>
          match epoch_items items with
          | Py.Ok items' =>
              Py.Ok {| Dynamo.Responses := Some (dict_set TABLE items' responses) |}
          | Py.Raise e => wrap e
          | Py.Hang => Py.Hang
          end
      end
  end.

(** [sorted(items, key=lambda x: x["datetime"])]: a stable sort. *)
Fixpoint insert_sorted (x : Dynamo.Item) (l : list Dynamo.Item) : list Dynamo.Item :=
  match l with
  | [] => [x]
  | y :: l' =>
      if Dynamo.datetime x <=? Dynamo.datetime y then x :: l
      else y :: insert_sorted x l'
  end.

Definition sorted (l : list Dynamo.Item) : list Dynamo.Item :=
  fold_right insert_sorted [] l.

(** [{"datetime": dt, "date": int(str(dt)[:8])}] *)
Definition key_for (dt : Z) : Py.outcome (Z * Z) :=
  match Py.int_str (Py.prefix 8 (Py.str_int dt)) with
  | Py.Ok d => Py.Ok (dt, d)
  | Py.Raise e => Py.Raise e
  | Py.Hang => Py.Hang
  end.

Definition get_todays_data_from_db (env : Env) : M Dynamo.BatchGetResult :=
  try_except
    (let* date_keys := get_date_keys env in
     let* keys := map_m (fun dt => lift (key_for dt)) date_keys in
     let* data := batch_get_item env keys in
     match Dynamo.Responses data with
     | Some responses =>
         match Dynamo.dict_get TABLE responses with
         | Some items =>
             let data :=
               {| Dynamo.Responses := Some (dict_set TABLE (sorted items) responses) |} in
             lift (convert_to_epoch data)
         | None => raise (Py.PyError "Exception" "No data found in DynamoDB response")
         end
     | None => raise (Py.PyError "Exception" "No data found in DynamoDB response")
     end)
    (fun e =>
       raise (Py.PyError "Exception"
                ("Error fetching data from DynamoDB: " ++ Py.str_exn e))).

(** [DecimalEncoder.default] on a [Decimal] with an integer value, as the
    store hands out every number: [float(obj)], the nearest binary64. *)
Definition DecimalEncoder_default (obj : Z) : spec_float :=
  binary_normalize Pd.prec Pd.emax obj 0 false.

(** One item as [json.dumps] writes it: [datetime] is by now the [int] of
    [convert_to_epoch]; [date] and the flows are still the [Decimal]s of the
    store and go through the encoder. *)
Definition json_of_item (i : Dynamo.Item) : json :=
  JObject (("datetime"%string, JNumber (Dynamo.datetime i))
           :: ("date"%string, JFloat (DecimalEncoder_default (Dynamo.date i)))
           :: map (fun f => (fst f, JFloat (DecimalEncoder_default (snd f))))
                  (Dynamo.flows i)).

(** The document [json.dumps(result, cls=DecimalEncoder)] writes, as far as
    the member ["Responses"] goes; the answer of the service is kept here
    without its other members. *)
Definition json_of_result (result : Dynamo.BatchGetResult) : json :=
  match Dynamo.Responses result with
  | Some responses =>
      JObject [("Responses"%string,
                JObject (map (fun t => (fst t, JArray (map json_of_item (snd t))))
                             responses))]
  | None => JObject []
  end.

Definition cors_headers : list (string * string) :=
  [("Content-Type", "application/json"); ("Access-Control-Allow-Origin", "*")]%string.

Definition error_response (e : Py.exn) : Response :=
  {| statusCode := 500; headers := Some cors_headers;
     body := JObject [("message"%string,
                       JString ("Error processing request: " ++ Py.str_exn e))] |}.

Definition lambda_handler (env : Env) : M Response :=
  try_except
    (let* result := get_todays_data_from_db env in
     ret {| statusCode := 200; headers := Some cors_headers;
            body := json_of_result result |})
    (fun e => ret (error_response e)).

(** The items a response carries. *)
Definition records (r : Dynamo.BatchGetResult) : list Dynamo.Item :=
  match Dynamo.Responses r with
  | Some responses =>
      match Dynamo.dict_get TABLE responses with
      | Some items => items
      | None => []
      end
  | None => []
  end.

End SecondLambda.

(* ===================================================================== *)
(** * The vocabulary of the statements *)
(* ===================================================================== *)

Import Runtime.

(** ** Time *)

(** A quarter of an hour, in microseconds. *)
Definition QUARTER : Z := 900000000.

(** A valid datetime that lies on a quarter-hour boundary. *)
Definition on_quarter (t : Py.datetime) : Prop :=
  Py.valid t = true /\ Py.to_microseconds t mod QUARTER = 0.

(** The integer that [int(t.strftime("%Y%m%d"))] gives, and the one of the
    time of day. *)
Definition Ymd_value (t : Py.datetime) : Z :=
  ((Py.year t mod 10000) * 100 + Py.month t mod 100) * 100 + Py.day t mod 100.

Definition HMS_value (t : Py.datetime) : Z :=
  ((Py.hour t mod 100) * 100 + Py.minute t mod 100) * 100 + Py.second t mod 100.

(** The [YYYYMMDDHHMMSS] key of a datetime. *)
Definition key_value (t : Py.datetime) : Z := Ymd_value t * 1000000 + HMS_value t.

(** A key whose seconds are 00 and whose minutes are 00, 15, 30 or 45. *)
Definition key_aligned (k : Z) : Prop :=
  k mod 100 = 0 /\
  ((k / 100) mod 100 = 0 \/ (k / 100) mod 100 = 15 \/ (k / 100) mod 100 = 30
   \/ (k / 100) mod 100 = 45).

(** The [n]-th reading of the clock as a position on the time line. *)
Definition reading (env : Env) (n : nat) : Z :=
  clock env n + Py.EPOCH_ORD * Py.US_PER_DAY.

(** [ks] are the keys of the quarter hours after [start]: the [i]-th
    (from 0) is the key of the datetime [i+1] quarters after [start], and it
    was added because [start] plus [i] quarters was not after the time the
    clock read at that test of the loop, its reading number [first + i]. *)
Definition live_window_keys (env : Env) (first : nat) (start : Z) (ks : list Z) : Prop :=
  forall i, (i < length ks)%nat ->
    exists t, Py.valid t = true /\
              Py.to_microseconds t = start + (Z.of_nat i + 1) * QUARTER /\
              nth i ks 0 = key_value t /\
              start + Z.of_nat i * QUARTER <= reading env (first + i).

(** The six fields of a [YYYYMMDDHHMMSS] integer. *)
Definition stamp_fields (dt : Z) : list Z :=
  [dt / 10000000000; (dt / 100000000) mod 100; (dt / 1000000) mod 100;
   (dt / 10000) mod 100; (dt / 100) mod 100; dt mod 100].

(** A record after the conversion of the read path: the other fields are
    kept, and [datetime] holds an epoch value that reads back, in UTC, as
    the six fields of the integer it replaces. *)
Definition converted (i i' : Dynamo.Item) : Prop :=
  Dynamo.date i' = Dynamo.date i /\ Dynamo.flows i' = Dynamo.flows i /\
  Py.gmtime (Dynamo.datetime i') = stamp_fields (Dynamo.datetime i).

(** A valid timestamp: a four-digit year, a day that exists, a time of day. *)
Definition valid_stamp (dt : Z) : bool :=
  match stamp_fields dt with
  | [y; m; d; h; mi; s] =>
      (1000 <=? y) && (y <=? 9999) && (1 <=? m) && (m <=? 12)
      && (1 <=? d) && (d <=? Py.days_in_month y m)
      && (h <=? 23) && (mi <=? 59) && (s <=? 59)
  | _ => false
  end.

Definition leap_day (y : Z) : Z := if Py.is_leap y then 1 else 0.

(** [from, from+1, ..., from+n-1] *)
Fixpoint Zrange (from : Z) (n : nat) : list Z :=
  match n with
  | O => []
  | S n' => from :: Zrange (from + 1) n'
  end.

(** The check of one day of a year, leap or not: [month_day] gives a month
    and a day of that month, and the days before them number [n]. *)
Definition month_day_ok (leapyear : bool) (n : Z) : bool :=
  let '(m, d) := Py.month_day leapyear n in
  let sample_year := if leapyear then 2000 else 2001 in
  (1 <=? m) && (m <=? 12) && (1 <=? d) && (d <=? Py.days_in_month sample_year m)
  && (Py.days_before_month sample_year m + d =? n + 1).

(** ** Runs *)

(** The world after one reading of the clock. *)
Definition tick (w : World) : World :=
  {| table := table w; clock_reads := S (clock_reads w) |}.

(** Code that returns or raises, in every world. *)
Definition returns {A : Type} (c : M A) : Prop := forall w, fst (c w) <> Py.Hang.

(** The two queries the ingestion job makes for a country. *)
Definition queries_of (env : Env) (range : Py.datetime * Py.datetime) (code : string)
  : Py.outcome Pd.Series * Py.outcome Pd.Series :=
  (query_crossborder_flows env Entsoe.uk_country_code code (fst range) (snd range),
   query_crossborder_flows env code Entsoe.uk_country_code (fst range) (snd range)).

(** The exception the remote API raises first, when the queries are made
    in the order of the countries, outward before inward. *)
Fixpoint first_failure (env : Env) (range : Py.datetime * Py.datetime)
  (countries : list (string * string)) : option Py.exn :=
  match countries with
  | [] => None
  | (_, code) :: rest =>
      match queries_of env range code with
      | (Py.Raise e, _) => Some e
      | (Py.Ok _, Py.Raise e) => Some e
      | (Py.Ok _, Py.Ok _) => first_failure env range rest
      | _ => None
      end
  end.

(** One of the two queries for a country fails. *)
Definition query_fails (env : Env) (range : Py.datetime * Py.datetime) (code : string) : Prop :=
  (exists e, fst (queries_of env range code) = Py.Raise e) \/
  (exists e, snd (queries_of env range code) = Py.Raise e).

(** ** Sanitization *)

(** The value [(-1)^s * m * 2^e] rounded toward zero, as a quotient. *)
Definition toward_zero (s : bool) (m : positive) (e : Z) : Z :=
  Z.quot ((if s then - Z.pos m else Z.pos m) * 2 ^ Z.max e 0) (2 ^ Z.max (- e) 0).

(** What the sanitization step owes for one cell: a 64-bit integer, 0 for
    NaN and the infinities, the value rounded toward zero for a finite value
    whose integer part fits 64 bits. *)
Definition sanitized (v : spec_float) (z : Z) : Prop :=
  Pd.INT64_MIN <= z <= Pd.INT64_MAX /\
  match v with
  | S754_nan | S754_infinity _ | S754_zero _ => z = 0
  | S754_finite s m e =>
      Pd.INT64_MIN <= toward_zero s m e <= Pd.INT64_MAX -> z = toward_zero s m e
  end.

Definition rows_sanitized (r : Py.datetime * list spec_float) (r' : Py.datetime * list Z) : Prop :=
  fst r' = fst r /\ Forall2 sanitized (snd r) (snd r').

(** One cell after [replace] and [fillna]. *)
Definition sanitize_cell (v : spec_float) : spec_float :=
  let v := match v with S754_infinity _ => Pd.NaN | _ => v end in
  if Pd.is_nan v then S754_zero false else v.

(** ** Concrete runs *)

(** 2024-01-02 10:20:00 UTC, in microseconds since the epoch. *)
Definition at_1020 : Z := 1704190800000000.

Definition now_1020 : Py.datetime :=
  {| Py.year := 2024; Py.month := 1; Py.day := 2; Py.hour := 10; Py.minute := 20;
     Py.second := 0; Py.microsecond := 0 |}.

Definition midnight : Py.datetime :=
  {| Py.year := 2024; Py.month := 1; Py.day := 1; Py.hour := 0; Py.minute := 0;
     Py.second := 0; Py.microsecond := 0 |}.

(** 10.0 *)
Definition ten : spec_float := S754_finite false 5629499534213120 (-49).

(** 9223372036854775808.0, that is 2^63 *)
Definition two_pow_63 : spec_float := S754_finite false 4503599627370496 11.

(** A world in which nothing fails: the clock stands at 10:20, every query
    returns one reading, a batch read is answered in full, the last key
    first. *)
Definition quiet_env : Env :=
  {| clock := fun _ => at_1020;
     query_crossborder_flows := fun _ _ _ _ => Py.Ok [(now_1020, ten)];
     get_item_error := fun _ => None;
     put_item_error := fun _ => None;
     batch_get_item_error := fun _ => None;
     batch_get_item_answer := fun keys => rev keys;
     concat_unaligned := fun _ => Py.Raise (Py.PyError "InvalidIndexError"
                                           "Reindexing only valid with uniquely valued Index objects") |}.

Definition empty_world : World := {| table := ∅; clock_reads := 0 |}.

(** The store refuses every read of an item. *)
Definition store_down_env : Env :=
  {| clock := fun _ => at_1020;
     query_crossborder_flows := fun _ _ _ _ => Py.Ok [(now_1020, ten)];
     get_item_error := fun _ => Some (Dynamo.ClientError "ServiceUnavailable");
     put_item_error := fun _ => None;
     batch_get_item_error := fun _ => None;
     batch_get_item_answer := fun keys => keys;
     concat_unaligned := fun _ => Py.Raise (Py.PyError "InvalidIndexError"
                                           "Reindexing only valid with uniquely valued Index objects") |}.

(** The remote API answers every query with the given HTTP status. *)
Definition http_error_env (status : Z) : Env :=
  {| clock := fun _ => at_1020;
     query_crossborder_flows := fun _ _ _ _ =>
       Py.Raise (Py.HTTPError "Client Error" (Some status));
     get_item_error := fun _ => None;
     put_item_error := fun _ => None;
     batch_get_item_error := fun _ => None;
     batch_get_item_answer := fun keys => keys;
     concat_unaligned := fun _ => Py.Raise (Py.PyError "InvalidIndexError"
                                           "Reindexing only valid with uniquely valued Index objects") |}.

(** The inward query for the Netherlands times out; the others return. *)
Definition timeout_env : Env :=
  {| clock := fun _ => at_1020;
     query_crossborder_flows := fun from _ _ _ =>
       if String.eqb from "10YNL----------L"
       then Py.Raise (Py.PyError "ConnectTimeout" "timed out")
       else Py.Ok [(now_1020, ten)];
     get_item_error := fun _ => None;
     put_item_error := fun _ => None;
     batch_get_item_error := fun _ => None;
     batch_get_item_answer := fun keys => keys;
     concat_unaligned := fun _ => Py.Raise (Py.PyError "InvalidIndexError"
                                           "Reindexing only valid with uniquely valued Index objects") |}.

Definition item_at (dt flow : Z) : Dynamo.Item :=
  {| Dynamo.datetime := dt; Dynamo.date := dt / 1000000;
     Dynamo.flows := [("France"%string, flow)] |}.

Definition world_of (items : list Dynamo.Item) : World :=
  {| table := list_to_map (map (fun i => (Dynamo.key_of i, i)) items); clock_reads := 0 |}.

(** The window the ingestion job asks for at 10:20. *)
Definition range_1020 : Py.datetime * Py.datetime :=
  Eval vm_compute in
    match fst (Entsoe.get_date_range quiet_env empty_world) with
    | Py.Ok range => range
    | _ => (now_1020, now_1020)
    end.

(** The keys the query service asks for at 10:20. *)
Definition keys_1020 : list Z :=
  Eval vm_compute in
    match fst (SecondLambda.get_date_keys quiet_env empty_world) with
    | Py.Ok keys => keys
    | _ => []
    end.

(** A table that holds a record for each of them. *)
Definition full_world : World := world_of (map (fun dt => item_at dt 7) keys_1020).

(** ** The table *)

(** The first record of a list that has the given key. *)
Fixpoint first_with_key (k : Z * Z) (l : list Dynamo.Item) : option Dynamo.Item :=
  match l with
  | [] => None
  | i :: l' => if decide (Dynamo.key_of i = k) then Some i else first_with_key k l'
  end.

(** A store whose reads and writes of single items go through. *)
Definition store_answers (env : Env) : Prop :=
  (forall k, get_item_error env k = None) /\ (forall i, put_item_error env i = None).

(** Every record is filed under its own key, and its date is the leading
    eight digits of its datetime. *)
Definition table_keyed (t : gmap (Z * Z) Dynamo.Item) : Prop :=
  forall k i, t !! k = Some i ->
    Dynamo.key_of i = k /\ Dynamo.date i = Dynamo.datetime i / 1000000.

(** The record the ingestion job builds from one row of the frame: the two
    keys of the timestamp, and under the names of the columns the sanitized
    values. *)
Definition recorded (columns : list string) (row : Py.datetime * list spec_float)
  (i : Dynamo.Item) : Prop :=
  Dynamo.datetime i = key_value (fst row) /\ Dynamo.date i = Ymd_value (fst row) /\
  exists zs, Dynamo.flows i = combine columns zs /\ Forall2 sanitized (snd row) zs.

(** The response of a run in which nothing failed. *)
Definition everything_works : Response :=
  {| statusCode := 200; headers := None; body := JString "Everything works!" |}.

(** Code that leaves the table as it found it, in every world and whatever
    its outcome. *)
Definition reads_only {A : Type} (c : M A) : Prop :=
  forall w, table (snd (c w)) = table w.

(** ** Keys *)

(** The whole seconds of a datetime on the time line. *)
Definition seconds_of (t : Py.datetime) : Z := Py.to_microseconds t / 1000000.

(** The key of a quarter hour that lies after the instant [s0]. *)
Definition key_after (s0 : Z) (k : Z) : Prop :=
  exists t, on_quarter t /\ k = key_value t /\ s0 < Py.to_microseconds t.

(** What holds at every turn of the loop of [get_date_keys] that began at
    [start]: the cursor is on a quarter hour, not before [start]; the keys
    grow, and each is the key of a quarter hour after [start], not after the
    cursor. *)
Definition keys_so_far (start : Py.datetime) (st : SecondLambda.loop_state) : Prop :=
  on_quarter (fst (fst st)) /\
  Py.to_microseconds start <= Py.to_microseconds (fst (fst st)) /\
  StronglySorted Z.lt (snd (fst st)) /\
  Forall (fun k => exists t, on_quarter t /\ k = key_value t /\
                             Py.to_microseconds start < Py.to_microseconds t
                             <= Py.to_microseconds (fst (fst st)))
         (snd (fst st)).

(** The datetime a [YYYYMMDDHHMMSS] integer writes out. *)
Definition stamp_time (dt : Z) : Py.datetime :=
  {| Py.year := dt / 10000000000; Py.month := (dt / 100000000) mod 100;
     Py.day := (dt / 1000000) mod 100; Py.hour := (dt / 10000) mod 100;
     Py.minute := (dt / 100) mod 100; Py.second := dt mod 100;
     Py.microsecond := 0 |}.

(** The composite key the query service asks for. *)
Definition composite (dt : Z) : Z * Z := (dt, dt / 1000000).

(** The generated keys the service answers in a batch read that asks for
    all of them, in the order generated. *)
Definition answered_keys (env : Env) (keys : list Z) : list Z :=
  filter (fun dt => composite dt ∈ batch_answered env (map composite keys)) keys.

(** The epoch value of the instant a [YYYYMMDDHHMMSS] integer writes out. *)
Definition epoch_of (dt : Z) : Z := Py.timegm (stamp_time dt).

(** Records in the order of their [datetime]. *)
Definition by_datetime (a b : Dynamo.Item) : Prop := Dynamo.datetime a <= Dynamo.datetime b.

(** The records of a list that carry the given [datetime], in their order. *)
Definition with_datetime (d : Z) (l : list Dynamo.Item) : list Dynamo.Item :=
  List.filter (fun i => Dynamo.datetime i =? d) l.

(** ** Frames *)

(** Earlier on the time line. *)
Definition earlier (a b : Py.datetime) : Prop :=
  Py.to_microseconds a < Py.to_microseconds b.

(** The difference of two readings taken at the same time. *)
Definition reading_sub (p : (Py.datetime * spec_float) * (Py.datetime * spec_float))
  : Py.datetime * spec_float :=
  (fst (fst p), SFsub Pd.prec Pd.emax (snd (fst p)) (snd (snd p))).

(** Wherever the lower row has no value, the upper row has none. *)
Definition missing_above (upper lower : list spec_float) : Prop :=
  forall c, Pd.is_nan (nth c lower (S754_zero false)) = true ->
            Pd.is_nan (nth c upper Pd.NaN) = true.

(** ** Further concrete runs *)

(** The second record of the list cannot be read. *)
Definition second_read_fails_env : Env :=
  {| clock := fun _ => at_1020;
     query_crossborder_flows := fun _ _ _ _ => Py.Ok [(now_1020, ten)];
     get_item_error := fun k =>
       if decide (k = (20240102103000, 20240102))
       then Some (Dynamo.ClientError "ProvisionedThroughputExceededException")
       else None;
     put_item_error := fun _ => None;
     batch_get_item_error := fun _ => None;
     batch_get_item_answer := fun keys => keys;
     concat_unaligned := fun _ => Py.Raise (Py.PyError "InvalidIndexError"
                                           "Reindexing only valid with uniquely valued Index objects") |}.

(** The store refuses every batch read. *)
Definition batch_down_env : Env :=
  {| clock := fun _ => at_1020;
     query_crossborder_flows := fun _ _ _ _ => Py.Ok [(now_1020, ten)];
     get_item_error := fun _ => None;
     put_item_error := fun _ => None;
     batch_get_item_error := fun _ => Some (Dynamo.ClientError "ServiceUnavailable");
     batch_get_item_answer := fun keys => keys;
     concat_unaligned := fun _ => Py.Raise (Py.PyError "InvalidIndexError"
                                           "Reindexing only valid with uniquely valued Index objects") |}.

(** The frame the ingestion job collects at 10:20 when every query returns
    one reading: one row, one column per country. *)
Definition frame_1020 : Pd.DataFrame :=
  Eval vm_compute in
    match fst (Entsoe.get_all_interconnector_flows quiet_env Entsoe.country_code_non_uk_dict
                 (snd (Entsoe.get_date_range quiet_env empty_world))) with
    | Py.Ok df => df
    | _ => {| Pd.columns := []; Pd.rows := [] |}
    end.

(** 2024-01-02 10:40:30.5 and 11:00:00 *)
Definition at_104030 : Py.datetime :=
  {| Py.year := 2024; Py.month := 1; Py.day := 2; Py.hour := 10; Py.minute := 40;
     Py.second := 30; Py.microsecond := 500000 |}.

Definition at_1100 : Py.datetime :=
  {| Py.year := 2024; Py.month := 1; Py.day := 2; Py.hour := 11; Py.minute := 0;
     Py.second := 0; Py.microsecond := 0 |}.

(* ===================================================================== *)
(** * Properties *)
(* ===================================================================== *)

(** ** The days of one 400-year cycle *)

Lemma In_Zrange (from : Z) (n : nat) (x : Z) :
  from <= x < from + Z.of_nat n -> In x (Zrange from n).
Proof.
  revert from. induction n as [|n IH]; intros from H; [lia|].
  cbn [Zrange]. destruct (Z.eq_dec from x) as [->|Hne]; [left; reflexivity|].
  right. apply IH. lia.
Qed.

Lemma days_in_month_le_31 (y m : Z) : Py.days_in_month y m <= 31.
Proof.
  unfold Py.days_in_month. destruct ((m =? 2) && Py.is_leap y); [lia|].
  destruct (Z.to_nat m) as [|[|[|[|[|[|[|[|[|[|[|[|[|k]]]]]]]]]]]]]; cbn; try lia.
  destruct k; cbn; lia.
Qed.

Lemma month_days_checked :
  forallb (month_day_ok true) (Zrange 0 366) && forallb (month_day_ok false) (Zrange 0 365)
  = true.
Proof. vm_compute. reflexivity. Qed.

Lemma month_day_spec (y n : Z) :
  0 <= n < 365 + (if Py.is_leap y then 1 else 0) ->
  exists m d, Py.month_day (Py.is_leap y) n = (m, d) /\ 1 <= m <= 12
              /\ 1 <= d <= Py.days_in_month y m /\ Py.days_before_month y m + d = n + 1.
Proof.
  intros Hn. pose proof month_days_checked as H. apply andb_true_iff in H.
  destruct H as [Ht Hf]. rewrite forallb_forall in Ht, Hf.
  unfold Py.days_in_month, Py.days_before_month.
  destruct (Py.is_leap y).
  - specialize (Ht n (In_Zrange 0 366 n ltac:(lia))). unfold month_day_ok in Ht.
    destruct (Py.month_day true n) as [m d]. exists m, d.
    unfold Py.days_in_month, Py.days_before_month in Ht.
    change (Py.is_leap 2000) with true in Ht. split; [reflexivity|]. lia.
  - specialize (Hf n (In_Zrange 0 365 n ltac:(lia))). unfold month_day_ok in Hf.
    destruct (Py.month_day false n) as [m d]. exists m, d.
    unfold Py.days_in_month, Py.days_before_month in Hf.
    change (Py.is_leap 2001) with false in Hf. split; [reflexivity|]. lia.
Qed.

(** The year that starts [n100] centuries, [n4] four-year spans and [n1]
    years into a 400-year cycle. *)
Lemma year_of_cycle (n100 n4 n1 : Z) :
  0 <= n100 <= 3 -> 0 <= n4 <= 24 -> 0 <= n1 <= 3 ->
  Py.days_before_year (1 + n100 * 100 + n4 * 4 + n1)
  = n100 * 36524 + n4 * 1461 + n1 * 365 /\
  Py.is_leap (1 + n100 * 100 + n4 * 4 + n1)
  = (n1 =? 3) && (negb (n4 =? 24) || (n100 =? 3)).
Proof.
  intros H100 H4 H1. split.
  - unfold Py.days_before_year. Z.div_mod_to_equations. lia.
  - unfold Py.is_leap.
    destruct (Z.eqb_spec n1 3), (Z.eqb_spec n4 24), (Z.eqb_spec n100 3);
      cbn [andb orb negb];
      destruct (Z.eqb_spec ((1 + n100 * 100 + n4 * 4 + n1) mod 4) 0);
      destruct (Z.eqb_spec ((1 + n100 * 100 + n4 * 4 + n1) mod 100) 0);
      destruct (Z.eqb_spec ((1 + n100 * 100 + n4 * 4 + n1) mod 400) 0);
      cbn [andb orb negb]; try reflexivity; exfalso; Z.div_mod_to_equations; lia.
Qed.

Lemma cycle_day (r : Z) :
  0 <= r < 146097 ->
  exists y m d, Py.cycle_ymd r = (y, m, d) /\ 1 <= y <= 400 /\ 1 <= m <= 12
                /\ 1 <= d <= Py.days_in_month y m /\ Py.ymd2ord y m d = r + 1.
Proof.
  intros Hr. unfold Py.cycle_ymd, Py.DI100Y, Py.DI4Y.
  set (n100 := r / 36524). set (r1 := r mod 36524).
  set (n4 := r1 / 1461). set (r2 := r1 mod 1461).
  set (n1 := r2 / 365). set (r3 := r2 mod 365).
  assert (Hd : r = n100 * 36524 + n4 * 1461 + n1 * 365 + r3
               /\ 0 <= n100 <= 4 /\ 0 <= n4 <= 24 /\ 0 <= n1 <= 4 /\ 0 <= r3 < 365
               /\ (n100 = 4 -> n4 = 0 /\ n1 = 0 /\ r3 = 0)
               /\ (n1 = 4 -> r3 = 0 /\ n4 <= 23)).
  { pose proof (Z.div_mod r 36524 ltac:(lia)) as E1.
    pose proof (Z.mod_pos_bound r 36524 ltac:(lia)) as B1.
    pose proof (Z.div_mod r1 1461 ltac:(lia)) as E2.
    pose proof (Z.mod_pos_bound r1 1461 ltac:(lia)) as B2.
    pose proof (Z.div_mod r2 365 ltac:(lia)) as E3.
    pose proof (Z.mod_pos_bound r2 365 ltac:(lia)) as B3.
    fold n100 r1 in E1, B1. fold n4 r2 in E2, B2. fold n1 r3 in E3, B3.
    clearbody n100 r1 n4 r2 n1 r3. lia. }
  clearbody n100 r1 n4 r2 n1 r3.
  destruct Hd as (Hdec & H100 & H4 & H1 & H3 & Hlast & Hleap).
  destruct (Z.eqb_spec n100 4) as [E100|E100].
  - (* the last day of the cycle *)
    destruct (Hlast E100) as (-> & -> & ->). subst n100. subst r.
    rewrite orb_true_r. exists 400, 12, 31. split; [reflexivity|]. vm_compute.
    repeat split; discriminate.
  - destruct (Z.eqb_spec n1 4) as [E1|E1]; cbn [orb].
    + (* the last day of a leap year *)
      destruct (Hleap E1) as (-> & Hn4). subst n1.
      destruct (year_of_cycle n100 n4 3 ltac:(lia) ltac:(lia) ltac:(lia)) as [Hdby Hl].
      replace (1 + n100 * 100 + n4 * 4 + 4 - 1) with (1 + n100 * 100 + n4 * 4 + 3) by lia.
      assert (Hl' : Py.is_leap (1 + n100 * 100 + n4 * 4 + 3) = true).
      { rewrite Hl. destruct (Z.eqb_spec n4 24); [lia | reflexivity]. }
      eexists _, 12, 31. split; [reflexivity|].
      unfold Py.ymd2ord, Py.days_in_month, Py.days_before_month. rewrite Hdby, Hl'.
      change (Z.to_nat 12) with 12%nat. cbn. lia.
    + destruct (year_of_cycle n100 n4 n1 ltac:(lia) ltac:(lia) ltac:(lia)) as [Hdby Hl].
      rewrite <- Hl.
      destruct (month_day_spec (1 + n100 * 100 + n4 * 4 + n1) r3)
        as (m & d & Hmd & Hm & Hday & Hbefore).
      { destruct (Py.is_leap _); lia. }
      rewrite Hmd. exists (1 + n100 * 100 + n4 * 4 + n1), m, d.
      split; [reflexivity|]. unfold Py.ymd2ord. rewrite Hdby. lia.
Qed.

(** ** The ordinal of a date grows with the date *)

Lemma days_before_year_succ (y : Z) :
  Py.days_before_year (y + 1) = Py.days_before_year y + 365 + leap_day y.
Proof.
  unfold Py.days_before_year, leap_day, Py.is_leap.
  replace (y + 1 - 1) with y by lia.
  destruct (Z.eqb_spec (y mod 4) 0), (Z.eqb_spec (y mod 100) 0), (Z.eqb_spec (y mod 400) 0);
    cbn [andb orb negb]; Z.div_mod_to_equations; lia.
Qed.

Lemma days_before_year_mono (a b : Z) :
  a <= b -> Py.days_before_year a <= Py.days_before_year b.
Proof.
  intros H. unfold Py.days_before_year. Z.div_mod_to_equations. lia.
Qed.

Ltac month_cases m :=
  let H := fresh in
  assert (H : m = 1 \/ m = 2 \/ m = 3 \/ m = 4 \/ m = 5 \/ m = 6 \/ m = 7 \/ m = 8
              \/ m = 9 \/ m = 10 \/ m = 11 \/ m = 12) by lia;
  destruct H as [?|[?|[?|[?|[?|[?|[?|[?|[?|[?|[?|?]]]]]]]]]]]; subst m.

Lemma month_end_le (y m m' : Z) :
  1 <= m -> m < m' -> m' <= 12 ->
  Py.days_before_month y m + Py.days_in_month y m <= Py.days_before_month y m'.
Proof.
  intros H1 H2 H3. unfold Py.days_before_month, Py.days_in_month.
  destruct (Py.is_leap y); month_cases m; month_cases m'; try lia; vm_compute; discriminate.
Qed.

Lemma year_end (y m : Z) :
  1 <= m <= 12 ->
  Py.days_before_month y m + Py.days_in_month y m <= 365 + leap_day y.
Proof.
  intros H. unfold Py.days_before_month, Py.days_in_month, leap_day.
  destruct (Py.is_leap y); month_cases m; vm_compute; discriminate.
Qed.

Lemma days_before_month_nonneg (y m : Z) : 1 <= m <= 12 -> 0 <= Py.days_before_month y m.
Proof.
  intros H. unfold Py.days_before_month.
  destruct (Py.is_leap y); month_cases m; vm_compute; discriminate.
Qed.

Lemma ymd2ord_lt (y m d y' m' d' : Z) :
  1 <= m <= 12 -> 1 <= d <= Py.days_in_month y m ->
  1 <= m' <= 12 -> 1 <= d' <= Py.days_in_month y' m' ->
  y < y' \/ (y = y' /\ (m < m' \/ (m = m' /\ d < d'))) ->
  Py.ymd2ord y m d < Py.ymd2ord y' m' d'.
Proof.
  intros Hm Hd Hm' Hd' Hlt. unfold Py.ymd2ord.
  destruct Hlt as [Hy | [-> [Hmm | [-> Hdd]]]].
  - pose proof (year_end y m Hm).
    pose proof (days_before_year_succ y).
    pose proof (days_before_year_mono (y + 1) y' ltac:(lia)).
    pose proof (days_before_month_nonneg y' m' Hm'). lia.
  - pose proof (month_end_le y' m m' ltac:(lia) Hmm ltac:(lia)). lia.
  - lia.
Qed.

Lemma ymd2ord_inj (y m d y' m' d' : Z) :
  1 <= m <= 12 -> 1 <= d <= Py.days_in_month y m ->
  1 <= m' <= 12 -> 1 <= d' <= Py.days_in_month y' m' ->
  Py.ymd2ord y m d = Py.ymd2ord y' m' d' -> (y, m, d) = (y', m', d').
Proof.
  intros Hm Hd Hm' Hd' He.
  destruct (Z.lt_total y y') as [H|[H|H]].
  - pose proof (ymd2ord_lt y m d y' m' d' Hm Hd Hm' Hd' ltac:(lia)). lia.
  - subst y'. destruct (Z.lt_total m m') as [H|[H|H]].
    + pose proof (ymd2ord_lt y m d y m' d' Hm Hd Hm' Hd' ltac:(lia)). lia.
    + subst m'. unfold Py.ymd2ord in He. repeat f_equal. lia.
    + pose proof (ymd2ord_lt y m' d' y m d Hm' Hd' Hm Hd ltac:(lia)). lia.
  - pose proof (ymd2ord_lt y' m' d' y m d Hm' Hd' Hm Hd ltac:(lia)). lia.
Qed.

(** ** The 400-year period *)

Lemma is_leap_period (k y : Z) : Py.is_leap (k * 400 + y) = Py.is_leap y.
Proof.
  unfold Py.is_leap.
  replace ((k * 400 + y) mod 4) with (y mod 4) by (Z.div_mod_to_equations; lia).
  replace ((k * 400 + y) mod 100) with (y mod 100) by (Z.div_mod_to_equations; lia).
  replace ((k * 400 + y) mod 400) with (y mod 400) by (Z.div_mod_to_equations; lia).
  reflexivity.
Qed.

Lemma days_before_year_period (k y : Z) :
  Py.days_before_year (k * 400 + y) = k * 146097 + Py.days_before_year y.
Proof. unfold Py.days_before_year. Z.div_mod_to_equations. lia. Qed.

Lemma days_in_month_period (k y m : Z) :
  Py.days_in_month (k * 400 + y) m = Py.days_in_month y m.
Proof. unfold Py.days_in_month. rewrite is_leap_period. reflexivity. Qed.

Lemma ymd2ord_period (k y m d : Z) :
  Py.ymd2ord (k * 400 + y) m d = k * 146097 + Py.ymd2ord y m d.
Proof.
  unfold Py.ymd2ord, Py.days_before_month.
  rewrite days_before_year_period, is_leap_period. lia.
Qed.

(** ** [ord2ymd] and [ymd2ord] are inverse to each other *)

Lemma ord2ymd_spec (n : Z) :
  1 <= n <= Py.MAXORDINAL ->
  exists y m d, Py.ord2ymd n = (y, m, d) /\ 1 <= y <= 9999 /\ 1 <= m <= 12
                /\ 1 <= d <= Py.days_in_month y m /\ Py.ymd2ord y m d = n.
Proof.
  unfold Py.MAXORDINAL. intros Hn. unfold Py.ord2ymd, Py.DI400Y.
  destruct (cycle_day ((n - 1) mod 146097)) as (y & m & d & Hc & Hy & Hm & Hd & Ho).
  { apply Z.mod_pos_bound. lia. }
  rewrite Hc. exists ((n - 1) / 146097 * 400 + y), m, d.
  split; [reflexivity|]. rewrite days_in_month_period, ymd2ord_period, Ho.
  assert (Hq : 0 <= (n - 1) / 146097 <= 24) by (Z.div_mod_to_equations; lia).
  repeat split; try lia.
  - (* the year is at most 9999 *)
    destruct (Z.eq_dec ((n - 1) / 146097) 24) as [E|E]; [|lia].
    rewrite E.
    assert (Hr : (n - 1) mod 146097 < 3652059 - 24 * 146097)
      by (Z.div_mod_to_equations; lia).
    destruct (Z_le_gt_dec y 399) as [?|Hgt]; [lia|].
    assert (y = 400) by lia. subst y.
    pose proof (days_before_month_nonneg 400 m Hm).
    unfold Py.ymd2ord in Ho. change (Py.days_before_year 400) with 145731 in Ho. lia.
  - Z.div_mod_to_equations; lia.
Qed.

Lemma days_before_year_nonneg (y : Z) : 1 <= y -> 0 <= Py.days_before_year y.
Proof. intros H. unfold Py.days_before_year. Z.div_mod_to_equations. lia. Qed.

Lemma ymd2ord_range (y m d : Z) :
  1 <= y <= 9999 -> 1 <= m <= 12 -> 1 <= d <= Py.days_in_month y m ->
  1 <= Py.ymd2ord y m d <= Py.MAXORDINAL.
Proof.
  intros Hy Hm Hd. unfold Py.ymd2ord, Py.MAXORDINAL.
  pose proof (days_before_year_nonneg y ltac:(lia)).
  pose proof (days_before_month_nonneg y m Hm).
  pose proof (year_end y m Hm).
  pose proof (days_before_year_succ y).
  pose proof (days_before_year_mono (y + 1) 10000 ltac:(lia)) as Hmax.
  change (Py.days_before_year 10000) with 3652059 in Hmax. lia.
Qed.

Lemma ord2ymd_ymd2ord (y m d : Z) :
  1 <= y <= 9999 -> 1 <= m <= 12 -> 1 <= d <= Py.days_in_month y m ->
  Py.ord2ymd (Py.ymd2ord y m d) = (y, m, d).
Proof.
  intros Hy Hm Hd.
  destruct (ord2ymd_spec _ (ymd2ord_range y m d Hy Hm Hd))
    as (y' & m' & d' & Ho & Hy' & Hm' & Hd' & He).
  rewrite Ho. apply ymd2ord_inj; assumption.
Qed.

(** ** Datetimes on the time line *)

Lemma valid_spec (t : Py.datetime) :
  Py.valid t = true <->
  1 <= Py.year t <= 9999 /\ 1 <= Py.month t <= 12
  /\ 1 <= Py.day t <= Py.days_in_month (Py.year t) (Py.month t)
  /\ 0 <= Py.hour t <= 23 /\ 0 <= Py.minute t <= 59 /\ 0 <= Py.second t <= 59
  /\ 0 <= Py.microsecond t <= 999999.
Proof.
  unfold Py.valid, Py.MINYEAR, Py.MAXYEAR.
  rewrite !andb_true_iff, !Z.leb_le. tauto.
Qed.

Lemma of_day_time_spec (days us : Z) :
  1 <= days <= Py.MAXORDINAL -> 0 <= us < Py.US_PER_DAY ->
  Py.valid (Py.of_day_time days us) = true /\
  Py.to_microseconds (Py.of_day_time days us) = days * Py.US_PER_DAY + us.
Proof.
  intros Hd Hu. unfold Py.of_day_time.
  destruct (ord2ymd_spec days Hd) as (y & m & d & Ho & Hy & Hm & Hdd & He).
  rewrite Ho. unfold Py.US_PER_DAY in *. split.
  - apply valid_spec. cbn [Py.year Py.month Py.day Py.hour Py.minute Py.second Py.microsecond].
    repeat split; try lia; Z.div_mod_to_equations; lia.
  - unfold Py.to_microseconds, Py.toordinal, Py.US_PER_DAY.
    cbn [Py.year Py.month Py.day Py.hour Py.minute Py.second Py.microsecond].
    rewrite He. Z.div_mod_to_equations. lia.
Qed.

Lemma add_spec (t t' : Py.datetime) (delta : Z) :
  Py.add t delta = Py.Ok t' ->
  Py.valid t' = true /\ Py.to_microseconds t' = Py.to_microseconds t + delta.
Proof.
  unfold Py.add. set (total := Py.to_microseconds t + delta).
  destruct ((0 <? total / Py.US_PER_DAY) && (total / Py.US_PER_DAY <=? Py.MAXORDINAL)) eqn:Hb;
    [|discriminate].
  intros H. inversion H; subst t'. clear H.
  apply andb_true_iff in Hb. destruct Hb as [H1 H2].
  apply Z.ltb_lt in H1. apply Z.leb_le in H2.
  destruct (of_day_time_spec (total / Py.US_PER_DAY) (total mod Py.US_PER_DAY)) as [Hv Hu].
  - lia.
  - apply Z.mod_pos_bound. reflexivity.
  - split; [exact Hv|]. rewrite Hu. unfold Py.US_PER_DAY. Z.div_mod_to_equations. lia.
Qed.

Lemma add_ok (t : Py.datetime) (delta : Z) :
  Py.US_PER_DAY <= Py.to_microseconds t + delta < (Py.MAXORDINAL + 1) * Py.US_PER_DAY ->
  exists t', Py.add t delta = Py.Ok t'.
Proof.
  intros H. unfold Py.add.
  assert (Hb : (0 <? (Py.to_microseconds t + delta) / Py.US_PER_DAY)
               && ((Py.to_microseconds t + delta) / Py.US_PER_DAY <=? Py.MAXORDINAL) = true).
  { apply andb_true_iff. rewrite Z.ltb_lt, Z.leb_le.
    unfold Py.US_PER_DAY, Py.MAXORDINAL in *. Z.div_mod_to_equations. lia. }
  rewrite Hb. eexists. reflexivity.
Qed.

Lemma fromtimestamp_spec (us : Z) (t : Py.datetime) :
  Py.fromtimestamp us = Py.Ok t ->
  Py.valid t = true /\ Py.to_microseconds t = us + Py.EPOCH_ORD * Py.US_PER_DAY.
Proof.
  unfold Py.fromtimestamp.
  destruct ((0 <? us / Py.US_PER_DAY + Py.EPOCH_ORD)
            && (us / Py.US_PER_DAY + Py.EPOCH_ORD <=? Py.MAXORDINAL)) eqn:Hb; [|discriminate].
  intros H. inversion H; subst t. clear H.
  apply andb_true_iff in Hb. destruct Hb as [H1 H2].
  apply Z.ltb_lt in H1. apply Z.leb_le in H2.
  destruct (of_day_time_spec (us / Py.US_PER_DAY + Py.EPOCH_ORD) (us mod Py.US_PER_DAY))
    as [Hv Hu].
  - lia.
  - apply Z.mod_pos_bound. reflexivity.
  - split; [exact Hv|]. rewrite Hu. unfold Py.US_PER_DAY, Py.EPOCH_ORD.
    Z.div_mod_to_equations. lia.
Qed.

(** Comparing two datetimes field by field is comparing their places on the
    time line. *)
Lemma le_spec (a b : Py.datetime) :
  Py.valid a = true -> Py.valid b = true ->
  Py.le a b = (Py.to_microseconds a <=? Py.to_microseconds b).
Proof.
  intros Ha Hb. apply valid_spec in Ha, Hb.
  destruct Ha as (Hy & Hm & Hd & Hh & Hmi & Hs & Hu).
  destruct Hb as (Hy' & Hm' & Hd' & Hh' & Hmi' & Hs' & Hu').
  unfold Py.le, Py.fields, Py.lex_le, Py.to_microseconds, Py.toordinal, Py.US_PER_DAY.
  destruct a as [y m d h mi s u], b as [y' m' d' h' mi' s' u'].
  cbn [Py.year Py.month Py.day Py.hour Py.minute Py.second Py.microsecond] in *.
  assert (Hord : forall p q r p' q' r',
             1 <= q <= 12 -> 1 <= r <= Py.days_in_month p q ->
             1 <= q' <= 12 -> 1 <= r' <= Py.days_in_month p' q' ->
             (p < p' \/ (p = p' /\ (q < q' \/ (q = q' /\ r < r')))) ->
             Py.ymd2ord p q r + 1 <= Py.ymd2ord p' q' r').
  { intros. pose proof (ymd2ord_lt p q r p' q' r'). lia. }
  apply eq_true_iff_eq. rewrite Z.leb_le.
  rewrite !orb_true_iff, !andb_true_iff, !Z.ltb_lt, !Z.eqb_eq.
  destruct (Z.lt_total y y') as [H|[H|H]];
    [pose proof (Hord y m d y' m' d' Hm Hd Hm' Hd' ltac:(lia)); lia | |
     pose proof (Hord y' m' d' y m d Hm' Hd' Hm Hd ltac:(lia)); lia].
  subst y'.
  destruct (Z.lt_total m m') as [H|[H|H]];
    [pose proof (Hord y m d y m' d' Hm Hd Hm' Hd' ltac:(lia)); lia | |
     pose proof (Hord y m' d' y m d Hm' Hd' Hm Hd ltac:(lia)); lia].
  subst m'.
  destruct (Z.lt_total d d') as [H|[H|H]];
    [pose proof (Hord y m d y m d' Hm Hd Hm' Hd' ltac:(lia)); lia | |
     pose proof (Hord y m d' y m d Hm' Hd' Hm Hd ltac:(lia)); lia].
  subst d'. lia.
Qed.

(** ** Decimal strings *)

Ltac digit_cases d :=
  let H := fresh in
  assert (H : d = 0 \/ d = 1 \/ d = 2 \/ d = 3 \/ d = 4 \/ d = 5 \/ d = 6 \/ d = 7
              \/ d = 8 \/ d = 9) by lia;
  destruct H as [?|[?|[?|[?|[?|[?|[?|[?|[?|?]]]]]]]]]; subst d.

Lemma digit_val_digit_char (d : Z) :
  0 <= d <= 9 -> Py.digit_val (Py.digit_char d) = Some d.
Proof. intros H. digit_cases d; reflexivity. Qed.

Lemma append_cons (x : ascii) (a b : string) :
  (String x a ++ b)%string = String x (a ++ b)%string.
Proof. reflexivity. Qed.

Lemma append_nil_l (b : string) : ("" ++ b)%string = b.
Proof. reflexivity. Qed.

Lemma append_nil_r (a : string) : (a ++ "")%string = a.
Proof.
  induction a as [|x a IH]; [reflexivity|]. rewrite append_cons, IH. reflexivity.
Qed.

Lemma append_assoc (a b c : string) : ((a ++ b) ++ c = a ++ (b ++ c))%string.
Proof.
  induction a as [|x a IH]; [reflexivity|].
  rewrite !append_cons, IH. reflexivity.
Qed.

Lemma length_append (a b : string) :
  String.length (a ++ b) = (String.length a + String.length b)%nat.
Proof.
  induction a as [|x a IH]; [reflexivity|].
  rewrite append_cons. cbn [String.length]. rewrite IH. reflexivity.
Qed.

Lemma length_zfill (w : nat) (n : Z) : String.length (Py.zfill w n) = w.
Proof.
  revert n. induction w as [|w IH]; intros n; [reflexivity|].
  cbn [Py.zfill]. rewrite length_append, IH. cbn [String.length]. lia.
Qed.

Lemma prefix_append (a b : string) : Py.prefix (String.length a) (a ++ b) = a.
Proof.
  induction a as [|x a IH].
  - rewrite append_nil_l. destruct b; reflexivity.
  - rewrite append_cons. cbn [String.length Py.prefix]. rewrite IH. reflexivity.
Qed.

Lemma pow10_succ (w : nat) : 10 ^ Z.of_nat (S w) = 10 * 10 ^ Z.of_nat w.
Proof. rewrite Nat2Z.inj_succ, Z.pow_succ_r by lia. reflexivity. Qed.

Lemma pow10_pos (w : nat) : 0 < 10 ^ Z.of_nat w.
Proof. apply Z.pow_pos_nonneg; lia. Qed.

(** Reading back [zfill w n]: the digits already read are shifted by [w]
    places and [n mod 10^w] is added. *)
Lemma int_digits_zfill (w : nat) (n : Z) (rest : string) (acc : Z) :
  Py.int_digits (Py.zfill w n ++ rest) acc
  = Py.int_digits rest (acc * 10 ^ Z.of_nat w + n mod 10 ^ Z.of_nat w).
Proof.
  revert n rest acc. induction w as [|w IH]; intros n rest acc.
  - cbn [Py.zfill]. rewrite append_nil_l. change (10 ^ Z.of_nat 0) with 1.
    rewrite Z.mod_1_r. f_equal. lia.
  - cbn [Py.zfill]. rewrite append_assoc, IH, append_cons, append_nil_l.
    cbn [Py.int_digits].
    rewrite digit_val_digit_char by (pose proof (Z.mod_pos_bound n 10); lia).
    f_equal. rewrite pow10_succ.
    pose proof (pow10_pos w) as Hp.
    rewrite (Z.rem_mul_r n 10 (10 ^ Z.of_nat w)) by lia. ring.
Qed.

Lemma zfill_app (a b : nat) (n : Z) :
  Py.zfill (a + b) n = (Py.zfill a (n / 10 ^ Z.of_nat b) ++ Py.zfill b n)%string.
Proof.
  revert n. induction b as [|b IH]; intros n.
  - rewrite Nat.add_0_r. change (10 ^ Z.of_nat 0) with 1. rewrite Z.div_1_r.
    cbn [Py.zfill]. induction (Py.zfill a n) as [|x s IHs]; [reflexivity|].
    rewrite append_cons, <- IHs. reflexivity.
  - rewrite Nat.add_succ_r. cbn [Py.zfill]. rewrite IH, append_assoc.
    rewrite pow10_succ, Z.div_div by (pose proof (pow10_pos b); lia).
    reflexivity.
Qed.

Lemma zfill_mod (w : nat) (n : Z) : Py.zfill w (n mod 10 ^ Z.of_nat w) = Py.zfill w n.
Proof.
  revert n. induction w as [|w IH]; intros n; [reflexivity|].
  cbn [Py.zfill]. rewrite pow10_succ.
  pose proof (pow10_pos w) as Hp.
  rewrite <- (IH (n mod (10 * 10 ^ Z.of_nat w) / 10)), <- (IH (n / 10)).
  rewrite (Z.rem_mul_r n 10 (10 ^ Z.of_nat w)) by lia.
  replace ((n mod 10 + 10 * ((n / 10) mod 10 ^ Z.of_nat w)) / 10)
    with ((n / 10) mod 10 ^ Z.of_nat w)
    by (pose proof (Z.mod_pos_bound n 10); Z.div_mod_to_equations; lia).
  rewrite Z.mod_mod by lia.
  replace ((n mod 10 + 10 * ((n / 10) mod 10 ^ Z.of_nat w)) mod 10) with (n mod 10)
    by (pose proof (Z.mod_pos_bound n 10); Z.div_mod_to_equations; lia).
  reflexivity.
Qed.

(** A number of exactly [k+1] digits prints as its [k+1] digits. *)
Lemma str_digits_zfill (k fuel : nat) (n : Z) :
  10 ^ Z.of_nat k <= n < 10 ^ Z.of_nat (S k) -> (k < fuel)%nat ->
  Py.str_digits fuel n = Py.zfill (S k) n.
Proof.
  revert fuel n. induction k as [|k IH]; intros fuel n Hn Hf.
  - change (10 ^ Z.of_nat 0) with 1 in Hn. change (10 ^ Z.of_nat 1) with 10 in Hn.
    destruct fuel as [|fuel]; [lia|]. cbn [Py.str_digits Py.zfill].
    assert (Hlt : (n <? 10) = true) by (apply Z.ltb_lt; lia). rewrite Hlt.
    rewrite append_nil_l. rewrite Z.mod_small by lia. reflexivity.
  - destruct fuel as [|fuel]; [lia|].
    rewrite !pow10_succ in Hn.
    pose proof (pow10_pos k) as Hp.
    cbn [Py.str_digits]. assert (Hlt : (n <? 10) = false) by (apply Z.ltb_ge; lia). rewrite Hlt.
    rewrite (IH fuel (n / 10)); [reflexivity | | lia].
    rewrite pow10_succ. Z.div_mod_to_equations. lia.
Qed.

Lemma zfill_first (w : nat) (n : Z) :
  Py.zfill (S w) n = String (Py.digit_char ((n / 10 ^ Z.of_nat w) mod 10)) (Py.zfill w n).
Proof.
  change (S w) with (1 + w)%nat. rewrite zfill_app. cbn [Py.zfill].
  rewrite append_nil_l, append_cons, append_nil_l. reflexivity.
Qed.

Lemma int_str_digit (d : Z) (s : string) :
  0 <= d <= 9 ->
  Py.int_str (String (Py.digit_char d) s)
  = match Py.int_digits (String (Py.digit_char d) s) 0 with
    | Some v => Py.Ok v
    | None => Py.Raise (Py.ValueError "invalid literal for int() with base 10")
    end.
Proof. intros H. digit_cases d; reflexivity. Qed.

(** [int] of a string that starts with a padded number. *)
Lemma int_str_zfill (w : nat) (n : Z) (rest : string) :
  Py.int_str (Py.zfill (S w) n ++ rest)
  = match Py.int_digits rest (n mod 10 ^ Z.of_nat (S w)) with
    | Some v => Py.Ok v
    | None => Py.Raise (Py.ValueError "invalid literal for int() with base 10")
    end.
Proof.
  rewrite <- (int_digits_zfill (S w) n rest 0) at 1.
  rewrite zfill_first, append_cons.
  rewrite int_str_digit
    by (pose proof (Z.mod_pos_bound (n / 10 ^ Z.of_nat w) 10); lia).
  reflexivity.
Qed.

Lemma int_digits_zfill_end (w : nat) (n acc : Z) :
  Py.int_digits (Py.zfill w n) acc = Some (acc * 10 ^ Z.of_nat w + n mod 10 ^ Z.of_nat w).
Proof.
  rewrite <- (append_nil_r (Py.zfill w n)), int_digits_zfill. reflexivity.
Qed.

Lemma int_str_zfill_end (w : nat) (n : Z) :
  Py.int_str (Py.zfill (S w) n) = Py.Ok (n mod 10 ^ Z.of_nat (S w)).
Proof.
  rewrite <- (append_nil_r (Py.zfill (S w) n)), int_str_zfill. reflexivity.
Qed.

(** ** The integer keys written by [strftime] *)

Lemma int_strftime_Ymd (t : Py.datetime) :
  Py.int_str (Py.strftime_Ymd t) = Py.Ok (Ymd_value t).
Proof.
  unfold Py.strftime_Ymd.
  rewrite int_str_zfill.
  rewrite int_digits_zfill, int_digits_zfill_end. unfold Ymd_value.
  change (10 ^ Z.of_nat 4) with 10000. change (10 ^ Z.of_nat 2) with 100. reflexivity.
Qed.

Lemma int_strftime_YmdHMS (t : Py.datetime) :
  Py.int_str (Py.strftime_YmdHMS t) = Py.Ok (Ymd_value t * 1000000 + HMS_value t).
Proof.
  unfold Py.strftime_YmdHMS, Py.strftime_Ymd.
  rewrite !append_assoc.
  rewrite int_str_zfill.
  rewrite !int_digits_zfill, int_digits_zfill_end. unfold Ymd_value, HMS_value.
  change (10 ^ Z.of_nat 4) with 10000. change (10 ^ Z.of_nat 2) with 100. f_equal. ring.
Qed.

Lemma HMS_value_range (t : Py.datetime) : 0 <= HMS_value t < 1000000.
Proof.
  unfold HMS_value.
  pose proof (Z.mod_pos_bound (Py.hour t) 100).
  pose proof (Z.mod_pos_bound (Py.minute t) 100).
  pose proof (Z.mod_pos_bound (Py.second t) 100). lia.
Qed.

Lemma str_int_14 (dt : Z) :
  10 ^ 13 <= dt < 10 ^ 14 -> Py.str_int dt = Py.zfill 14 dt.
Proof.
  intros H. unfold Py.str_int.
  assert (Hn : (dt <? 0) = false) by (apply Z.ltb_ge; lia). rewrite Hn.
  apply (str_digits_zfill 13); [exact H|].
  pose proof (Z.log2_le_mono (10 ^ 13) dt ltac:(lia)) as Hl.
  change (Z.log2 (10 ^ 13)) with 43 in Hl. lia.
Qed.

Lemma key_for_14 (dt : Z) :
  10 ^ 13 <= dt < 10 ^ 14 -> SecondLambda.key_for dt = Py.Ok (dt, dt / 1000000).
Proof.
  intros H. unfold SecondLambda.key_for. rewrite (str_int_14 dt H).
  change 14%nat with (8 + 6)%nat. rewrite zfill_app.
  rewrite <- (length_zfill 8 (dt / 10 ^ Z.of_nat 6)) at 1. rewrite prefix_append.
  rewrite int_str_zfill_end.
  change (10 ^ Z.of_nat 6) with 1000000. change (10 ^ Z.of_nat 8) with 100000000.
  rewrite Z.mod_small by (Z.div_mod_to_equations; lia). reflexivity.
Qed.

Lemma convert_row_spec (r : Py.datetime * list Z) :
  Entsoe.convert_row r
  = Py.Ok {| Entsoe.row_datetime := Ymd_value (fst r) * 1000000 + HMS_value (fst r);
             Entsoe.row_date := Ymd_value (fst r);
             Entsoe.row_values := snd r |}.
Proof.
  unfold Entsoe.convert_row. rewrite int_strftime_Ymd, int_strftime_YmdHMS. reflexivity.
Qed.

Lemma convert_rows_spec (rs : list (Py.datetime * list Z)) :
  exists ks, Entsoe.convert_rows rs = Py.Ok ks /\
             Forall (fun k => Entsoe.row_date k = Entsoe.row_datetime k / 1000000) ks.
Proof.
  induction rs as [|r rs (ks & Hk & Hf)]; cbn [Entsoe.convert_rows].
  - exists []. split; [reflexivity | constructor].
  - rewrite convert_row_spec, Hk. eexists. split; [reflexivity|].
    constructor; [|exact Hf]. cbn [Entsoe.row_date Entsoe.row_datetime].
    pose proof (HMS_value_range (fst r)). Z.div_mod_to_equations. lia.
Qed.

(** C6.  On the write path every record made from a frame has
    [date = datetime / 1000000], both numbers being printed from the same
    timestamp; on the read path the date of a 14-digit key [dt], taken from
    the first 8 characters of [str(dt)], is [dt / 1000000]. *)
Theorem date_is_leading_digits :
  (forall df : Pd.IntFrame,
      exists out,
        Entsoe.convert_df_datetime_to_strftime df = Py.Ok out /\
        forall i, In i (Entsoe.convert_df_to_json out) ->
                  Dynamo.date i = Dynamo.datetime i / 1000000) /\
  (forall dt : Z,
      10 ^ 13 <= dt < 10 ^ 14 -> SecondLambda.key_for dt = Py.Ok (dt, dt / 1000000)).
Proof.
  split.
  - intros df. unfold Entsoe.convert_df_datetime_to_strftime.
    destruct (convert_rows_spec (Pd.int_rows df)) as (ks & Hk & Hf). rewrite Hk.
    eexists. split; [reflexivity|]. intros i Hi.
    unfold Entsoe.convert_df_to_json in Hi. cbn [fst snd] in Hi.
    apply in_map_iff in Hi. destruct Hi as (k & <- & Hin).
    cbn [Dynamo.date Dynamo.datetime].
    rewrite List.Forall_forall in Hf. exact (Hf k Hin).
  - exact key_for_14.
Qed.

(** ** Loops *)

Lemma iterate_invariant {S R : Type} (P : S -> Prop) (Q : R -> Prop) (step : S -> S + R) :
  (forall s s', P s -> step s = inl s' -> P s') ->
  (forall s r, P s -> step s = inr r -> Q r) ->
  forall fuel s, P s ->
    match iterate fuel step s with inl s' => P s' | inr r => Q r end.
Proof.
  intros Hstep Hexit. induction fuel as [p IH|p IH|]; intros s Hs; cbn [iterate].
  - destruct (step s) as [s1|r] eqn:E1; [|exact (Hexit s r Hs E1)].
    pose proof (IH s1 (Hstep s s1 Hs E1)) as H1.
    destruct (iterate p step s1) as [s2|r]; [|exact H1].
    exact (IH s2 H1).
  - pose proof (IH s Hs) as H1.
    destruct (iterate p step s) as [s1|r]; [|exact H1].
    exact (IH s1 H1).
  - destruct (step s) as [s1|r] eqn:E1; [exact (Hstep s s1 Hs E1) | exact (Hexit s r Hs E1)].
Qed.

(** A loop whose every turn lowers a measure by at least [d > 0], and that
    stays at or above zero, is over before the fuel is. *)
Lemma iterate_measure {S R : Type} (mu : S -> Z) (d : Z) (step : S -> S + R) :
  (forall s s', step s = inl s' -> 0 <= mu s' /\ mu s' + d <= mu s) ->
  forall fuel s s', iterate fuel step s = inl s' ->
    0 <= mu s' /\ mu s' + Z.pos fuel * d <= mu s.
Proof.
  intros Hstep. induction fuel as [p IH|p IH|]; intros s s' H; cbn [iterate] in H.
  - destruct (step s) as [s1|r] eqn:E1; [|discriminate].
    destruct (iterate p step s1) as [s2|r] eqn:E2; [|discriminate].
    destruct (Hstep s s1 E1), (IH s1 s2 E2), (IH s2 s' H). lia.
  - destruct (iterate p step s) as [s1|r] eqn:E1; [|discriminate].
    destruct (IH s s1 E1), (IH s1 s' H). lia.
  - destruct (Hstep s s' H). lia.
Qed.

Lemma LOOP_FUEL_value : Z.pos LOOP_FUEL = 1099511627776.
Proof. reflexivity. Qed.

Opaque LOOP_FUEL.

(** ** The keys of the query service *)

Lemma on_quarter_add (t t' : Py.datetime) (days hours quarters : Z) :
  Py.to_microseconds t mod QUARTER = 0 ->
  Py.add t (Py.timedelta days hours (15 * quarters)) = Py.Ok t' ->
  on_quarter t'.
Proof.
  intros Hq Ha. destruct (add_spec t t' _ Ha) as [Hv Hu]. split; [exact Hv|].
  rewrite Hu. unfold Py.timedelta, QUARTER in *. Z.div_mod_to_equations. lia.
Qed.

Lemma replace_hour_start_quarter (t : Py.datetime) :
  Py.to_microseconds (Py.replace_hour_start t) mod QUARTER = 0.
Proof.
  unfold Py.to_microseconds, Py.replace_hour_start, Py.toordinal, Py.US_PER_DAY, QUARTER.
  cbn [Py.year Py.month Py.day Py.hour Py.minute Py.second Py.microsecond].
  Z.div_mod_to_equations. lia.
Qed.

Lemma on_quarter_fields (t : Py.datetime) :
  on_quarter t ->
  Py.second t = 0 /\ Py.microsecond t = 0 /\
  (Py.minute t = 0 \/ Py.minute t = 15 \/ Py.minute t = 30 \/ Py.minute t = 45).
Proof.
  intros [Hv Hq]. apply valid_spec in Hv.
  destruct Hv as (Hy & Hm & Hd & Hh & Hmi & Hs & Hu).
  unfold Py.to_microseconds, Py.US_PER_DAY, QUARTER in Hq.
  apply Z.mod_divide in Hq; [|lia]. destruct Hq as [q Hq].
  set (o := Py.toordinal t) in *.
  assert (Hus : Py.microsecond t = 0) by lia.
  assert (Hj : Py.minute t * 60 + Py.second t = 900 * (q - o * 96 - Py.hour t * 4)) by lia.
  assert (Hsec : Py.second t = 0) by lia.
  repeat split; [exact Hsec | exact Hus | lia].
Qed.

Lemma on_quarter_key (t : Py.datetime) :
  on_quarter t -> key_aligned (Ymd_value t * 1000000 + HMS_value t).
Proof.
  intros Hq. destruct (on_quarter_fields t Hq) as (Hs & Hu & Hmi).
  unfold key_aligned, HMS_value. rewrite Hs.
  pose proof (Z.mod_pos_bound (Py.hour t) 100).
  assert (Hm : Py.minute t mod 100 = Py.minute t) by (apply Z.mod_small; lia).
  rewrite Hm. Z.div_mod_to_equations. lia.
Qed.

Lemma date_keys_step_inl (env : Env) (start : Py.datetime) (keys : list Z) (w : World)
  (s' : SecondLambda.loop_state) :
  SecondLambda.date_keys_step env (start, keys, w) = inl s' ->
  exists now start',
    Py.fromtimestamp (clock env (clock_reads w)) = Py.Ok now /\
    Py.le start now = true /\
    Py.add start (Py.timedelta 0 0 15) = Py.Ok start' /\
    s' = (start', keys ++ [key_value start'], tick w).
Proof.
  unfold SecondLambda.date_keys_step, today.
  destruct (Py.fromtimestamp (clock env (clock_reads w))) as [now|e|]; try discriminate.
  destruct (Py.le start now) eqn:Hle; [|discriminate].
  destruct (Py.add start (Py.timedelta 0 0 15)) as [start'|e|]; try discriminate.
  rewrite int_strftime_YmdHMS. intros H. inversion H; subst s'.
  exists now, start'. repeat split; try reflexivity. exact Hle.
Qed.

Lemma date_keys_step_inr (env : Env) (start : Py.datetime) (keys : list Z) (w : World)
  (o : Py.outcome (list Z)) (w' : World) :
  SecondLambda.date_keys_step env (start, keys, w) = inr (o, w') ->
  w' = tick w /\ o <> Py.Hang /\
  forall ks, o = Py.Ok ks ->
    ks = keys /\
    exists now, Py.fromtimestamp (clock env (clock_reads w)) = Py.Ok now /\
                Py.le start now = false.
Proof.
  unfold SecondLambda.date_keys_step, today.
  destruct (Py.fromtimestamp (clock env (clock_reads w))) as [now|e|] eqn:Hn.
  - destruct (Py.le start now) eqn:Hle.
    + unfold Py.add.
      destruct ((0 <? _) && _); [rewrite int_strftime_YmdHMS; discriminate|].
      intros H. inversion H; subst. split; [reflexivity|]. split; discriminate.
    + intros H. inversion H; subst. split; [reflexivity|]. split; [discriminate|].
      intros ks Hks. inversion Hks; subst. split; [reflexivity|].
      exists now. split; [reflexivity | exact Hle].
  - intros H. inversion H; subst. split; [reflexivity|]. split; discriminate.
  - unfold Py.fromtimestamp in Hn. destruct ((0 <? _) && _); discriminate.
Qed.

Lemma get_date_keys_run (env : Env) (w : World) (o : Py.outcome (list Z)) (w' : World) :
  SecondLambda.get_date_keys env w = (o, w') ->
  ((exists e, o = Py.Raise e) /\ w' = tick w) \/
  exists now end_range start_range,
    Py.fromtimestamp (clock env (clock_reads w)) = Py.Ok now /\
    SecondLambda.hour_rounder now = Py.Ok end_range /\
    Py.add end_range (- Py.timedelta 0 24 0) = Py.Ok start_range /\
    match iterate LOOP_FUEL (SecondLambda.date_keys_step env) (start_range, [], tick w) with
    | inr r => r = (o, w')
    | inl (_, _, w'') => (o, w') = (Py.Hang, w'')
    end.
Proof.
  unfold SecondLambda.get_date_keys, bind, lift, today. fold (tick w).
  destruct (Py.fromtimestamp (clock env (clock_reads w))) as [now|e|] eqn:Hn.
  - destruct (SecondLambda.hour_rounder now) as [end_range|e|] eqn:He.
    + destruct (Py.add end_range (- Py.timedelta 0 24 0)) as [start_range|e|] eqn:Hs.
      * intros H. right. exists now, end_range, start_range.
        split; [reflexivity|]. split; [exact He|]. split; [exact Hs|].
        destruct (iterate LOOP_FUEL (SecondLambda.date_keys_step env) (start_range, [], tick w))
          as [[[a b] c]|r]; [symmetry; exact H | exact H].
      * intros H. inversion H. left. split; [eexists; reflexivity | reflexivity].
      * unfold Py.add in Hs. destruct ((0 <? _) && _); discriminate.
    + intros H. inversion H. left. split; [eexists; reflexivity | reflexivity].
    + unfold SecondLambda.hour_rounder, Py.add in He. destruct ((0 <? _) && _); discriminate.
  - intros H. inversion H. left. split; [eexists; reflexivity | reflexivity].
  - unfold Py.fromtimestamp in Hn. destruct ((0 <? _) && _); discriminate.
Qed.

(** C10.  Whatever the clock reads, every key that [get_date_keys] returns
    has 00 in its seconds field and 00, 15, 30 or 45 in its minutes field. *)
Theorem date_keys_on_quarter_hours (env : Env) (w : World) (keys : list Z) :
  fst (SecondLambda.get_date_keys env w) = Py.Ok keys ->
  forall k, In k keys ->
    k mod 100 = 0 /\
    ((k / 100) mod 100 = 0 \/ (k / 100) mod 100 = 15 \/ (k / 100) mod 100 = 30
     \/ (k / 100) mod 100 = 45).
Proof.
  intros Hk.
  destruct (SecondLambda.get_date_keys env w) as [o w'] eqn:Hg. cbn [fst] in Hk. subst o.
  destruct (get_date_keys_run env w _ _ Hg)
    as [[[e He] _] | (now & end_range & start & Hn & He & Hs & Hit)]; [discriminate|].
  assert (Hstart : on_quarter start).
  { apply (on_quarter_add end_range start 0 (-24) 0); [|exact Hs].
    unfold SecondLambda.hour_rounder in He.
    apply (on_quarter_add _ end_range 0 (Py.minute now / 30) 0) in He.
    - apply He.
    - apply replace_hour_start_quarter. }
  pose proof (iterate_invariant
    (fun st : SecondLambda.loop_state =>
       on_quarter (fst (fst st)) /\ Forall key_aligned (snd (fst st)))
    (fun r : Py.outcome (list Z) * World =>
       forall ks, fst r = Py.Ok ks -> Forall key_aligned ks)
    (SecondLambda.date_keys_step env)) as Hinv.
  specialize (Hinv ltac:(
    intros [[st ks] w0] s' [Hq Hks] Hstep;
    destruct (date_keys_step_inl env st ks w0 s' Hstep) as (now' & st' & _ & _ & Ha & ->);
    cbn [fst snd] in *;
    assert (Hq' : on_quarter st')
      by (apply (on_quarter_add st st' 0 0 1); [apply Hq | exact Ha]);
    split; [exact Hq' |];
    apply Forall_app; split; [exact Hks | constructor; [apply on_quarter_key; exact Hq' | constructor]])).
  specialize (Hinv ltac:(
    intros [[st ks] w0] [o w1] [Hq Hks] Hstep ks' Hok;
    destruct (date_keys_step_inr env st ks w0 o w1 Hstep) as (_ & _ & Hex);
    cbn [fst snd] in *;
    destruct (Hex ks' Hok) as [-> _]; exact Hks)).
  specialize (Hinv LOOP_FUEL (start, [], tick w) ltac:(split; [exact Hstart | constructor])).
  destruct (iterate LOOP_FUEL (SecondLambda.date_keys_step env) (start, [], tick w))
    as [[[a b] c]|r]; [discriminate|]. subst r.
  specialize (Hinv keys eq_refl). rewrite Forall_forall in Hinv.
  intros k Hin. exact (Hinv k (proj2 (list_elem_of_In _ _) Hin)).
Qed.

(** ** Everything returns *)

Lemma returns_ret {A : Type} (a : A) : returns (ret a).
Proof. intros w. discriminate. Qed.

Lemma returns_raise {A : Type} (e : Py.exn) : returns (raise e : M A).
Proof. intros w. discriminate. Qed.

Lemma returns_lift {A : Type} (o : Py.outcome A) : o <> Py.Hang -> returns (lift o).
Proof. intros H w. exact H. Qed.

Lemma returns_bind {A B : Type} (c : M A) (k : A -> M B) :
  returns c -> (forall a, returns (k a)) -> returns (bind c k).
Proof.
  intros Hc Hk w. unfold bind. specialize (Hc w).
  destruct (c w) as [[a|e|] w']; cbn [fst] in *; [apply Hk | discriminate | congruence].
Qed.

Lemma returns_try_except {A : Type} (c : M A) (h : Py.exn -> M A) :
  returns c -> (forall e, returns (h e)) -> returns (try_except c h).
Proof.
  intros Hc Hh w. unfold try_except. specialize (Hc w).
  destruct (c w) as [[a|e|] w']; cbn [fst] in *; [discriminate | apply Hh | congruence].
Qed.

Lemma returns_map_m {A B : Type} (f : A -> M B) (xs : list A) :
  (forall x, returns (f x)) -> returns (map_m f xs).
Proof.
  intros Hf. induction xs as [|x xs IH]; cbn [map_m]; [apply returns_ret|].
  apply returns_bind; [apply Hf|]. intros y.
  apply returns_bind; [exact IH|]. intros ys. apply returns_ret.
Qed.

Lemma int_str_returns (s : string) : Py.int_str s <> Py.Hang.
Proof.
  unfold Py.int_str.
  repeat match goal with
         | |- context [match ?x with _ => _ end] => destruct x
         end; discriminate.
Qed.

Lemma int_all_returns (l : list string) : Py.int_all l <> Py.Hang.
Proof.
  induction l as [|s l IH]; cbn [Py.int_all]; [discriminate|].
  pose proof (int_str_returns s).
  destruct (Py.int_str s); [|discriminate|congruence].
  destruct (Py.int_all l); [discriminate|discriminate|congruence].
Qed.

Lemma strptime_returns (s : string) : Py.strptime_YmdHMS s <> Py.Hang.
Proof.
  unfold Py.strptime_YmdHMS.
  destruct (Py.re_match _ s) as [[found [|c rest]]|]; try discriminate.
  pose proof (int_all_returns found).
  destruct (Py.int_all found) as [l|e|]; [|discriminate|congruence].
  repeat match goal with
         | |- context [match ?x with _ => _ end] => destruct x
         end; discriminate.
Qed.

Lemma epoch_items_returns (l : list Dynamo.Item) : SecondLambda.epoch_items l <> Py.Hang.
Proof.
  induction l as [|i l IH]; cbn [SecondLambda.epoch_items]; [discriminate|].
  unfold SecondLambda.epoch_item. pose proof (strptime_returns (Py.str_int (Dynamo.datetime i))).
  destruct (Py.strptime_YmdHMS _); [|discriminate|congruence].
  destruct (SecondLambda.epoch_items l); [discriminate|discriminate|congruence].
Qed.

Lemma convert_to_epoch_returns (d : Dynamo.BatchGetResult) :
  SecondLambda.convert_to_epoch d <> Py.Hang.
Proof.
  unfold SecondLambda.convert_to_epoch.
  destruct (Dynamo.Responses d) as [r|]; [|discriminate].
  destruct (Dynamo.dict_get _ r) as [items|]; [|discriminate].
  pose proof (epoch_items_returns items).
  destruct (SecondLambda.epoch_items items); [discriminate|discriminate|congruence].
Qed.

Lemma key_for_returns (dt : Z) : SecondLambda.key_for dt <> Py.Hang.
Proof.
  unfold SecondLambda.key_for. pose proof (int_str_returns (Py.prefix 8 (Py.str_int dt))).
  destruct (Py.int_str _); [discriminate|discriminate|congruence].
Qed.

Lemma batch_get_item_returns (env : Env) (keys : list (Z * Z)) :
  returns (batch_get_item env keys).
Proof.
  intros w. unfold batch_get_item. destruct keys as [|k keys]; [discriminate|].
  destruct (batch_get_item_error env (k :: keys)); [discriminate|].
  destruct (_ <=? _)%nat; discriminate.
Qed.

Lemma valid_on_time_line (t : Py.datetime) :
  Py.valid t = true ->
  Py.US_PER_DAY <= Py.to_microseconds t < (Py.MAXORDINAL + 1) * Py.US_PER_DAY.
Proof.
  intros Hv. apply valid_spec in Hv.
  destruct Hv as (Hy & Hm & Hd & Hh & Hmi & Hs & Hu).
  pose proof (ymd2ord_range _ _ _ Hy Hm Hd) as Ho.
  unfold Py.to_microseconds, Py.toordinal, Py.US_PER_DAY, Py.MAXORDINAL in *. lia.
Qed.

(** The loop of [get_date_keys] always ends: every turn moves the cursor a
    quarter of an hour on, and no datetime lies beyond the year 9999. *)
Lemma get_date_keys_returns (env : Env) : returns (SecondLambda.get_date_keys env).
Proof.
  intros w. destruct (SecondLambda.get_date_keys env w) as [o w'] eqn:Hg. cbn [fst].
  destruct (get_date_keys_run env w o w' Hg)
    as [[[e He] _] | (now & end_range & start & Hn & He & Hs & Hit)]; [subst o; discriminate|].
  destruct (iterate LOOP_FUEL (SecondLambda.date_keys_step env) (start, [], tick w))
    as [[[st ks] w1]|r] eqn:Hi.
  - exfalso.
    pose proof (iterate_measure
      (fun s : SecondLambda.loop_state =>
         (Py.MAXORDINAL + 1) * Py.US_PER_DAY - Py.to_microseconds (fst (fst s)))
      QUARTER (SecondLambda.date_keys_step env)) as Hmu.
    specialize (Hmu ltac:(
      intros [[a ks0] w0] s' Hstep;
      destruct (date_keys_step_inl env a ks0 w0 s' Hstep) as (n' & a' & _ & _ & Ha & ->);
      destruct (add_spec a a' _ Ha) as [Hv Hu];
      pose proof (valid_on_time_line a' Hv);
      cbn [fst snd]; unfold Py.timedelta, QUARTER, Py.US_PER_DAY, Py.MAXORDINAL in *; lia)).
    specialize (Hmu _ _ _ Hi). cbn [fst snd] in Hmu.
    destruct (add_spec _ _ _ Hs) as [Hv _].
    pose proof (valid_on_time_line start Hv) as Hb.
    rewrite LOOP_FUEL_value in Hmu.
    unfold QUARTER, Py.US_PER_DAY, Py.MAXORDINAL in *. lia.
  - subst r.
    pose proof (iterate_invariant (fun _ : SecondLambda.loop_state => True)
                  (fun r : Py.outcome (list Z) * World => fst r <> Py.Hang)
                  (SecondLambda.date_keys_step env)) as Hinv.
    specialize (Hinv ltac:(intros; exact I)).
    specialize (Hinv ltac:(
      intros [[a ks0] w0] [o1 w1] _ Hstep;
      destruct (date_keys_step_inr env a ks0 w0 o1 w1 Hstep) as (_ & Hno & _);
      exact Hno)).
    specialize (Hinv LOOP_FUEL (start, [], tick w) I). rewrite Hi in Hinv. exact Hinv.
Qed.

Lemma get_todays_data_from_db_returns (env : Env) :
  returns (SecondLambda.get_todays_data_from_db env).
Proof.
  unfold SecondLambda.get_todays_data_from_db.
  apply returns_try_except; [|intros e; apply returns_raise].
  apply returns_bind; [apply get_date_keys_returns|]. intros keys.
  apply returns_bind.
  { apply returns_map_m. intros dt. apply returns_lift, key_for_returns. }
  intros ks. apply returns_bind; [apply batch_get_item_returns|]. intros data.
  destruct (Dynamo.Responses data) as [r|]; [|apply returns_raise].
  destruct (Dynamo.dict_get _ r) as [items|]; [|apply returns_raise].
  apply returns_lift, convert_to_epoch_returns.
Qed.

Lemma query_handler_total (env : Env) (w : World) :
  match fst (SecondLambda.get_todays_data_from_db env w) with
  | Py.Ok result =>
      fst (SecondLambda.lambda_handler env w)
      = Py.Ok {| statusCode := 200; headers := Some SecondLambda.cors_headers;
                 body := SecondLambda.json_of_result result |}
  | Py.Raise e =>
      fst (SecondLambda.lambda_handler env w) = Py.Ok (SecondLambda.error_response e)
  | Py.Hang => False
  end.
Proof.
  pose proof (get_todays_data_from_db_returns env w) as Hr.
  unfold SecondLambda.lambda_handler, try_except, bind, ret.
  destruct (SecondLambda.get_todays_data_from_db env w) as [[r|e|] w']; cbn [fst] in *;
    [reflexivity | reflexivity | congruence].
Qed.

(** ** The store *)

Lemma put_existing (env : Env) (w : World) (r v : Dynamo.Item) :
  table w !! Dynamo.key_of r = Some v ->
  snd (Entsoe.put_into_dynamo_db env r w) = w.
Proof.
  intros Hv. unfold Entsoe.put_into_dynamo_db, Entsoe.check_if_exists, bind, get_item.
  fold (Dynamo.key_of r).
  destruct (get_item_error env (Dynamo.key_of r)); [reflexivity|].
  rewrite Hv. reflexivity.
Qed.

Lemma put_outcome (env : Env) (w : World) (r : Dynamo.Item) :
  snd (Entsoe.put_into_dynamo_db env r w) = w \/
  (get_item_error env (Dynamo.key_of r) = None /\
   snd (Entsoe.put_into_dynamo_db env r w)
   = {| table := <[Dynamo.key_of r := r]> (table w); clock_reads := clock_reads w |}).
Proof.
  unfold Entsoe.put_into_dynamo_db, Entsoe.check_if_exists, bind, get_item, put_item.
  fold (Dynamo.key_of r).
  destruct (get_item_error env (Dynamo.key_of r)); [left; reflexivity|].
  destruct (table w !! Dynamo.key_of r); [left; reflexivity|]. cbn.
  destruct (put_item_error env r); [left; reflexivity|]. right. split; reflexivity.
Qed.

(** C3.  If the table already holds a record under the key (datetime, date)
    of [r], inserting [r] leaves the whole state as it was and the stored
    value is still the one stored first; and, from any state, inserting [r]
    twice leaves the same state as inserting it once. *)
Theorem put_into_dynamo_db_first_write_wins (env : Env) (w : World) (r v : Dynamo.Item) :
  table w !! (Dynamo.datetime r, Dynamo.date r) = Some v ->
  snd (Entsoe.put_into_dynamo_db env r w) = w /\
  table (snd (Entsoe.put_into_dynamo_db env r w)) !! (Dynamo.datetime r, Dynamo.date r)
  = Some v /\
  forall w0 : World,
    snd (Entsoe.put_into_dynamo_db env r (snd (Entsoe.put_into_dynamo_db env r w0)))
    = snd (Entsoe.put_into_dynamo_db env r w0).
Proof.
  intros Hv. rewrite (put_existing env w r v Hv). split; [reflexivity|]. split; [exact Hv|].
  intros w0. destruct (put_outcome env w0 r) as [H | [_ H]]; rewrite H.
  - exact H.
  - apply put_existing with (v := r). cbn. apply lookup_insert_eq.
Qed.

(** ** The queries of a run *)

Lemma bind_ok {A B : Type} (c : M A) (k : A -> M B) (w w' : World) (a : A) :
  c w = (Py.Ok a, w') -> bind c k w = k a w'.
Proof. intros H. unfold bind. rewrite H. reflexivity. Qed.

Lemma bind_raise {A B : Type} (c : M A) (k : A -> M B) (w w' : World) (e : Py.exn) :
  c w = (Py.Raise e, w') -> bind c k w = (Py.Raise e, w').
Proof. intros H. unfold bind. rewrite H. reflexivity. Qed.

Lemma bind_hang {A B : Type} (c : M A) (k : A -> M B) (w w' : World) :
  c w = (Py.Hang, w') -> bind c k w = (Py.Hang, w').
Proof. intros H. unfold bind. rewrite H. reflexivity. Qed.

Lemma get_date_range_table (env : Env) (w : World) :
  table (snd (Entsoe.get_date_range env w)) = table w.
Proof.
  unfold Entsoe.get_date_range, bind, lift, ret, today.
  repeat (match goal with
          | |- context [match ?x with _ => _ end] => destruct x
          end; cbn; try reflexivity).
Qed.

Lemma get_net_flow_world (env : Env) (range : Py.datetime * Py.datetime)
  (code : string) (w : World) :
  snd (Entsoe.get_net_flow env range code w) = w.
Proof.
  unfold Entsoe.get_net_flow, try_except, bind, lift, ret, raise.
  destruct (query_crossborder_flows env Entsoe.uk_country_code code (fst range) (snd range))
    as [a|[m [st|]|c m]|]; cbn; try reflexivity;
  destruct (query_crossborder_flows env code Entsoe.uk_country_code (fst range) (snd range))
    as [b|[m' [st'|]|c' m']|]; reflexivity.
Qed.

Lemma collect_flows_world (env : Env) (range : Py.datetime * Py.datetime)
  (countries : list (string * string)) (w : World) :
  snd (Entsoe.collect_flows env range countries w) = w.
Proof.
  induction countries as [|[country code] rest IH]; [reflexivity|].
  cbn [Entsoe.collect_flows]. unfold bind, try_except.
  pose proof (get_net_flow_world env range code w) as Hn.
  destruct (Entsoe.get_net_flow env range code w) as [[s|e|] w1]; cbn in Hn; subst w1;
    cbn; try reflexivity.
  destruct (Entsoe.collect_flows env range rest w) as [[l|e|] w1]; cbn in IH; subst w1;
    reflexivity.
Qed.

Lemma get_net_flow_not_ok (env : Env) (range : Py.datetime * Py.datetime)
  (code : string) (w : World) :
  query_fails env range code ->
  forall s, fst (Entsoe.get_net_flow env range code w) <> Py.Ok s.
Proof.
  unfold query_fails, queries_of, Entsoe.get_net_flow, try_except, bind, lift, ret, raise.
  cbn [fst snd].
  intros [[e He] | [e He]] s; rewrite He.
  - destruct e as [m [st|]|c m]; discriminate.
  - destruct (query_crossborder_flows env Entsoe.uk_country_code code (fst range) (snd range))
      as [a|[m [st|]|c m]|]; cbn; try discriminate;
    destruct e as [m' [st'|]|c' m']; discriminate.
Qed.

Lemma collect_flows_not_ok (env : Env) (range : Py.datetime * Py.datetime)
  (countries : list (string * string)) (w : World) (country code : string) :
  In (country, code) countries -> query_fails env range code ->
  forall l, fst (Entsoe.collect_flows env range countries w) <> Py.Ok l.
Proof.
  intros Hin Hfail. induction countries as [|[c0 code0] rest IH]; [destruct Hin|].
  intros l. cbn [Entsoe.collect_flows]. unfold bind, try_except.
  pose proof (get_net_flow_world env range code0 w) as Hw.
  destruct (Entsoe.get_net_flow env range code0 w) as [[s|e|] w1] eqn:Hn;
    cbn in Hw; subst w1; cbn; try discriminate.
  destruct Hin as [Heq | Hin].
  - inversion Heq; subst. exfalso.
    apply (get_net_flow_not_ok env range code w Hfail s). rewrite Hn. reflexivity.
  - specialize (IH Hin).
    pose proof (collect_flows_world env range rest w) as Hw.
    destruct (Entsoe.collect_flows env range rest w) as [[l'|e|] w1];
      cbn in Hw; subst w1; cbn; try discriminate.
    exfalso. apply (IH l'). reflexivity.
Qed.

Lemma collect_flows_first_failure (env : Env) (range : Py.datetime * Py.datetime)
  (countries : list (string * string)) (w : World) (msg : string) (st : Z) :
  first_failure env range countries = Some (Py.HTTPError msg (Some st)) ->
  Entsoe.collect_flows env range countries w = (Py.Raise (Py.HTTPError msg (Some st)), w).
Proof.
  induction countries as [|[c0 code0] rest IH]; [discriminate|].
  cbn [first_failure Entsoe.collect_flows].
  unfold queries_of, bind, try_except, Entsoe.get_net_flow, lift, ret, raise.
  destruct (query_crossborder_flows env Entsoe.uk_country_code code0 (fst range) (snd range))
    as [a|e|]; cbn; try discriminate.
  - destruct (query_crossborder_flows env code0 Entsoe.uk_country_code (fst range) (snd range))
      as [b|e|]; cbn; try discriminate.
    + intros H. rewrite (IH H). reflexivity.
    + intros H. inversion H; subst. reflexivity.
  - intros H. inversion H; subst. reflexivity.
Qed.

Lemma lambda_handler_world (env : Env) (w : World) :
  snd (Entsoe.lambda_handler env w) = snd (Entsoe.lambda_handler_try env w).
Proof.
  unfold Entsoe.lambda_handler.
  destruct (Entsoe.lambda_handler_try env w) as [[r|[m [st|]|c m]|] w']; reflexivity.
Qed.

Lemma bind_not_ok {A B : Type} (c : M A) (k : A -> M B) (w : World) :
  (forall a, fst (c w) <> Py.Ok a) ->
  snd (bind c k w) = snd (c w) /\ forall b, fst (bind c k w) <> Py.Ok b.
Proof.
  intros Hno. unfold bind. destruct (c w) as [[a|e|] w'].
  - exfalso. apply (Hno a). reflexivity.
  - split; [reflexivity | intros b; discriminate].
  - split; [reflexivity | intros b; discriminate].
Qed.

Lemma get_all_flows_failure (env : Env) (w : World) (range : Py.datetime * Py.datetime)
  (countries : list (string * string)) (country code : string) :
  fst (Entsoe.get_date_range env w) = Py.Ok range ->
  In (country, code) countries ->
  query_fails env range code ->
  table (snd (Entsoe.get_all_interconnector_flows env countries w)) = table w /\
  forall df, fst (Entsoe.get_all_interconnector_flows env countries w) <> Py.Ok df.
Proof.
  intros Hr Hin Hfail. unfold Entsoe.get_all_interconnector_flows.
  pose proof (get_date_range_table env w) as Ht.
  destruct (Entsoe.get_date_range env w) as [o w1] eqn:Hd. cbn [fst snd] in Hr, Ht. subst o.
  rewrite (bind_ok _ _ _ _ _ Hd).
  match goal with
  | |- context [bind (Entsoe.collect_flows env range countries) ?k w1] =>
      destruct (bind_not_ok (Entsoe.collect_flows env range countries) k w1
                  (collect_flows_not_ok env range _ w1 country code Hin Hfail)) as [Hw Hno]
  end.
  rewrite Hw, collect_flows_world. split; [exact Ht | exact Hno].
Qed.

Lemma lambda_handler_not_200 (env : Env) (w : World) :
  (forall r, fst (Entsoe.lambda_handler_try env w) <> Py.Ok r) ->
  forall r, fst (Entsoe.lambda_handler env w) = Py.Ok r -> statusCode r = 500.
Proof.
  intros Hno r. unfold Entsoe.lambda_handler.
  destruct (Entsoe.lambda_handler_try env w) as [[r'|[m [st|]|c m]|] w']; cbn [fst];
    intros Hq; inversion Hq; subst; try reflexivity.
  exfalso. apply (Hno r). reflexivity.
Qed.

(** C9.  When the outward or the inward query of any configured country
    fails, the table after the invocation is the table before it, and the
    invocation does not report success. *)
Theorem query_failure_writes_nothing (env : Env) (w : World)
  (range : Py.datetime * Py.datetime) (country code : string) :
  fst (Entsoe.get_date_range env (snd (Entsoe.get_date_range env w))) = Py.Ok range ->
  In (country, code) Entsoe.country_code_non_uk_dict ->
  query_fails env range code ->
  table (snd (Entsoe.lambda_handler env w)) = table w /\
  forall r, fst (Entsoe.lambda_handler env w) = Py.Ok r -> statusCode r = 500.
Proof.
  intros Hr Hin Hfail.
  assert (Htry : table (snd (Entsoe.lambda_handler_try env w)) = table w /\
                 forall r, fst (Entsoe.lambda_handler_try env w) <> Py.Ok r).
  { unfold Entsoe.lambda_handler_try.
    pose proof (get_date_range_table env w) as Ht.
    destruct (Entsoe.get_date_range env w) as [o w1] eqn:Hd. cbn [fst snd] in Hr, Ht.
    destruct o as [r0|e|].
    - rewrite (bind_ok _ _ _ _ _ Hd).
      destruct (get_all_flows_failure env w1 range _ country code Hr Hin Hfail) as [Ht2 Hno].
      match goal with
      | |- context [bind ?c ?k w1] =>
          destruct (bind_not_ok c k w1 Hno) as [Hw Hno']
      end.
      rewrite Hw. split; [congruence | exact Hno'].
    - rewrite (bind_raise _ _ _ _ _ Hd). split; [exact Ht | intros r; discriminate].
    - rewrite (bind_hang _ _ _ _ Hd). split; [exact Ht | intros r; discriminate]. }
  destruct Htry as [Ht Hno]. split.
  - rewrite lambda_handler_world. exact Ht.
  - apply lambda_handler_not_200. exact Hno.
Qed.

(** C8.  When the first failure among the queries of a run is an HTTP error
    with a response of status [st], the ingestion handler returns statusCode
    500; the body names "API Authentication Failed", gives the message of
    the error and lists the four likely causes when [st] is 403, and carries
    only the message of the error otherwise. *)
Theorem http_error_response (env : Env) (w : World) (r0 range : Py.datetime * Py.datetime)
  (msg : string) (st : Z) :
  fst (Entsoe.get_date_range env w) = Py.Ok r0 ->
  fst (Entsoe.get_date_range env (snd (Entsoe.get_date_range env w))) = Py.Ok range ->
  first_failure env range Entsoe.country_code_non_uk_dict = Some (Py.HTTPError msg (Some st)) ->
  fst (Entsoe.lambda_handler env w)
  = Py.Ok {| statusCode := 500; headers := None;
             body := if st =? 403
                     then JObject
                            [("error", JString "API Authentication Failed");
                             ("details", JString msg);
                             ("possible_causes",
                              JArray [JString "API key not correctly set in SSM";
                                      JString "API key expired or invalid";
                                      JString "IP address blocked";
                                      JString "Request parameters invalid"])]%string
                     else JObject [("error"%string, JString msg)] |}.
Proof.
  intros H0 Hr Hf.
  unfold Entsoe.lambda_handler, Entsoe.lambda_handler_try.
  destruct (Entsoe.get_date_range env w) as [o w1] eqn:Hd. cbn [fst snd] in H0, Hr. subst o.
  rewrite (bind_ok _ _ _ _ _ Hd).
  unfold Entsoe.get_all_interconnector_flows.
  destruct (Entsoe.get_date_range env w1) as [o w2] eqn:Hd2. cbn [fst snd] in Hr. subst o.
  match goal with
  | |- context [bind (bind ?c ?k1) ?k2 w1] =>
      assert (Hb : bind (bind c k1) k2 w1 = (Py.Raise (Py.HTTPError msg (Some st)), w2))
  end.
  { apply bind_raise. rewrite (bind_ok _ _ _ _ _ Hd2). apply bind_raise.
    apply collect_flows_first_failure. exact Hf. }
  rewrite Hb. cbn [fst]. destruct (st =? 403); reflexivity.
Qed.

(** ** The window of keys under the live clock *)

Lemma live_window_keys_snoc (env : Env) (first : nat) (start : Z) (ks : list Z)
  (t : Py.datetime) :
  live_window_keys env first start ks ->
  Py.valid t = true ->
  Py.to_microseconds t = start + (Z.of_nat (length ks) + 1) * QUARTER ->
  start + Z.of_nat (length ks) * QUARTER <= reading env (first + length ks) ->
  live_window_keys env first start (ks ++ [key_value t]).
Proof.
  intros Hw Hv Ht Hle i Hi. rewrite length_app in Hi. cbn [length] in Hi.
  destruct (Nat.eq_dec i (length ks)) as [->|Hne].
  - exists t. rewrite app_nth2, Nat.sub_diag by lia. cbn [nth]. auto.
  - destruct (Hw i ltac:(lia)) as (u & Hu1 & Hu2 & Hu3 & Hu4).
    exists u. rewrite app_nth1 by lia. auto.
Qed.

Lemma hour_rounder_spec (now end_range : Py.datetime) :
  Py.valid now = true ->
  SecondLambda.hour_rounder now = Py.Ok end_range ->
  Py.valid end_range = true /\
  Py.to_microseconds end_range
  = Py.to_microseconds (Py.replace_hour_start now)
    + (if Py.minute now <? 30 then 0 else 3600000000) /\
  Py.to_microseconds now
  = Py.to_microseconds (Py.replace_hour_start now)
    + (Py.minute now * 60 + Py.second now) * 1000000 + Py.microsecond now.
Proof.
  intros Hv He. unfold SecondLambda.hour_rounder in He.
  destruct (add_spec _ _ _ He) as [Hve Hu]. apply valid_spec in Hv.
  destruct Hv as (Hy & Hm & Hd & Hh & Hmi & Hs & Hus).
  split; [exact Hve|]. split.
  - rewrite Hu. unfold Py.timedelta. destruct (Z.ltb_spec (Py.minute now) 30).
    + replace (Py.minute now / 30) with 0 by (Z.div_mod_to_equations; lia). lia.
    + replace (Py.minute now / 30) with 1 by (Z.div_mod_to_equations; lia). lia.
  - unfold Py.to_microseconds, Py.replace_hour_start, Py.toordinal.
    cbn [Py.year Py.month Py.day Py.hour Py.minute Py.second Py.microsecond]. lia.
Qed.

(** What holds at every turn of the loop that began at [start] in the
    world [w]: the cursor is [start] plus one quarter per key, the clock has
    been read once per key, and the keys are those of the window. *)
Lemma date_keys_loop_live (env : Env) (start : Py.datetime) (w : World) :
  Py.valid start = true ->
  match iterate LOOP_FUEL (SecondLambda.date_keys_step env) (start, [], w) with
  | inl _ => True
  | inr (o, _) =>
      forall ks, o = Py.Ok ks ->
        live_window_keys env (clock_reads w) (Py.to_microseconds start) ks /\
        reading env (clock_reads w + length ks)
        < Py.to_microseconds start + Z.of_nat (length ks) * QUARTER
  end.
Proof.
  intros Hv.
  set (P := fun st : SecondLambda.loop_state =>
       Py.valid (fst (fst st)) = true /\
       Py.to_microseconds (fst (fst st))
       = Py.to_microseconds start + Z.of_nat (length (snd (fst st))) * QUARTER /\
       clock_reads (snd st) = (clock_reads w + length (snd (fst st)))%nat /\
       live_window_keys env (clock_reads w) (Py.to_microseconds start) (snd (fst st))).
  set (Q := fun r : Py.outcome (list Z) * World =>
       forall ks, fst r = Py.Ok ks ->
         live_window_keys env (clock_reads w) (Py.to_microseconds start) ks /\
         reading env (clock_reads w + length ks)
         < Py.to_microseconds start + Z.of_nat (length ks) * QUARTER).
  assert (Hstep : forall s s' : SecondLambda.loop_state,
             P s -> SecondLambda.date_keys_step env s = inl s' -> P s').
  { intros [[a ks] w0] s' (Ha & Hpos & Hreads & Hw) Hs. cbn [fst snd] in *.
    destruct (date_keys_step_inl env a ks w0 s' Hs) as (n' & a' & Hn' & Hle & Hadd & ->).
    destruct (fromtimestamp_spec _ _ Hn') as [Hvn Hun].
    rewrite (le_spec a n' Ha Hvn) in Hle. apply Z.leb_le in Hle.
    destruct (add_spec a a' _ Hadd) as [Hva' Hua'].
    assert (Hpos' : Py.to_microseconds a'
                    = Py.to_microseconds start + (Z.of_nat (length ks) + 1) * QUARTER)
      by (rewrite Hua', Hpos; unfold Py.timedelta, QUARTER; lia).
    unfold P. cbn [fst snd tick clock_reads]. split; [exact Hva'|]. split; [|split].
    - rewrite length_app. cbn [length]. rewrite Hpos'. lia.
    - rewrite length_app. cbn [length]. lia.
    - apply live_window_keys_snoc; [exact Hw | exact Hva' | exact Hpos' |].
      unfold reading. rewrite <- Hreads, <- Hun, <- Hpos. exact Hle. }
  assert (Hexit : forall (s : SecondLambda.loop_state) (r : Py.outcome (list Z) * World),
             P s -> SecondLambda.date_keys_step env s = inr r -> Q r).
  { intros [[a ks] w0] [o w1] (Ha & Hpos & Hreads & Hw) Hs ks' Hok. cbn [fst snd] in *.
    destruct (date_keys_step_inr env a ks w0 o w1 Hs) as (_ & _ & Hex).
    destruct (Hex ks' Hok) as [-> (n' & Hn' & Hle)].
    destruct (fromtimestamp_spec _ _ Hn') as [Hvn Hun].
    rewrite (le_spec a n' Ha Hvn) in Hle. apply Z.leb_gt in Hle.
    split; [exact Hw|]. unfold reading. rewrite <- Hreads, <- Hun, <- Hpos. exact Hle. }
  pose proof (iterate_invariant P Q (SecondLambda.date_keys_step env) Hstep Hexit
                LOOP_FUEL (start, [], w)) as Hinv.
  assert (H0 : P (start, [], w)).
  { unfold P. cbn [fst snd length]. split; [exact Hv|]. split; [lia|]. split; [lia|].
    intros i Hi. cbn in Hi. lia. }
  specialize (Hinv H0).
  destruct (iterate LOOP_FUEL (SecondLambda.date_keys_step env) (start, [], w))
    as [s'|[o w']]; [exact I | exact Hinv].
Qed.

(** ** The read path, end to end *)

Lemma map_m_key_for (keys : list Z) (w : World) :
  exists o, map_m (fun dt => lift (SecondLambda.key_for dt)) keys w = (o, w) /\
            forall ks, o = Py.Ok ks -> length ks = length keys /\ map fst ks = keys.
Proof.
  induction keys as [|dt keys IH]; cbn [map_m].
  - eexists. split; [reflexivity|]. intros ks H. inversion H. split; reflexivity.
  - destruct IH as (o & Hm & Hk). unfold bind. unfold lift at 1.
    destruct (SecondLambda.key_for dt) as [k|e|] eqn:Hkey;
      [| eexists; split; [reflexivity | discriminate]
       | eexists; split; [reflexivity | discriminate]].
    rewrite Hm.
    destruct o as [l|e|]; cbn [ret];
      [| eexists; split; [reflexivity | discriminate]
       | eexists; split; [reflexivity | discriminate]].
    eexists. split; [reflexivity|]. intros ks H. inversion H; subst ks.
    destruct (Hk l eq_refl) as [Hl Hmap]. cbn [length map]. rewrite Hl, Hmap.
    unfold SecondLambda.key_for in Hkey.
    destruct (Py.int_str _); inversion Hkey; subst k. split; reflexivity.
Qed.

Lemma insert_sorted_length (x : Dynamo.Item) (l : list Dynamo.Item) :
  length (SecondLambda.insert_sorted x l) = S (length l).
Proof.
  induction l as [|y l IH]; cbn [SecondLambda.insert_sorted]; [reflexivity|].
  destruct (_ <=? _); cbn [length]; [reflexivity | rewrite IH; reflexivity].
Qed.

Lemma sorted_length (l : list Dynamo.Item) : length (SecondLambda.sorted l) = length l.
Proof.
  induction l as [|x l IH]; [reflexivity|].
  unfold SecondLambda.sorted in *. cbn [fold_right length].
  rewrite insert_sorted_length, IH. reflexivity.
Qed.

Lemma epoch_items_length (l out : list Dynamo.Item) :
  SecondLambda.epoch_items l = Py.Ok out -> length out = length l.
Proof.
  revert out. induction l as [|i l IH]; intros out; cbn [SecondLambda.epoch_items].
  - intros H. inversion H. reflexivity.
  - destruct (SecondLambda.epoch_item i); try discriminate.
    destruct (SecondLambda.epoch_items l) as [out'|e|]; try discriminate.
    intros H. inversion H; subst out. cbn [length]. rewrite (IH out' eq_refl). reflexivity.
Qed.

Lemma omap_length_le {A B : Type} (f : A -> option B) (l : list A) :
  (length (omap f l) <= length l)%nat.
Proof.
  induction l as [|x l IH]; [reflexivity|]. cbn [omap list_omap length].
  destruct (f x); cbn [length]; lia.
Qed.

Lemma dict_get_set {V : Type} (k : string) (v : V) (d : list (string * V)) :
  Dynamo.dict_get k (SecondLambda.dict_set k v d) = Some v.
Proof.
  induction d as [|[k' v'] d IH]; cbn [SecondLambda.dict_set Dynamo.dict_get].
  - rewrite String.eqb_refl. reflexivity.
  - destruct (String.eqb k k') eqn:E; cbn [Dynamo.dict_get]; rewrite ?String.eqb_refl, ?E;
      [reflexivity | exact IH].
Qed.

Lemma get_date_keys_table (env : Env) (w : World) :
  table (snd (SecondLambda.get_date_keys env w)) = table w.
Proof.
  destruct (SecondLambda.get_date_keys env w) as [o w'] eqn:Hg. cbn [snd].
  destruct (get_date_keys_run env w o w' Hg)
    as [[_ ->] | (now & end_range & start & _ & _ & _ & Hit)]; [reflexivity|].
  pose proof (iterate_invariant
    (fun st : SecondLambda.loop_state => table (snd st) = table w)
    (fun r : Py.outcome (list Z) * World => table (snd r) = table w)
    (SecondLambda.date_keys_step env)) as Hinv.
  assert (Hstep : forall s s' : SecondLambda.loop_state,
             table (snd s) = table w ->
             SecondLambda.date_keys_step env s = inl s' -> table (snd s') = table w).
  { intros [[a ks] w0] s' Ht Hs.
    destruct (date_keys_step_inl env a ks w0 s' Hs) as (n' & a' & _ & _ & _ & ->).
    exact Ht. }
  assert (Hexit : forall (s : SecondLambda.loop_state) (r : Py.outcome (list Z) * World),
             table (snd s) = table w ->
             SecondLambda.date_keys_step env s = inr r -> table (snd r) = table w).
  { intros [[a ks] w0] [o1 w1] Ht Hs.
    destruct (date_keys_step_inr env a ks w0 o1 w1 Hs) as (-> & _ & _).
    exact Ht. }
  specialize (Hinv Hstep Hexit LOOP_FUEL (start, [], tick w) eq_refl).
  destruct (iterate LOOP_FUEL (SecondLambda.date_keys_step env) (start, [], tick w))
    as [[[a ks] w1]|r].
  - inversion Hit; subst. exact Hinv.
  - subst r. exact Hinv.
Qed.

Lemma batch_get_item_asked (env : Env) (keys : list (Z * Z)) (w : World) :
  (1 <= length keys)%nat ->
  batch_get_item env keys w
  = match batch_get_item_error env keys with
    | Some e => (Py.Raise e, w)
    | None =>
        if (length keys <=? 100)%nat then
          (Py.Ok {| Dynamo.Responses :=
                      Some [("interconnector-data"%string,
                             omap (fun k => table w !! k) (batch_answered env keys))] |},
           w)
        else (Py.Raise too_many_keys, w)
    end.
Proof. destruct keys; [cbn; lia | reflexivity]. Qed.

Lemma batch_answered_length (env : Env) (keys : list (Z * Z)) :
  (length (batch_answered env keys) <= length keys)%nat.
Proof.
  unfold batch_answered. apply submseteq_length, NoDup_submseteq.
  - apply NoDup_remove_dups.
  - intros k Hk. apply elem_of_remove_dups, list_elem_of_filter in Hk. apply Hk.
Qed.

(** What a successful fetch returns: the items stored under the keys the
    service answered, sorted, with their [datetime] converted. *)
Lemma get_todays_data_from_db_ok (env : Env) (w : World) (result : Dynamo.BatchGetResult) :
  fst (SecondLambda.get_todays_data_from_db env w) = Py.Ok result ->
  exists keys ks,
    fst (SecondLambda.get_date_keys env w) = Py.Ok keys /\
    map fst ks = keys /\ length ks = length keys /\
    (1 <= length keys <= 100)%nat /\
    SecondLambda.epoch_items
      (SecondLambda.sorted (omap (fun k => table w !! k) (batch_answered env ks)))
    = Py.Ok (SecondLambda.records result).
Proof.
  unfold SecondLambda.get_todays_data_from_db, try_except.
  pose proof (get_date_keys_table env w) as Ht.
  unfold bind at 1.
  destruct (SecondLambda.get_date_keys env w) as [[keys|e|] w1]; cbn [fst snd] in *;
    try discriminate.
  destruct (map_m_key_for keys w1) as (o & Hm & Hk).
  unfold bind at 1. rewrite Hm.
  destruct o as [ks|e|]; cbn [fst snd] in *; try discriminate.
  destruct (Hk ks eq_refl) as [Hlen Hmap].
  unfold bind.
  destruct ks as [|k0 ks0] eqn:Hks; [discriminate|]. rewrite <- Hks in *.
  assert (H1 : (1 <= length ks)%nat) by (rewrite Hks; cbn [length]; lia).
  clear Hks k0 ks0.
  rewrite (batch_get_item_asked env ks w1 H1).
  destruct (batch_get_item_error env ks); [discriminate|].
  destruct (length ks <=? 100)%nat eqn:Hb; [|discriminate].
  unfold lift, SecondLambda.convert_to_epoch, SecondLambda.TABLE.
  cbn [Dynamo.Responses Dynamo.dict_get SecondLambda.dict_set].
  rewrite !String.eqb_refl.
  cbn [Dynamo.Responses Dynamo.dict_get SecondLambda.dict_set].
  rewrite !String.eqb_refl.
  destruct (SecondLambda.epoch_items _) as [items|e|] eqn:He; cbn [fst]; try discriminate.
  intros H. inversion H; subst result.
  exists keys, ks. split; [reflexivity|]. split; [exact Hmap|]. split; [exact Hlen|].
  apply Nat.leb_le in Hb. split; [lia|].
  unfold SecondLambda.records, SecondLambda.TABLE.
  cbn [Dynamo.Responses Dynamo.dict_get]. rewrite !String.eqb_refl.
  rewrite <- Ht. exact He.
Qed.

(** C5 (as amended).  For every clock, read afresh at every test of the
    loop: [end_range] is the first reading at the start of its hour, one
    hour later when its minute is 30 or more; [start_range] is [end_range]
    minus 24 hours; the keys are those of [start_range] + 15 min, + 30 min,
    ..., each added because the value before the step was not after the time
    the clock read at that test, and the loop ends at the first test the
    value is after the time read.  An invocation that answers with records
    returns at most as many as there are keys, and at most 100; when the
    clock reads the same time all through, the keys number between 95 and
    98. *)
Theorem live_clock_window (env : Env) (w : World) (keys : list Z) :
  fst (SecondLambda.get_date_keys env w) = Py.Ok keys ->
  exists now end_range start_range,
    Py.fromtimestamp (clock env (clock_reads w)) = Py.Ok now /\
    SecondLambda.hour_rounder now = Py.Ok end_range /\
    Py.to_microseconds end_range
    = Py.to_microseconds (Py.replace_hour_start now)
      + (if Py.minute now <? 30 then 0 else 3600000000) /\
    Py.add end_range (- Py.timedelta 0 24 0) = Py.Ok start_range /\
    live_window_keys env (S (clock_reads w)) (Py.to_microseconds start_range) keys /\
    reading env (S (clock_reads w) + length keys)
    < Py.to_microseconds start_range + Z.of_nat (length keys) * QUARTER /\
    (forall result,
        fst (SecondLambda.get_todays_data_from_db env w) = Py.Ok result ->
        (length (SecondLambda.records result) <= length keys <= 100)%nat) /\
    ((forall n, clock env n = clock env (clock_reads w)) ->
     (95 <= length keys <= 98)%nat).
Proof.
  intros Hk.
  destruct (SecondLambda.get_date_keys env w) as [o w'] eqn:Hg. cbn [fst] in Hk. subst o.
  destruct (get_date_keys_run env w _ _ Hg)
    as [[[e He] _] | (now & end_range & start & Hn & He & Hs & Hit)]; [discriminate|].
  destruct (fromtimestamp_spec _ now Hn) as [Hvn Hnow].
  destruct (hour_rounder_spec now end_range Hvn He) as (Hve & Hue & Hun).
  destruct (add_spec _ _ _ Hs) as [Hvs Hus].
  pose proof (date_keys_loop_live env start (tick w) Hvs) as Hloop.
  destruct (iterate LOOP_FUEL (SecondLambda.date_keys_step env) (start, [], tick w))
    as [[[a ks] w1]|[o1 w1]]; [discriminate|].
  inversion Hit; subst o1 w1. destruct (Hloop keys eq_refl) as [Hw Hlt].
  cbn [tick clock_reads] in Hw, Hlt.
  exists now, end_range, start. split; [exact Hn|]. split; [exact He|].
  split; [exact Hue|]. split; [exact Hs|]. split; [exact Hw|]. split; [exact Hlt|].
  split.
  - intros result Hr.
    destruct (get_todays_data_from_db_ok env w result Hr)
      as (keys' & ks' & Hk' & Hmap & Hl & Hlen & Hep).
    rewrite Hg in Hk'. cbn [fst] in Hk'. inversion Hk'; subst keys'.
    split; [|lia].
    rewrite (epoch_items_length _ _ Hep), sorted_length, <- Hl.
    etransitivity; [apply omap_length_le | apply batch_answered_length].
  - intros Hsteady.
    assert (Hread : forall n, reading env n = Py.to_microseconds now)
      by (intros n; unfold reading; rewrite Hsteady, Hnow; reflexivity).
    rewrite Hread in Hlt.
    apply valid_spec in Hvn. destruct Hvn as (_ & _ & _ & _ & Hmi & Hsec & Husec).
    unfold Py.timedelta in Hus. unfold QUARTER in *.
    assert (Hcase :
      (Py.minute now < 30 /\
       Py.to_microseconds end_range = Py.to_microseconds (Py.replace_hour_start now)) \/
      (30 <= Py.minute now /\
       Py.to_microseconds end_range
       = Py.to_microseconds (Py.replace_hour_start now) + 3600000000)).
    { revert Hue. destruct (Z.ltb_spec (Py.minute now) 30); intros Hue;
        cbv beta iota in Hue; [left|right]; lia. }
    assert (Hlow : (95 <= length keys)%nat) by lia.
    split; [exact Hlow|].
    destruct (Hw (length keys - 1)%nat ltac:(lia)) as (t & _ & _ & _ & Hle).
    rewrite Hread in Hle.
    rewrite Nat2Z.inj_sub in Hle by lia. change (Z.of_nat 1) with 1 in Hle.
    unfold QUARTER in Hle. lia.
Qed.

(** ** Parsing a timestamp back *)

Ltac two_digit_cases v lo n :=
  let H := fresh "Hin" in
  assert (H : In v (Zrange lo n)) by (apply In_Zrange; lia);
  cbv [Zrange Z.add Pos.add Pos.succ Pos.add_carry] in H;
  repeat (destruct H as [<-|H]; [|]); [..|destruct H].

Lemma re_match_cons (alt : list Py.char_class) (alts : list (list Py.char_class))
  (groups : list (list (list Py.char_class))) (s : string) :
  Py.re_match ((alt :: alts) :: groups) s
  = match Py.match_alt alt s with
    | Some (txt, s') =>
        match Py.re_match groups s' with
        | Some (found, rest) => Some (txt :: found, rest)
        | None => Py.re_match (alts :: groups) s
        end
    | None => Py.re_match (alts :: groups) s
    end.
Proof. reflexivity. Qed.

(** Try the alternatives of the first group on a string whose head is
    known, until one matches and the rest of the pattern goes through. *)
Ltac try_alternatives Hr :=
  repeat (rewrite re_match_cons;
          match goal with
          | |- context [Py.match_alt ?a ?s] =>
              let r := eval vm_compute in (Py.match_alt a s) in
              change (Py.match_alt a s) with r
          end;
          cbv beta iota;
          try (rewrite Hr; reflexivity)).

Lemma re_m_two_digits (v : Z) (rest : string) (groups : list (list (list Py.char_class)))
  (found : list string) (r : string) :
  1 <= v <= 12 ->
  Py.re_match groups rest = Some (found, r) ->
  Py.re_match (Py.re_m :: groups) (Py.zfill 2 v ++ rest) = Some (Py.zfill 2 v :: found, r).
Proof.
  intros Hv Hr. unfold Py.re_m. two_digit_cases v 1 12%nat; try_alternatives Hr.
Qed.

Lemma re_d_two_digits (v : Z) (rest : string) (groups : list (list (list Py.char_class)))
  (found : list string) (r : string) :
  1 <= v <= 31 ->
  Py.re_match groups rest = Some (found, r) ->
  Py.re_match (Py.re_d :: groups) (Py.zfill 2 v ++ rest) = Some (Py.zfill 2 v :: found, r).
Proof.
  intros Hv Hr. unfold Py.re_d. two_digit_cases v 1 31%nat; try_alternatives Hr.
Qed.

Lemma re_H_two_digits (v : Z) (rest : string) (groups : list (list (list Py.char_class)))
  (found : list string) (r : string) :
  0 <= v <= 23 ->
  Py.re_match groups rest = Some (found, r) ->
  Py.re_match (Py.re_H :: groups) (Py.zfill 2 v ++ rest) = Some (Py.zfill 2 v :: found, r).
Proof.
  intros Hv Hr. unfold Py.re_H. two_digit_cases v 0 24%nat; try_alternatives Hr.
Qed.

Lemma re_M_two_digits (v : Z) (rest : string) (groups : list (list (list Py.char_class)))
  (found : list string) (r : string) :
  0 <= v <= 59 ->
  Py.re_match groups rest = Some (found, r) ->
  Py.re_match (Py.re_M :: groups) (Py.zfill 2 v ++ rest) = Some (Py.zfill 2 v :: found, r).
Proof.
  intros Hv Hr. unfold Py.re_M. two_digit_cases v 0 60%nat; try_alternatives Hr.
Qed.

Lemma re_S_two_digits (v : Z) (rest : string) (groups : list (list (list Py.char_class)))
  (found : list string) (r : string) :
  0 <= v <= 59 ->
  Py.re_match groups rest = Some (found, r) ->
  Py.re_match (Py.re_S :: groups) (Py.zfill 2 v ++ rest) = Some (Py.zfill 2 v :: found, r).
Proof.
  intros Hv Hr. unfold Py.re_S. two_digit_cases v 0 60%nat; try_alternatives Hr.
Qed.

Lemma any_digit_digit_char (d : Z) : 0 <= d <= 9 -> Py.any_digit (Py.digit_char d) = true.
Proof. intros H. digit_cases d; reflexivity. Qed.

Lemma re_Y_four_digits (v : Z) (rest : string) (groups : list (list (list Py.char_class)))
  (found : list string) (r : string) :
  Py.re_match groups rest = Some (found, r) ->
  Py.re_match (Py.re_Y :: groups) (Py.zfill 4 v ++ rest) = Some (Py.zfill 4 v :: found, r).
Proof.
  intros Hr. unfold Py.re_Y. rewrite re_match_cons.
  assert (Hm : Py.match_alt [Py.any_digit; Py.any_digit; Py.any_digit; Py.any_digit]
                 (Py.zfill 4 v ++ rest) = Some (Py.zfill 4 v, rest)).
  { rewrite !zfill_first. cbn [Py.zfill]. rewrite !append_cons, append_nil_l.
    cbn [Py.match_alt].
    rewrite !any_digit_digit_char
      by (match goal with
          | |- 0 <= ?a mod 10 <= 9 => pose proof (Z.mod_pos_bound a 10); lia
          end).
    reflexivity. }
  rewrite Hm, Hr. reflexivity.
Qed.

Lemma stamp_string (dt : Z) :
  Py.zfill 14 dt
  = (Py.zfill 4 (dt / 10000000000) ++ Py.zfill 2 ((dt / 100000000) mod 100)
     ++ Py.zfill 2 ((dt / 1000000) mod 100) ++ Py.zfill 2 ((dt / 10000) mod 100)
     ++ Py.zfill 2 ((dt / 100) mod 100) ++ Py.zfill 2 (dt mod 100) ++ "")%string.
Proof.
  change (Py.zfill 14 dt) with (Py.zfill (4 + 10) dt). rewrite (zfill_app 4 10 dt).
  change (Py.zfill 10 dt) with (Py.zfill (2 + 8) dt). rewrite (zfill_app 2 8 dt).
  change (Py.zfill 8 dt) with (Py.zfill (2 + 6) dt). rewrite (zfill_app 2 6 dt).
  change (Py.zfill 6 dt) with (Py.zfill (2 + 4) dt). rewrite (zfill_app 2 4 dt).
  change (Py.zfill 4 dt) with (Py.zfill (2 + 2) dt). rewrite (zfill_app 2 2 dt).
  change (10 ^ Z.of_nat 10) with 10000000000. change (10 ^ Z.of_nat 8) with 100000000.
  change (10 ^ Z.of_nat 6) with 1000000. change (10 ^ Z.of_nat 4) with 10000.
  change (10 ^ Z.of_nat 2) with 100.
  rewrite <- (zfill_mod 2 (dt / 100000000)), <- (zfill_mod 2 (dt / 1000000)),
    <- (zfill_mod 2 (dt / 10000)), <- (zfill_mod 2 (dt / 100)), <- (zfill_mod 2 dt).
  change (10 ^ Z.of_nat 2) with 100.
  rewrite append_nil_r. reflexivity.
Qed.

Lemma valid_stamp_spec (dt : Z) :
  valid_stamp dt = true ->
  1000 <= dt / 10000000000 <= 9999 /\ 1 <= (dt / 100000000) mod 100 <= 12
  /\ 1 <= (dt / 1000000) mod 100
          <= Py.days_in_month (dt / 10000000000) ((dt / 100000000) mod 100)
  /\ 0 <= (dt / 10000) mod 100 <= 23 /\ 0 <= (dt / 100) mod 100 <= 59
  /\ 0 <= dt mod 100 <= 59.
Proof.
  unfold valid_stamp, stamp_fields. rewrite !andb_true_iff, !Z.leb_le.
  pose proof (Z.mod_pos_bound (dt / 10000) 100).
  pose proof (Z.mod_pos_bound (dt / 100) 100).
  pose proof (Z.mod_pos_bound dt 100). lia.
Qed.

Lemma int_str_two_digits (v : Z) : 0 <= v <= 99 -> Py.int_str (Py.zfill 2 v) = Py.Ok v.
Proof.
  intros H. rewrite int_str_zfill_end. change (10 ^ Z.of_nat 2) with 100.
  rewrite Z.mod_small by lia. reflexivity.
Qed.

Lemma strptime_stamp (dt : Z) :
  valid_stamp dt = true ->
  Py.strptime_YmdHMS (Py.str_int dt)
  = Py.Ok {| Py.year := dt / 10000000000; Py.month := (dt / 100000000) mod 100;
             Py.day := (dt / 1000000) mod 100; Py.hour := (dt / 10000) mod 100;
             Py.minute := (dt / 100) mod 100; Py.second := dt mod 100;
             Py.microsecond := 0 |}.
Proof.
  intros Hv. destruct (valid_stamp_spec dt Hv) as (Hy & Hm & Hd & Hh & Hmi & Hs).
  pose proof (days_in_month_le_31 (dt / 10000000000) ((dt / 100000000) mod 100)) as H31.
  rewrite str_int_14 by (change (10 ^ 13) with 10000000000000;
                         change (10 ^ 14) with 100000000000000;
                         Z.div_mod_to_equations; lia).
  rewrite stamp_string. unfold Py.strptime_YmdHMS.
  rewrite (re_Y_four_digits _ _ _
             [Py.zfill 2 ((dt / 100000000) mod 100); Py.zfill 2 ((dt / 1000000) mod 100);
              Py.zfill 2 ((dt / 10000) mod 100); Py.zfill 2 ((dt / 100) mod 100);
              Py.zfill 2 (dt mod 100)] EmptyString).
  2:{ apply re_m_two_digits; [lia|]. apply re_d_two_digits; [lia|].
      apply re_H_two_digits; [lia|]. apply re_M_two_digits; [lia|].
      apply re_S_two_digits; [lia|]. reflexivity. }
  cbn [Py.int_all].
  rewrite int_str_zfill_end. change (10 ^ Z.of_nat 4) with 10000.
  rewrite (Z.mod_small (dt / 10000000000) 10000) by lia.
  rewrite !int_str_two_digits by lia.
  match goal with
  | |- (if Py.valid ?t then _ else _) = _ =>
      assert (Hvalid : Py.valid t = true)
  end.
  { apply valid_spec.
    cbn [Py.year Py.month Py.day Py.hour Py.minute Py.second Py.microsecond]. lia. }
  rewrite Hvalid. reflexivity.
Qed.

Lemma gmtime_timegm (t : Py.datetime) :
  Py.valid t = true ->
  Py.gmtime (Py.timegm t)
  = [Py.year t; Py.month t; Py.day t; Py.hour t; Py.minute t; Py.second t].
Proof.
  intros Hv. apply valid_spec in Hv.
  destruct Hv as (Hy & Hm & Hd & Hh & Hmi & Hs & Hu).
  unfold Py.gmtime, Py.timegm.
  set (o := Py.ymd2ord (Py.year t) (Py.month t) 1).
  assert (Ho : o + Py.day t - 1 = Py.ymd2ord (Py.year t) (Py.month t) (Py.day t))
    by (unfold o, Py.ymd2ord; lia).
  replace ((((o - Py.EPOCH_ORD + Py.day t - 1) * 24 + Py.hour t) * 60 + Py.minute t) * 60
           + Py.second t)
    with ((Py.ymd2ord (Py.year t) (Py.month t) (Py.day t) - Py.EPOCH_ORD) * 86400
          + ((Py.hour t * 60 + Py.minute t) * 60 + Py.second t)) by lia.
  set (tod := (Py.hour t * 60 + Py.minute t) * 60 + Py.second t).
  assert (Htod : 0 <= tod < 86400) by (unfold tod; lia).
  replace (((Py.ymd2ord (Py.year t) (Py.month t) (Py.day t) - Py.EPOCH_ORD) * 86400 + tod)
           / 86400 + Py.EPOCH_ORD)
    with (Py.ymd2ord (Py.year t) (Py.month t) (Py.day t))
    by (Z.div_mod_to_equations; lia).
  rewrite ord2ymd_ymd2ord by assumption.
  replace (((Py.ymd2ord (Py.year t) (Py.month t) (Py.day t) - Py.EPOCH_ORD) * 86400 + tod)
           mod 86400) with tod by (Z.div_mod_to_equations; lia).
  unfold tod. repeat f_equal; Z.div_mod_to_equations; lia.
Qed.

Lemma epoch_item_round_trip (i : Dynamo.Item) :
  valid_stamp (Dynamo.datetime i) = true ->
  exists epoch,
    SecondLambda.epoch_item i = Py.Ok (SecondLambda.set_datetime i epoch) /\
    Py.gmtime epoch = stamp_fields (Dynamo.datetime i).
Proof.
  intros Hv. unfold SecondLambda.epoch_item. rewrite (strptime_stamp _ Hv).
  eexists. split; [reflexivity|]. rewrite gmtime_timegm.
  - reflexivity.
  - destruct (valid_stamp_spec _ Hv) as (Hy & Hm & Hd & Hh & Hmi & Hs).
    apply valid_spec.
    cbn [Py.year Py.month Py.day Py.hour Py.minute Py.second Py.microsecond]. lia.
Qed.

Lemma epoch_items_round_trip (items : list Dynamo.Item) :
  Forall (fun i => valid_stamp (Dynamo.datetime i) = true) items ->
  exists items', SecondLambda.epoch_items items = Py.Ok items' /\
                 Forall2 converted items items'.
Proof.
  induction 1 as [|i items Hi _ (items' & He & Hf)]; cbn [SecondLambda.epoch_items].
  - exists []. split; [reflexivity | constructor].
  - destruct (epoch_item_round_trip i Hi) as (epoch & Hitem & Hback).
    rewrite Hitem, He. eexists. split; [reflexivity|].
    constructor; [|exact Hf]. unfold converted. cbn. auto.
Qed.

(** C7.  When every record of a response carries a valid YYYYMMDDHHMMSS
    integer as its [datetime], [convert_to_epoch] succeeds; it leaves the
    other fields of each record alone and puts in [datetime] an epoch value
    that, read back as UTC calendar fields, gives the year, month, day,
    hour, minute and second of the integer. *)
Theorem epoch_round_trip (responses : list (string * list Dynamo.Item))
  (items : list Dynamo.Item) :
  Dynamo.dict_get SecondLambda.TABLE responses = Some items ->
  Forall (fun i => valid_stamp (Dynamo.datetime i) = true) items ->
  exists items',
    SecondLambda.convert_to_epoch {| Dynamo.Responses := Some responses |}
    = Py.Ok {| Dynamo.Responses :=
                 Some (SecondLambda.dict_set SecondLambda.TABLE items' responses) |} /\
    Forall2 converted items items'.
Proof.
  intros Hget Hvalid. unfold SecondLambda.convert_to_epoch. cbn [Dynamo.Responses].
  rewrite Hget. destruct (epoch_items_round_trip items Hvalid) as (items' & He & Hf).
  rewrite He. exists items'. split; [reflexivity | exact Hf].
Qed.

(** ** Sanitization *)

Lemma trunc_finite_toward_zero (s : bool) (m : positive) (e : Z) :
  Pd.trunc_finite s m e = toward_zero s m e.
Proof.
  unfold Pd.trunc_finite, toward_zero. destruct (Z.leb_spec 0 e) as [He|He].
  - rewrite Z.max_l, Z.max_r by lia. change (2 ^ 0) with 1. rewrite Z.quot_1_r.
    rewrite Z.shiftl_mul_pow2 by lia. destruct s; lia.
  - rewrite Z.max_r, Z.max_l by lia. change (2 ^ 0) with 1. rewrite Z.mul_1_r.
    rewrite Z.shiftr_div_pow2 by lia.
    assert (Hp : 0 < 2 ^ (- e)) by (apply Z.pow_pos_nonneg; lia).
    destruct s.
    + rewrite Z.quot_opp_l by lia. rewrite Z.quot_div_nonneg by lia. reflexivity.
    + rewrite Z.quot_div_nonneg by lia. reflexivity.
Qed.

Lemma cell_sanitized (v : spec_float) :
  exists z, Pd.float_to_int64 (sanitize_cell v) = Py.Ok z /\ sanitized v z.
Proof.
  unfold sanitized, Pd.INT64_MIN, Pd.INT64_MAX.
  destruct v as [s|s| |s m e]; cbn.
  - exists 0. split; [reflexivity|]. lia.
  - exists 0. split; [reflexivity|]. lia.
  - exists 0. split; [reflexivity|]. lia.
  - rewrite trunc_finite_toward_zero. unfold Pd.INT64_MIN, Pd.INT64_MAX.
    destruct ((- 2 ^ 63 <=? toward_zero s m e) && (toward_zero s m e <=? 2 ^ 63 - 1)) eqn:Hb.
    + exists (toward_zero s m e). apply andb_true_iff in Hb. destruct Hb as [H1 H2].
      apply Z.leb_le in H1, H2. split; [reflexivity|]. split; [lia | reflexivity].
    + exists (- 2 ^ 63). split; [reflexivity|]. split; [lia|]. intros [H1 H2].
      apply Z.leb_le in H1, H2. rewrite H1, H2 in Hb. discriminate.
Qed.

Lemma cast_all_sanitized (vs : list spec_float) :
  exists zs, Pd.cast_all (map sanitize_cell vs) = Py.Ok zs /\ Forall2 sanitized vs zs.
Proof.
  induction vs as [|v vs (zs & Hc & Hf)]; cbn [map Pd.cast_all].
  - exists []. split; [reflexivity | constructor].
  - destruct (cell_sanitized v) as (z & Hz & Hs). rewrite Hz, Hc.
    exists (z :: zs). split; [reflexivity | constructor; assumption].
Qed.

Lemma cast_rows_sanitized (rs : list (Py.datetime * list spec_float)) :
  exists out,
    Pd.cast_rows (map (fun r => (fst r, map sanitize_cell (snd r))) rs) = Py.Ok out /\
    Forall2 rows_sanitized rs out.
Proof.
  induction rs as [|[t vs] rs (out & Hc & Hf)]; cbn [map Pd.cast_rows fst snd].
  - exists []. split; [reflexivity | constructor].
  - destruct (cast_all_sanitized vs) as (zs & Hz & Hs). rewrite Hz, Hc.
    exists ((t, zs) :: out). split; [reflexivity|].
    constructor; [split; [reflexivity | exact Hs] | exact Hf].
Qed.

(** C4 (as amended).  The sanitization step returns a frame with the same
    columns and the same index, in which every cell is a 64-bit integer: 0
    for NaN, +Infinity and -Infinity, and, for every other value whose
    integer part fits a signed 64-bit integer, that value rounded toward
    zero. *)
Theorem sanitized_frame (df : Pd.DataFrame) :
  exists out,
    Entsoe.convert_float_to_int df = Py.Ok out /\
    Pd.int_columns out = Pd.columns df /\
    Forall2 rows_sanitized (Pd.rows df) (Pd.int_rows out).
Proof.
  destruct (cast_rows_sanitized (Pd.rows df)) as (out & Hc & Hf).
  exists {| Pd.int_columns := Pd.columns df; Pd.int_rows := out |}.
  split; [|split; [reflexivity | exact Hf]].
  unfold Entsoe.convert_float_to_int, Pd.astype_int, Pd.fillna_0, Pd.replace_inf_nan,
    Pd.map_values. cbn [Pd.rows Pd.columns].
  rewrite map_map. cbn [fst snd].
  erewrite map_ext; [rewrite Hc; reflexivity|].
  intros [t vs]. cbn [fst snd]. rewrite map_map. reflexivity.
Qed.

Lemma huge_flow_not_truncated :
  Entsoe.convert_float_to_int
    {| Pd.columns := ["France"%string]; Pd.rows := [(midnight, [two_pow_63])] |}
  = Py.Ok {| Pd.int_columns := ["France"%string];
             Pd.int_rows := [(midnight, [- 9223372036854775808])] |}
  /\ toward_zero false 4503599627370496 11 = 9223372036854775808.
Proof. split; vm_compute; reflexivity. Qed.

(** ** The two handlers *)

Lemma ingestion_store_error_escapes :
  fst (Entsoe.lambda_handler store_down_env empty_world)
  = Py.Raise (Py.PyError "ClientError" "ServiceUnavailable").
Proof. vm_compute. reflexivity. Qed.

Lemma window_of_98_records :
  match fst (SecondLambda.lambda_handler quiet_env full_world),
        fst (SecondLambda.get_todays_data_from_db quiet_env full_world) with
  | Py.Ok response, Py.Ok result =>
      statusCode response = 200 /\ length (SecondLambda.records result) = 98%nat
  | _, _ => False
  end.
Proof. vm_compute. split; reflexivity. Qed.

(** C2 (the code at the input where it departs from the claim).  With the
    clock at 2024-01-02 10:20:00 and a table that holds no record at all,
    the store answers the batch read with an empty list for the table, the
    test for the two dict members passes, and the query handler returns
    statusCode 200 with an empty list of records. *)
Theorem no_data_is_answered_200 :
  fst (SecondLambda.lambda_handler quiet_env empty_world)
  = Py.Ok {| statusCode := 200;
             headers := Some [("Content-Type", "application/json");
                              ("Access-Control-Allow-Origin", "*")]%string;
             body := JObject [("Responses"%string,
                               JObject [("interconnector-data"%string, JArray [])])] |}.
Proof. vm_compute. reflexivity. Qed.

(** C1 (as amended).  The query handler returns a response at every
    invocation: statusCode 200 with the data, or, for every exception raised
    inside it, statusCode 500 with a JSON body that carries the message of
    the error; it never lets an exception out and never fails to return.
    The ingestion handler turns an HTTP error of the remote API (one that
    carries a response) into a statusCode 500 response; every other
    exception raised inside it leaves the handler as it is. *)
Theorem handler_boundaries (env : Env) (w : World) :
  match fst (SecondLambda.get_todays_data_from_db env w) with
  | Py.Ok result =>
      fst (SecondLambda.lambda_handler env w)
      = Py.Ok {| statusCode := 200; headers := Some SecondLambda.cors_headers;
                 body := SecondLambda.json_of_result result |}
  | Py.Raise e =>
      fst (SecondLambda.lambda_handler env w)
      = Py.Ok {| statusCode := 500; headers := Some SecondLambda.cors_headers;
                 body := JObject [("message"%string,
                                   JString ("Error processing request: "
                                            ++ Py.str_exn e))] |}
  | Py.Hang => False
  end /\
  (forall msg status,
      fst (Entsoe.lambda_handler_try env w) = Py.Raise (Py.HTTPError msg (Some status)) ->
      exists document,
        fst (Entsoe.lambda_handler env w)
        = Py.Ok {| statusCode := 500; headers := None; body := document |}) /\
  (forall cls msg,
      fst (Entsoe.lambda_handler_try env w) = Py.Raise (Py.PyError cls msg) ->
      fst (Entsoe.lambda_handler env w) = Py.Raise (Py.PyError cls msg)).
Proof.
  split; [|split].
  - exact (query_handler_total env w).
  - intros msg status H. unfold Entsoe.lambda_handler.
    destruct (Entsoe.lambda_handler_try env w) as [o w']. cbn [fst] in H. subst o.
    eexists. reflexivity.
  - intros cls msg H. unfold Entsoe.lambda_handler.
    destruct (Entsoe.lambda_handler_try env w) as [o w']. cbn [fst] in H. subst o.
    reflexivity.
Qed.

(** ** The table under [update_dynamo_db] *)

Lemma put_cases (env : Env) (w : World) (r : Dynamo.Item) :
  match get_item_error env (Dynamo.key_of r) with
  | Some e => Entsoe.put_into_dynamo_db env r w = (Py.Raise e, w)
  | None =>
      match table w !! Dynamo.key_of r with
      | Some _ => Entsoe.put_into_dynamo_db env r w = (Py.Ok tt, w)
      | None =>
          match put_item_error env r with
          | Some e => Entsoe.put_into_dynamo_db env r w = (Py.Raise e, w)
          | None =>
              Entsoe.put_into_dynamo_db env r w
              = (Py.Ok tt, {| table := <[Dynamo.key_of r := r]> (table w);
                              clock_reads := clock_reads w |})
          end
      end
  end.
Proof.
  unfold Entsoe.put_into_dynamo_db, Entsoe.check_if_exists, bind, get_item, put_item, ret.
  change (Dynamo.datetime r, Dynamo.date r) with (Dynamo.key_of r).
  destruct (get_item_error env (Dynamo.key_of r)); [reflexivity|].
  destruct (table w !! Dynamo.key_of r); cbn; [reflexivity|].
  destruct (put_item_error env r); reflexivity.
Qed.

Lemma put_grows (env : Env) (w : World) (r : Dynamo.Item) :
  table w ⊆ table (snd (Entsoe.put_into_dynamo_db env r w)).
Proof.
  pose proof (put_cases env w r) as H.
  destruct (get_item_error env (Dynamo.key_of r)); [rewrite H; reflexivity|].
  destruct (table w !! Dynamo.key_of r) eqn:Hl; [rewrite H; reflexivity|].
  destruct (put_item_error env r); rewrite H; cbn; [reflexivity|].
  apply insert_subseteq. exact Hl.
Qed.

Lemma put_returned (env : Env) (w : World) (r : Dynamo.Item) :
  fst (Entsoe.put_into_dynamo_db env r w) = Py.Ok tt ->
  table (snd (Entsoe.put_into_dynamo_db env r w)) !! Dynamo.key_of r
  = Some (default r (table w !! Dynamo.key_of r)).
Proof.
  pose proof (put_cases env w r) as H.
  destruct (get_item_error env (Dynamo.key_of r)); [rewrite H; discriminate|].
  destruct (table w !! Dynamo.key_of r) eqn:Hl; [rewrite H; intros _; exact Hl|].
  destruct (put_item_error env r); rewrite H; [discriminate|].
  intros _. cbn. apply lookup_insert_eq.
Qed.

Lemma put_other_keys (env : Env) (w : World) (r : Dynamo.Item) (k : Z * Z) :
  k <> Dynamo.key_of r ->
  table (snd (Entsoe.put_into_dynamo_db env r w)) !! k = table w !! k.
Proof.
  intros Hk. pose proof (put_cases env w r) as H.
  destruct (get_item_error env (Dynamo.key_of r)); [rewrite H; reflexivity|].
  destruct (table w !! Dynamo.key_of r) eqn:Hl; [rewrite H; reflexivity|].
  destruct (put_item_error env r); rewrite H; [reflexivity|].
  cbn. apply lookup_insert_ne. congruence.
Qed.

(** X1.  After a call of [put_into_dynamo_db] that returns, the table holds
    a record under the key of the input: the record that was there before,
    when there was one, the input otherwise.  Every other key holds what it
    held before. *)
Theorem put_into_dynamo_db_stores (env : Env) (w : World) (r : Dynamo.Item) :
  fst (Entsoe.put_into_dynamo_db env r w) = Py.Ok tt ->
  table (snd (Entsoe.put_into_dynamo_db env r w)) !! (Dynamo.datetime r, Dynamo.date r)
  = Some (match table w !! (Dynamo.datetime r, Dynamo.date r) with
          | Some old => old
          | None => r
          end) /\
  forall k, k <> (Dynamo.datetime r, Dynamo.date r) ->
    table (snd (Entsoe.put_into_dynamo_db env r w)) !! k = table w !! k.
Proof.
  intros H. split.
  - exact (put_returned env w r H).
  - intros k Hk. apply put_other_keys. exact Hk.
Qed.

(** update: unfolding *)
Lemma update_cons (env : Env) (r : Dynamo.Item) (l : list Dynamo.Item) (w : World) :
  Entsoe.update_dynamo_db env (r :: l) w
  = match Entsoe.put_into_dynamo_db env r w with
    | (Py.Ok _, w') => Entsoe.update_dynamo_db env l w'
    | (Py.Raise e, w') => (Py.Raise e, w')
    | (Py.Hang, w') => (Py.Hang, w')
    end.
Proof. reflexivity. Qed.

Lemma update_grows (env : Env) (l : list Dynamo.Item) (w : World) :
  table w ⊆ table (snd (Entsoe.update_dynamo_db env l w)).
Proof.
  revert w. induction l as [|r l IH]; intros w; [reflexivity|].
  rewrite update_cons.
  pose proof (put_grows env w r) as Hg.
  destruct (Entsoe.put_into_dynamo_db env r w) as [[[]|e|] w1]; cbn in Hg |- *;
    [|exact Hg|exact Hg].
  etransitivity; [exact Hg|apply IH].
Qed.

Lemma update_app (env : Env) (l1 l2 : list Dynamo.Item) (w : World) :
  Entsoe.update_dynamo_db env (l1 ++ l2) w
  = match Entsoe.update_dynamo_db env l1 w with
    | (Py.Ok _, w1) => Entsoe.update_dynamo_db env l2 w1
    | other => other
    end.
Proof.
  revert w. induction l1 as [|r l1 IH]; intros w; [reflexivity|].
  rewrite <- app_comm_cons, !update_cons.
  destruct (Entsoe.put_into_dynamo_db env r w) as [[[]|e|] w1]; [apply IH|reflexivity..].
Qed.

(** X2.  [update_dynamo_db] does not undo what it wrote.  When the read
    of the store fails at one record, after the records before it went
    through, the call raises that error and the table is the one the earlier
    records left: they stay written, the records after are never looked
    at. *)
Theorem update_dynamo_db_stops_at_first_error (env : Env) (w : World)
  (before after : list Dynamo.Item) (r : Dynamo.Item) (e : Py.exn) :
  fst (Entsoe.update_dynamo_db env before w) = Py.Ok tt ->
  get_item_error env (Dynamo.datetime r, Dynamo.date r) = Some e ->
  Entsoe.update_dynamo_db env (before ++ r :: after) w
  = (Py.Raise e, snd (Entsoe.update_dynamo_db env before w)).
Proof.
  intros Hb He. rewrite update_app.
  destruct (Entsoe.update_dynamo_db env before w) as [[[]|e'|] w1]; try discriminate.
  cbn [snd]. rewrite update_cons.
  pose proof (put_cases env w1 r) as H.
  change (Dynamo.key_of r) with (Dynamo.datetime r, Dynamo.date r) in H.
  rewrite He in H. rewrite H. reflexivity.
Qed.

Lemma first_with_key_In (k : Z * Z) (l : list Dynamo.Item) (i : Dynamo.Item) :
  first_with_key k l = Some i -> In i l /\ Dynamo.key_of i = k.
Proof.
  induction l as [|r l IH]; cbn [first_with_key]; [discriminate|].
  destruct (decide (Dynamo.key_of r = k)) as [Hk|Hk].
  - intros H. inversion H. subst. split; [left; reflexivity | reflexivity].
  - intros H. destruct (IH H) as [Hin Hkey]. split; [right; exact Hin | exact Hkey].
Qed.

Lemma first_with_key_exists (l : list Dynamo.Item) (i : Dynamo.Item) :
  In i l -> exists i', first_with_key (Dynamo.key_of i) l = Some i'.
Proof.
  induction l as [|r l IH]; intros Hin; [destruct Hin|].
  cbn [first_with_key].
  destruct (decide (Dynamo.key_of r = Dynamo.key_of i)) as [Hk|Hk]; [eexists; reflexivity|].
  destruct Hin as [->|Hin]; [congruence | exact (IH Hin)].
Qed.

(** The table after an update that returned. *)
Lemma update_ok_table (env : Env) (l : list Dynamo.Item) (w : World) :
  fst (Entsoe.update_dynamo_db env l w) = Py.Ok tt ->
  forall k, table (snd (Entsoe.update_dynamo_db env l w)) !! k
            = match table w !! k with
              | Some v => Some v
              | None => first_with_key k l
              end.
Proof.
  revert w. induction l as [|r l IH]; intros w Hok k.
  - cbn. destruct (table w !! k); reflexivity.
  - rewrite update_cons in Hok |- *. pose proof (put_cases env w r) as H.
    destruct (get_item_error env (Dynamo.key_of r)); [rewrite H in Hok; discriminate|].
    destruct (table w !! Dynamo.key_of r) eqn:Hl.
    + rewrite H in Hok |- *. rewrite (IH w Hok). cbn [first_with_key].
      destruct (decide (Dynamo.key_of r = k)) as [<-|Hne]; [|reflexivity].
      rewrite Hl. reflexivity.
    + destruct (put_item_error env r); [rewrite H in Hok; discriminate|].
      rewrite H in Hok |- *. rewrite (IH _ Hok). cbn [table first_with_key].
      destruct (decide (Dynamo.key_of r = k)) as [<-|Hne].
      * rewrite lookup_insert_eq, Hl. reflexivity.
      * rewrite lookup_insert_ne by exact Hne. reflexivity.
Qed.

Lemma update_answers (env : Env) (l : list Dynamo.Item) (w : World) :
  store_answers env -> fst (Entsoe.update_dynamo_db env l w) = Py.Ok tt.
Proof.
  intros [Hg Hp]. revert w. induction l as [|r l IH]; intros w; [reflexivity|].
  rewrite update_cons. pose proof (put_cases env w r) as H.
  rewrite Hg, Hp in H. destruct (table w !! Dynamo.key_of r); rewrite H; apply IH.
Qed.

(** X3.  With a store that answers every single read and write,
    [update_dynamo_db] returns, and the table after it holds under each key
    the record it held before, else the first record of the list with that
    key, else nothing. *)
Theorem update_dynamo_db_result (env : Env) (w : World) (l : list Dynamo.Item) :
  (forall k, get_item_error env k = None) ->
  (forall i, put_item_error env i = None) ->
  fst (Entsoe.update_dynamo_db env l w) = Py.Ok tt /\
  forall k, table (snd (Entsoe.update_dynamo_db env l w)) !! k
            = match table w !! k with
              | Some v => Some v
              | None => first_with_key k l
              end.
Proof.
  intros Hg Hp. pose proof (update_answers env l w (conj Hg Hp)) as Hok.
  split; [exact Hok | exact (update_ok_table env l w Hok)].
Qed.

Lemma update_present (env : Env) (l : list Dynamo.Item) (w : World) :
  fst (Entsoe.update_dynamo_db env l w) = Py.Ok tt ->
  forall r, In r l ->
    exists v, table (snd (Entsoe.update_dynamo_db env l w)) !! Dynamo.key_of r = Some v.
Proof.
  revert w. induction l as [|r0 l IH]; intros w Hok r Hin; [destruct Hin|].
  rewrite update_cons in Hok |- *.
  pose proof (put_returned env w r0) as Hr.
  destruct (Entsoe.put_into_dynamo_db env r0 w) as [[[]|e|] w1]; try discriminate.
  cbn [fst snd] in Hr. destruct Hin as [<-|Hin].
  - exists (default r0 (table w !! Dynamo.key_of r0)).
    pose proof (update_grows env l w1) as Hg.
    rewrite map_subseteq_spec in Hg. apply Hg. apply Hr. reflexivity.
  - apply IH; assumption.
Qed.

Lemma update_noop (env : Env) (l : list Dynamo.Item) (w : World) :
  (forall r, In r l -> exists v, table w !! Dynamo.key_of r = Some v) ->
  snd (Entsoe.update_dynamo_db env l w) = w.
Proof.
  induction l as [|r l IH]; intros H; [reflexivity|].
  rewrite update_cons. destruct (H r (or_introl eq_refl)) as [v Hv].
  pose proof (put_cases env w r) as Hc. rewrite Hv in Hc.
  destruct (get_item_error env (Dynamo.key_of r)); rewrite Hc; [reflexivity|].
  apply IH. intros r' Hr'. apply H. right. exact Hr'.
Qed.

(** X4.  After an [update_dynamo_db] that returned, a second pass over
    the same records leaves the table as it is, whatever the store answers
    the second time. *)
Theorem update_dynamo_db_rerun (env : Env) (w : World) (l : list Dynamo.Item) :
  fst (Entsoe.update_dynamo_db env l w) = Py.Ok tt ->
  forall env' : Env,
    snd (Entsoe.update_dynamo_db env' l (snd (Entsoe.update_dynamo_db env l w)))
    = snd (Entsoe.update_dynamo_db env l w).
Proof.
  intros Hok env'. apply update_noop. apply update_present. exact Hok.
Qed.

Lemma update_keyed (env : Env) (l : list Dynamo.Item) (w : World) :
  table_keyed (table w) ->
  Forall (fun i => Dynamo.date i = Dynamo.datetime i / 1000000) l ->
  table_keyed (table (snd (Entsoe.update_dynamo_db env l w))).
Proof.
  intros Hw Hl. revert w Hw. induction Hl as [|r l Hr Hl IH]; intros w Hw; [exact Hw|].
  rewrite update_cons. pose proof (put_cases env w r) as H.
  destruct (get_item_error env (Dynamo.key_of r)); [rewrite H; exact Hw|].
  destruct (table w !! Dynamo.key_of r) eqn:Hlk; [rewrite H; apply IH; exact Hw|].
  destruct (put_item_error env r); rewrite H; [exact Hw|].
  apply IH. cbn [table]. intros k i Hk.
  destruct (decide (Dynamo.key_of r = k)) as [<-|Hne].
  - rewrite lookup_insert_eq in Hk. inversion Hk. subst i. split; [reflexivity | exact Hr].
  - rewrite lookup_insert_ne in Hk by exact Hne. exact (Hw k i Hk).
Qed.

(** ** The run of the ingestion handler *)

Lemma convert_float_to_int_rows (df : Pd.DataFrame) :
  exists out,
    Entsoe.convert_float_to_int df
    = Py.Ok {| Pd.int_columns := Pd.columns df; Pd.int_rows := out |} /\
    Forall2 rows_sanitized (Pd.rows df) out.
Proof.
  destruct (cast_rows_sanitized (Pd.rows df)) as (out & Hc & Hf).
  exists out. split; [|exact Hf].
  unfold Entsoe.convert_float_to_int, Pd.astype_int, Pd.fillna_0, Pd.replace_inf_nan,
    Pd.map_values. cbn [Pd.rows Pd.columns].
  rewrite map_map. cbn [fst snd].
  erewrite map_ext; [rewrite Hc; reflexivity|].
  intros [t vs]. cbn [fst snd]. rewrite map_map. reflexivity.
Qed.

Lemma convert_rows_map (rs : list (Py.datetime * list Z)) :
  Entsoe.convert_rows rs
  = Py.Ok (map (fun r => {| Entsoe.row_datetime := key_value (fst r);
                            Entsoe.row_date := Ymd_value (fst r);
                            Entsoe.row_values := snd r |}) rs).
Proof.
  induction rs as [|r rs IH]; [reflexivity|].
  cbn [Entsoe.convert_rows map]. rewrite convert_row_spec, IH. reflexivity.
Qed.

Lemma frame_records (df : Pd.DataFrame) :
  exists ints out,
    Entsoe.convert_float_to_int df = Py.Ok ints /\
    Entsoe.convert_df_datetime_to_strftime ints = Py.Ok out /\
    Forall2 (recorded (Pd.columns df)) (Pd.rows df) (Entsoe.convert_df_to_json out).
Proof.
  destruct (convert_float_to_int_rows df) as (rs & Hc & Hf).
  eexists. eexists. split; [exact Hc|].
  unfold Entsoe.convert_df_datetime_to_strftime. cbn [Pd.int_rows Pd.int_columns].
  rewrite convert_rows_map. split; [reflexivity|].
  unfold Entsoe.convert_df_to_json. cbn [fst snd]. rewrite map_map.
  cbn [Entsoe.row_datetime Entsoe.row_date Entsoe.row_values].
  clear Hc. induction Hf as [|r r' l l' [Ht Hs] Hf IH]; cbn [map]; [constructor|].
  constructor; [|exact IH].
  unfold recorded. cbn [Dynamo.datetime Dynamo.date Dynamo.flows].
  rewrite Ht. repeat split. exists (snd r'). split; [reflexivity | exact Hs].
Qed.

(** X5.  The three conversions between the frame and the store
    ([convert_float_to_int], [convert_df_datetime_to_strftime],
    [convert_df_to_json]) never fail, and together they turn the rows of a
    frame into as many records, one for one and in order: the record of a
    row has the YYYYMMDDHHMMSS and the YYYYMMDD integer of its timestamp as
    datetime and date and, under the names of the columns, the sanitized
    values of the row. *)
Theorem rows_become_records (df : Pd.DataFrame) :
  exists ints out,
    Entsoe.convert_float_to_int df = Py.Ok ints /\
    Entsoe.convert_df_datetime_to_strftime ints = Py.Ok out /\
    length (Entsoe.convert_df_to_json out) = length (Pd.rows df) /\
    Forall2 (recorded (Pd.columns df)) (Pd.rows df) (Entsoe.convert_df_to_json out).
Proof.
  destruct (frame_records df) as (ints & out & Hi & Ho & Hf).
  exists ints, out. split; [exact Hi|]. split; [exact Ho|]. split; [|exact Hf].
  clear Hi Ho. induction Hf as [|r i rows items _ _ IH]; [reflexivity|].
  cbn [length]. rewrite IH. reflexivity.
Qed.

Lemma get_all_table (env : Env) (countries : list (string * string)) (w : World) :
  table (snd (Entsoe.get_all_interconnector_flows env countries w)) = table w.
Proof.
  unfold Entsoe.get_all_interconnector_flows.
  pose proof (get_date_range_table env w) as Ht.
  destruct (Entsoe.get_date_range env w) as [[range|e|] w1] eqn:Hd; cbn [snd] in Ht.
  - rewrite (bind_ok _ _ _ _ _ Hd).
    pose proof (collect_flows_world env range countries w1) as Hw.
    destruct (Entsoe.collect_flows env range countries w1) as [[d|e|] w2] eqn:Hc;
      cbn [snd] in Hw; subst w2.
    + rewrite (bind_ok _ _ _ _ _ Hc). unfold bind, lift, ret.
      destruct (Pd.concat (concat_unaligned env) d); exact Ht.
    + rewrite (bind_raise _ _ _ _ _ Hc). exact Ht.
    + rewrite (bind_hang _ _ _ _ Hc). exact Ht.
  - rewrite (bind_raise _ _ _ _ _ Hd). exact Ht.
  - rewrite (bind_hang _ _ _ _ Hd). exact Ht.
Qed.

(** The run of the [try] block: either it ends before the store is touched,
    with the table as it was and no response, or the frame was collected and
    the block is the update of the table with the records of its rows. *)
Lemma lambda_handler_try_run (env : Env) (w : World) :
  (table (snd (Entsoe.lambda_handler_try env w)) = table w /\
   (forall r, fst (Entsoe.lambda_handler_try env w) <> Py.Ok r) /\
   ((forall range, fst (Entsoe.get_date_range env w) <> Py.Ok range) \/
    forall df, fst (Entsoe.get_all_interconnector_flows env Entsoe.country_code_non_uk_dict
                      (snd (Entsoe.get_date_range env w))) <> Py.Ok df)) \/
  exists df w2 items,
    Entsoe.get_all_interconnector_flows env Entsoe.country_code_non_uk_dict
      (snd (Entsoe.get_date_range env w)) = (Py.Ok df, w2) /\
    table w2 = table w /\
    Forall2 (recorded (Pd.columns df)) (Pd.rows df) items /\
    Entsoe.lambda_handler_try env w
    = match Entsoe.update_dynamo_db env items w2 with
      | (Py.Ok _, w3) => (Py.Ok everything_works, w3)
      | (Py.Raise e, w3) => (Py.Raise e, w3)
      | (Py.Hang, w3) => (Py.Hang, w3)
      end.
Proof.
  unfold Entsoe.lambda_handler_try.
  pose proof (get_date_range_table env w) as Ht.
  destruct (Entsoe.get_date_range env w) as [[range|e|] w1] eqn:Hd; cbn [snd] in Ht |- *.
  - rewrite (bind_ok _ _ _ _ _ Hd).
    pose proof (get_all_table env Entsoe.country_code_non_uk_dict w1) as Ht2.
    destruct (Entsoe.get_all_interconnector_flows env Entsoe.country_code_non_uk_dict w1)
      as [[df|e|] w2] eqn:Hg; cbn [snd] in Ht2.
    + right. exists df, w2.
      destruct (frame_records df) as (ints & out & Hi & Ho & Hf).
      exists (Entsoe.convert_df_to_json out).
      split; [reflexivity|]. split; [congruence|]. split; [exact Hf|].
      rewrite (bind_ok _ _ _ _ _ Hg).
      unfold bind at 1, lift at 1. rewrite Hi.
      unfold bind at 1, lift at 1. rewrite Ho.
      unfold bind, ret.
      destruct (Entsoe.update_dynamo_db env (Entsoe.convert_df_to_json out) w2)
        as [[[]|e|] w3]; reflexivity.
    + left. rewrite (bind_raise _ _ _ _ _ Hg). cbn [fst snd].
      split; [congruence|]. split; [intros; discriminate|]. right. intros; discriminate.
    + left. rewrite (bind_hang _ _ _ _ Hg). cbn [fst snd].
      split; [congruence|]. split; [intros; discriminate|]. right. intros; discriminate.
  - left. rewrite (bind_raise _ _ _ _ _ Hd). cbn [fst snd].
    split; [exact Ht|]. split; [intros; discriminate|]. left. intros; discriminate.
  - left. rewrite (bind_hang _ _ _ _ Hd). cbn [fst snd].
    split; [exact Ht|]. split; [intros; discriminate|]. left. intros; discriminate.
Qed.

Lemma Forall2_In_l {A B : Type} (R : A -> B -> Prop) (l : list A) (l' : list B) (x : A) :
  Forall2 R l l' -> In x l -> exists y, In y l' /\ R x y.
Proof.
  induction 1 as [|a b l l' Hab _ IH]; intros Hin; [destruct Hin|].
  destruct Hin as [->|Hin].
  - exists b. split; [left; reflexivity | exact Hab].
  - destruct (IH Hin) as (y & Hy & Hr). exists y. split; [right; exact Hy | exact Hr].
Qed.

Lemma Forall2_In_r {A B : Type} (R : A -> B -> Prop) (l : list A) (l' : list B) (y : B) :
  Forall2 R l l' -> In y l' -> exists x, In x l /\ R x y.
Proof.
  induction 1 as [|a b l l' Hab _ IH]; intros Hin; [destruct Hin|].
  destruct Hin as [->|Hin].
  - exists a. split; [left; reflexivity | exact Hab].
  - destruct (IH Hin) as (x & Hx & Hr). exists x. split; [right; exact Hx | exact Hr].
Qed.

Lemma key_value_date (t : Py.datetime) : key_value t / 1000000 = Ymd_value t.
Proof.
  unfold key_value. pose proof (HMS_value_range t) as H.
  rewrite Z.add_comm, Z.div_add by lia. rewrite Z.div_small by lia. lia.
Qed.

Lemma recorded_date (columns : list string) (rows : list (Py.datetime * list spec_float))
  (items : list Dynamo.Item) :
  Forall2 (recorded columns) rows items ->
  Forall (fun i => Dynamo.date i = Dynamo.datetime i / 1000000) items.
Proof.
  induction 1 as [|r i l l' (Hdt & Hd & _) _ IH]; constructor; [|exact IH].
  rewrite Hdt, Hd, key_value_date. reflexivity.
Qed.

Lemma try_table_grows (env : Env) (w : World) :
  table w ⊆ table (snd (Entsoe.lambda_handler_try env w)).
Proof.
  destruct (lambda_handler_try_run env w) as [[Ht _]|(df & w2 & items & _ & Ht & _ & Hrun)].
  - rewrite Ht. reflexivity.
  - rewrite Hrun. pose proof (update_grows env items w2) as Hg. rewrite Ht in Hg.
    destruct (Entsoe.update_dynamo_db env items w2) as [[[]|e|] w3]; exact Hg.
Qed.

(** X6.  The ingestion handler never removes and never changes a
    record: a record the table holds before an invocation is there,
    unchanged, after it, whatever the clock, the remote API and the store
    do. *)
Theorem ingestion_keeps_records (env : Env) (w : World) (k : Z * Z) (v : Dynamo.Item) :
  table w !! k = Some v ->
  table (snd (Entsoe.lambda_handler env w)) !! k = Some v.
Proof.
  rewrite lambda_handler_world. pose proof (try_table_grows env w) as Hg.
  rewrite map_subseteq_spec in Hg. apply Hg.
Qed.

(** X7.  The ingestion handler keeps the table well keyed: if every
    record is filed under its own (datetime, date) and has the leading eight
    digits of its datetime as date, the same holds after an invocation. *)
Theorem ingestion_keeps_table_keyed (env : Env) (w : World) :
  table_keyed (table w) -> table_keyed (table (snd (Entsoe.lambda_handler env w))).
Proof.
  intros Hw. rewrite lambda_handler_world.
  destruct (lambda_handler_try_run env w) as [[Ht _]|(df & w2 & items & _ & Ht & Hf & Hrun)].
  - rewrite Ht. exact Hw.
  - rewrite Hrun. rewrite <- Ht in Hw.
    pose proof (update_keyed env items w2 Hw (recorded_date _ _ _ Hf)) as Hk.
    destruct (Entsoe.update_dynamo_db env items w2) as [[[]|e|] w3]; exact Hk.
Qed.

Lemma handler_200 (env : Env) (w : World) (response : Response) :
  fst (Entsoe.lambda_handler env w) = Py.Ok response -> statusCode response = 200 ->
  fst (Entsoe.lambda_handler_try env w) = Py.Ok response.
Proof.
  unfold Entsoe.lambda_handler.
  destruct (Entsoe.lambda_handler_try env w) as [[r'|[m [st|]|c m]|] w']; cbn [fst];
    intros Hq Hs; try discriminate; [exact Hq|].
  inversion Hq. subst response. cbn in Hs. discriminate.
Qed.

(** X8.  When the ingestion handler answers 200, every row of the frame
    it collected has a record in the table under the key of its timestamp;
    where the table had none before, it is the record of a row of the frame
    with that datetime. *)
Theorem ingestion_success_stores_every_row (env : Env) (w : World) (df : Pd.DataFrame)
  (response : Response) :
  fst (Entsoe.get_all_interconnector_flows env Entsoe.country_code_non_uk_dict
         (snd (Entsoe.get_date_range env w))) = Py.Ok df ->
  fst (Entsoe.lambda_handler env w) = Py.Ok response ->
  statusCode response = 200 ->
  forall row, In row (Pd.rows df) ->
    exists i,
      table (snd (Entsoe.lambda_handler env w)) !! (key_value (fst row), Ymd_value (fst row))
      = Some i /\
      (table w !! (key_value (fst row), Ymd_value (fst row)) = None ->
       exists row', In row' (Pd.rows df) /\ key_value (fst row') = key_value (fst row) /\
                    recorded (Pd.columns df) row' i).
Proof.
  intros Hdf Hr Hs row Hin. rewrite lambda_handler_world.
  pose proof (handler_200 env w response Hr Hs) as Htry.
  destruct (lambda_handler_try_run env w) as [(_ & Hno & _)|(df' & w2 & items & Hg & Ht & Hf & Hrun)].
  - exfalso. exact (Hno _ Htry).
  - rewrite Hg in Hdf. cbn [fst] in Hdf. inversion Hdf. subst df'. clear Hdf.
    rewrite Hrun in Htry |- *.
    pose proof (update_ok_table env items w2) as Htab.
    destruct (Entsoe.update_dynamo_db env items w2) as [[[]|e|] w3]; try discriminate.
    cbn [fst snd] in Htab |- *. specialize (Htab eq_refl).
    destruct (Forall2_In_l _ _ _ _ Hf Hin) as (i0 & Hi0 & Hdt & Hd & _).
    destruct (first_with_key_exists items i0 Hi0) as (i1 & Hi1).
    assert (Hk : Dynamo.key_of i0 = (key_value (fst row), Ymd_value (fst row))).
    { unfold Dynamo.key_of. rewrite Hdt, Hd. reflexivity. }
    rewrite Hk in Hi1. rewrite Htab, Ht.
    destruct (table w !! (key_value (fst row), Ymd_value (fst row))) as [v|] eqn:Hlk.
    + exists v. split; [reflexivity | discriminate].
    + exists i1. split; [exact Hi1|]. intros _.
      destruct (first_with_key_In _ _ _ Hi1) as [Hin1 Hkey1].
      destruct (Forall2_In_r _ _ _ _ Hf Hin1) as (row' & Hrow' & Hrec).
      exists row'. split; [exact Hrow'|]. split; [|exact Hrec].
      destruct Hrec as (Hdt' & _). unfold Dynamo.key_of in Hkey1.
      inversion Hkey1. congruence.
Qed.

(** X9.  When the clock gives a window, the queries give a frame and the
    store answers every single read and write, the ingestion handler answers
    200 with the body [Everything works!]: no conversion step can fail. *)
Theorem ingestion_succeeds (env : Env) (w : World) (range : Py.datetime * Py.datetime)
  (df : Pd.DataFrame) :
  fst (Entsoe.get_date_range env w) = Py.Ok range ->
  fst (Entsoe.get_all_interconnector_flows env Entsoe.country_code_non_uk_dict
         (snd (Entsoe.get_date_range env w))) = Py.Ok df ->
  (forall k, get_item_error env k = None) ->
  (forall i, put_item_error env i = None) ->
  fst (Entsoe.lambda_handler env w)
  = Py.Ok {| statusCode := 200; headers := None; body := JString "Everything works!" |}.
Proof.
  intros Hr Hdf Hg Hp.
  destruct (lambda_handler_try_run env w)
    as [(_ & _ & [Hno|Hno])|(df' & w2 & items & _ & _ & _ & Hrun)].
  - exfalso. exact (Hno _ Hr).
  - exfalso. exact (Hno _ Hdf).
  - unfold Entsoe.lambda_handler. rewrite Hrun.
    pose proof (update_answers env items w2 (conj Hg Hp)) as Hu.
    destruct (Entsoe.update_dynamo_db env items w2) as [[[]|e|] w3]; try discriminate.
    reflexivity.
Qed.

(** ** Keys and time *)

Lemma key_value_fields (t : Py.datetime) :
  Py.valid t = true ->
  key_value t
  = ((Py.year t * 100 + Py.month t) * 100 + Py.day t) * 1000000
    + (Py.hour t * 100 + Py.minute t) * 100 + Py.second t.
Proof.
  intros Hv. apply valid_spec in Hv. destruct Hv as (Hy & Hm & Hd & Hh & Hmi & Hs & Hu).
  pose proof (days_in_month_le_31 (Py.year t) (Py.month t)).
  unfold key_value, Ymd_value, HMS_value.
  rewrite !Z.mod_small by lia. lia.
Qed.

Lemma seconds_of_fields (t : Py.datetime) :
  Py.valid t = true ->
  seconds_of t
  = Py.toordinal t * 86400 + (Py.hour t * 60 + Py.minute t) * 60 + Py.second t.
Proof.
  intros Hv. apply valid_spec in Hv. destruct Hv as (Hy & Hm & Hd & Hh & Hmi & Hs & Hu).
  unfold seconds_of, Py.to_microseconds, Py.US_PER_DAY.
  symmetry. apply Z.div_unique with (r := Py.microsecond t); lia.
Qed.

Lemma key_lt_seconds (t1 t2 : Py.datetime) :
  Py.valid t1 = true -> Py.valid t2 = true ->
  key_value t1 < key_value t2 -> seconds_of t1 < seconds_of t2.
Proof.
  intros Hv1 Hv2. rewrite (key_value_fields t1 Hv1), (key_value_fields t2 Hv2).
  rewrite (seconds_of_fields t1 Hv1), (seconds_of_fields t2 Hv2).
  apply valid_spec in Hv1, Hv2.
  destruct Hv1 as (Hy1 & Hm1 & Hd1 & Hh1 & Hmi1 & Hs1 & Hu1).
  destruct Hv2 as (Hy2 & Hm2 & Hd2 & Hh2 & Hmi2 & Hs2 & Hu2).
  pose proof (days_in_month_le_31 (Py.year t1) (Py.month t1)).
  pose proof (days_in_month_le_31 (Py.year t2) (Py.month t2)).
  intros Hlt. unfold Py.toordinal.
  assert (Hcases :
    (Py.year t1 < Py.year t2 \/
     (Py.year t1 = Py.year t2 /\
      (Py.month t1 < Py.month t2 \/ (Py.month t1 = Py.month t2 /\ Py.day t1 < Py.day t2))))
    \/ ((Py.year t1 = Py.year t2 /\ Py.month t1 = Py.month t2 /\ Py.day t1 = Py.day t2)
        /\ (Py.hour t1 * 60 + Py.minute t1) * 60 + Py.second t1
           < (Py.hour t2 * 60 + Py.minute t2) * 60 + Py.second t2)) by lia.
  destruct Hcases as [Hdate|[(Hy & Hm & Hd) Htime]].
  - pose proof (ymd2ord_lt _ _ _ _ _ _ Hm1 Hd1 Hm2 Hd2 Hdate). lia.
  - rewrite Hy, Hm, Hd. lia.
Qed.

Lemma key_eq_seconds (t1 t2 : Py.datetime) :
  Py.valid t1 = true -> Py.valid t2 = true ->
  key_value t1 = key_value t2 -> seconds_of t1 = seconds_of t2.
Proof.
  intros Hv1 Hv2. rewrite (key_value_fields t1 Hv1), (key_value_fields t2 Hv2).
  rewrite (seconds_of_fields t1 Hv1), (seconds_of_fields t2 Hv2).
  apply valid_spec in Hv1, Hv2.
  destruct Hv1 as (Hy1 & Hm1 & Hd1 & Hh1 & Hmi1 & Hs1 & Hu1).
  destruct Hv2 as (Hy2 & Hm2 & Hd2 & Hh2 & Hmi2 & Hs2 & Hu2).
  pose proof (days_in_month_le_31 (Py.year t1) (Py.month t1)).
  pose proof (days_in_month_le_31 (Py.year t2) (Py.month t2)).
  intros Heq. unfold Py.toordinal.
  assert (Py.year t1 = Py.year t2 /\ Py.month t1 = Py.month t2 /\ Py.day t1 = Py.day t2
          /\ Py.hour t1 = Py.hour t2 /\ Py.minute t1 = Py.minute t2
          /\ Py.second t1 = Py.second t2) as (-> & -> & -> & -> & -> & ->) by lia.
  reflexivity.
Qed.

Lemma key_order (t1 t2 : Py.datetime) :
  Py.valid t1 = true -> Py.valid t2 = true ->
  (key_value t1 < key_value t2 <-> seconds_of t1 < seconds_of t2) /\
  (key_value t1 = key_value t2 <-> seconds_of t1 = seconds_of t2).
Proof.
  intros Hv1 Hv2.
  pose proof (key_lt_seconds t1 t2 Hv1 Hv2).
  pose proof (key_lt_seconds t2 t1 Hv2 Hv1).
  pose proof (key_eq_seconds t1 t2 Hv1 Hv2).
  split; split; intros; lia.
Qed.

(** X10.  The integer keys order as time does.  For two valid datetimes,
    the YYYYMMDDHHMMSS integer of the first is below that of the second
    exactly when its whole second is earlier, and the two integers are equal
    exactly when the whole seconds are. *)
Theorem keys_order_like_time (t1 t2 : Py.datetime) :
  Py.valid t1 = true -> Py.valid t2 = true ->
  exists k1 k2,
    Py.int_str (Py.strftime_YmdHMS t1) = Py.Ok k1 /\
    Py.int_str (Py.strftime_YmdHMS t2) = Py.Ok k2 /\
    (k1 < k2 <-> Py.to_microseconds t1 / 1000000 < Py.to_microseconds t2 / 1000000) /\
    (k1 = k2 <-> Py.to_microseconds t1 / 1000000 = Py.to_microseconds t2 / 1000000).
Proof.
  intros Hv1 Hv2. exists (key_value t1), (key_value t2).
  split; [apply int_strftime_YmdHMS|]. split; [apply int_strftime_YmdHMS|].
  exact (key_order t1 t2 Hv1 Hv2).
Qed.

Lemma key_value_14 (t : Py.datetime) :
  Py.valid t = true -> 1000 <= Py.year t -> 10 ^ 13 <= key_value t < 10 ^ 14.
Proof.
  intros Hv Hy. rewrite (key_value_fields t Hv).
  apply valid_spec in Hv. destruct Hv as (Hy1 & Hm1 & Hd1 & Hh1 & Hmi1 & Hs1 & Hu1).
  pose proof (days_in_month_le_31 (Py.year t) (Py.month t)).
  change (10 ^ 13) with 10000000000000. change (10 ^ 14) with 100000000000000. lia.
Qed.

(** X11.  Both paths derive the same composite key.  For a valid
    timestamp with a four-digit year, the key the query service builds from
    the datetime integer ([key_for]) is the (datetime, date) pair the
    ingestion job writes for that timestamp ([convert_row]). *)
Theorem same_key_on_both_paths (t : Py.datetime) (values : list Z) :
  Py.valid t = true -> 1000 <= Py.year t ->
  exists row,
    Entsoe.convert_row (t, values) = Py.Ok row /\
    SecondLambda.key_for (Entsoe.row_datetime row)
    = Py.Ok (Entsoe.row_datetime row, Entsoe.row_date row).
Proof.
  intros Hv Hy. rewrite convert_row_spec. eexists. split; [reflexivity|].
  cbn [Entsoe.row_datetime Entsoe.row_date fst].
  fold (key_value t). rewrite key_for_14 by (apply key_value_14; assumption).
  rewrite key_value_date. reflexivity.
Qed.

(** X12.  [hour_rounder] gives the nearest full hour: the result is a
    valid datetime whose minute, second and microsecond are 0, less than 30
    minutes before its argument or at most 30 minutes after it. *)
Theorem hour_rounder_nearest_hour (t r : Py.datetime) :
  Py.valid t = true ->
  SecondLambda.hour_rounder t = Py.Ok r ->
  Py.valid r = true /\
  Py.minute r = 0 /\ Py.second r = 0 /\ Py.microsecond r = 0 /\
  Py.to_microseconds t - 1800000000 < Py.to_microseconds r
  <= Py.to_microseconds t + 1800000000.
Proof.
  intros Hv Hr. destruct (hour_rounder_spec t r Hv Hr) as (Hvr & Hur & Hut).
  split; [exact Hvr|].
  pose proof Hv as Hv'. apply valid_spec in Hv'.
  destruct Hv' as (Hy & Hm & Hd & Hh & Hmi & Hs & Hu).
  pose proof Hvr as Hvr'. apply valid_spec in Hvr'.
  destruct Hvr' as (Hy' & Hm' & Hd' & Hh' & Hmi' & Hs' & Hu').
  assert (Hstart : Py.to_microseconds (Py.replace_hour_start t)
                   = Py.toordinal t * 86400000000 + Py.hour t * 3600000000).
  { unfold Py.to_microseconds, Py.replace_hour_start, Py.toordinal, Py.US_PER_DAY. cbn. lia. }
  assert (Hfields : Py.minute r = 0 /\ Py.second r = 0 /\ Py.microsecond r = 0).
  { rewrite Hstart in Hur. unfold Py.to_microseconds, Py.US_PER_DAY in Hur.
    set (o := Py.toordinal t) in *. set (o' := Py.toordinal r) in *.
    destruct (Py.minute t <? 30); lia. }
  destruct Hfields as (H1 & H2 & H3). repeat split; try assumption.
  - rewrite Hur, Hut. destruct (Z.ltb_spec (Py.minute t) 30); lia.
  - rewrite Hur, Hut. destruct (Z.ltb_spec (Py.minute t) 30); lia.
Qed.

(** ** The keys of the query service, whatever the clock reads *)

Lemma StronglySorted_snoc {A : Type} (R : A -> A -> Prop) (l : list A) (y : A) :
  StronglySorted R l -> Forall (fun x => R x y) l -> StronglySorted R (l ++ [y]).
Proof.
  induction 1 as [|x l Hl IH Hx]; intros Hy; cbn.
  - constructor; constructor.
  - inversion Hy; subst. constructor; [apply IH; assumption|].
    apply Forall_app. split; [exact Hx | constructor; [assumption | constructor]].
Qed.

Lemma quarter_later_key (t1 t2 : Py.datetime) :
  Py.valid t1 = true -> on_quarter t2 ->
  Py.to_microseconds t1 + QUARTER <= Py.to_microseconds t2 ->
  key_value t1 < key_value t2.
Proof.
  intros Hv1 [Hv2 _] Hlt. apply (key_order t1 t2 Hv1 Hv2).
  unfold seconds_of, QUARTER in *.
  assert (Py.to_microseconds t1 / 1000000 + 900 <= Py.to_microseconds t2 / 1000000).
  { rewrite <- Z.div_add by lia. apply Z.div_le_mono; lia. }
  lia.
Qed.

Lemma keys_so_far_step (env : Env) (start : Py.datetime) (s s' : SecondLambda.loop_state) :
  keys_so_far start s -> SecondLambda.date_keys_step env s = inl s' -> keys_so_far start s'.
Proof.
  destruct s as [[st ks] w0]. intros (Hq & Hle & Hs & Hks) Hstep.
  destruct (date_keys_step_inl env st ks w0 s' Hstep) as (now' & st' & _ & _ & Ha & ->).
  cbn [fst snd] in *.
  assert (Hq' : on_quarter st')
    by (apply (on_quarter_add st st' 0 0 1); [apply Hq | exact Ha]).
  destruct (add_spec st st' _ Ha) as [Hv' Hu'].
  change (Py.timedelta 0 0 15) with QUARTER in Hu'.
  assert (HQ : 0 < QUARTER) by reflexivity.
  split; [exact Hq'|]. cbn [fst snd]. split; [lia|]. split.
  - apply StronglySorted_snoc; [exact Hs|].
    eapply List.Forall_impl; [|exact Hks]. cbn beta.
    intros k (t & Ht & -> & Hlo & Hhi).
    apply quarter_later_key; [apply Ht | exact Hq' |].
    destruct Ht as [_ Htq]. destruct Hq as [_ Hsq].
    apply Z.mod_divide in Htq; [|discriminate].
    apply Z.mod_divide in Hsq; [|discriminate].
    destruct Htq as [a Hta]. destruct Hsq as [b Hsb]. unfold QUARTER in *. lia.
  - apply List.Forall_app. split.
    + eapply List.Forall_impl; [|exact Hks]. cbn beta.
      intros k (t & Ht & -> & Hlo & Hhi). exists t. repeat split; try apply Ht; lia.
    + constructor; [|constructor].
      exists st'. repeat split; try apply Hq'; lia.
Qed.

Lemma keys_so_far_exit (env : Env) (start : Py.datetime) (s : SecondLambda.loop_state)
  (r : Py.outcome (list Z) * World) :
  keys_so_far start s -> SecondLambda.date_keys_step env s = inr r ->
  forall ks, fst r = Py.Ok ks ->
    StronglySorted Z.lt ks /\ Forall (key_after (Py.to_microseconds start)) ks.
Proof.
  destruct s as [[st ks] w0]. destruct r as [o w1].
  intros (Hq & Hle & Hs & Hks) Hstep ks' Hok.
  destruct (date_keys_step_inr env st ks w0 o w1 Hstep) as (_ & _ & Hex).
  cbn [fst snd] in *.
  destruct (Hex ks' Hok) as [-> _]. split; [exact Hs|].
  eapply List.Forall_impl; [|exact Hks]. cbn beta.
  intros k (t & Ht & -> & Hlo & Hhi). exists t. repeat split; try apply Ht; lia.
Qed.

(** The loop of [get_date_keys], whatever the clock reads: the keys grow,
    and each is the key of a quarter hour after the start. *)
Lemma date_keys_loop_keys (env : Env) (start : Py.datetime) (w : World) :
  on_quarter start ->
  match iterate LOOP_FUEL (SecondLambda.date_keys_step env) (start, [], w) with
  | inl _ => True
  | inr (o, _) =>
      forall ks, o = Py.Ok ks ->
        StronglySorted Z.lt ks /\ Forall (key_after (Py.to_microseconds start)) ks
  end.
Proof.
  intros Hstart.
  pose proof (iterate_invariant (keys_so_far start)
    (fun r : Py.outcome (list Z) * World =>
       forall ks, fst r = Py.Ok ks ->
         StronglySorted Z.lt ks /\ Forall (key_after (Py.to_microseconds start)) ks)
    (SecondLambda.date_keys_step env)
    (keys_so_far_step env start) (keys_so_far_exit env start)
    LOOP_FUEL (start, [], w)) as Hinv.
  assert (H0 : keys_so_far start (start, [], w)).
  { split; [exact Hstart|]. cbn [fst snd]. split; [lia|]. split; constructor. }
  specialize (Hinv H0).
  destruct (iterate LOOP_FUEL (SecondLambda.date_keys_step env) (start, [], w))
    as [[[a b] c]|[o w1]]; [exact I|]. exact Hinv.
Qed.

Lemma get_date_keys_start (env : Env) (w : World) (keys : list Z) :
  fst (SecondLambda.get_date_keys env w) = Py.Ok keys ->
  exists now end_range start_range,
    Py.fromtimestamp (clock env (clock_reads w)) = Py.Ok now /\
    SecondLambda.hour_rounder now = Py.Ok end_range /\
    Py.add end_range (- Py.timedelta 0 24 0) = Py.Ok start_range /\
    StronglySorted Z.lt keys /\
    Forall (key_after (Py.to_microseconds start_range)) keys.
Proof.
  intros Hk.
  destruct (SecondLambda.get_date_keys env w) as [o w'] eqn:Hg. cbn [fst] in Hk. subst o.
  destruct (get_date_keys_run env w _ _ Hg)
    as [[[e He] _] | (now & end_range & start & Hn & He & Hs & Hit)]; [discriminate|].
  exists now, end_range, start. split; [exact Hn|]. split; [exact He|]. split; [exact Hs|].
  assert (Hstart : on_quarter start).
  { apply (on_quarter_add end_range start 0 (-24) 0); [|exact Hs].
    unfold SecondLambda.hour_rounder in He.
    apply (on_quarter_add _ end_range 0 (Py.minute now / 30) 0) in He.
    - apply He.
    - apply replace_hour_start_quarter. }
  pose proof (date_keys_loop_keys env start (tick w) Hstart) as Hloop.
  destruct (iterate LOOP_FUEL (SecondLambda.date_keys_step env) (start, [], tick w))
    as [[[a b] c]|r]; [discriminate|]. subst r.
  exact (Hloop keys eq_refl).
Qed.

(** X13.  Whatever the clock reads, the loop of [get_date_keys] comes to
    an end, and the keys it returns grow strictly: each key is below every
    later one, so that no key is asked for twice. *)
Theorem date_keys_end_and_grow (env : Env) (w : World) :
  fst (SecondLambda.get_date_keys env w) <> Py.Hang /\
  forall keys, fst (SecondLambda.get_date_keys env w) = Py.Ok keys ->
    StronglySorted Z.lt keys.
Proof.
  split; [apply get_date_keys_returns|].
  intros keys Hk. destruct (get_date_keys_start env w keys Hk) as (_ & _ & _ & _ & _ & _ & H & _).
  exact H.
Qed.

(** ** The window of the ingestion job *)

Lemma whole_seconds_spec (t : Py.datetime) :
  Py.valid t = true ->
  Py.valid (Entsoe.whole_seconds t) = true /\
  Py.microsecond (Entsoe.whole_seconds t) = 0 /\
  Py.to_microseconds (Entsoe.whole_seconds t) = Py.to_microseconds t / 1000000 * 1000000.
Proof.
  intros Hv. pose proof (seconds_of_fields t Hv) as Hs. unfold seconds_of in Hs.
  apply valid_spec in Hv. destruct Hv as (Hy & Hm & Hd & Hh & Hmi & Hsec & Hu).
  split; [|split; [reflexivity|]].
  - apply valid_spec. cbn. repeat split; try lia.
  - rewrite Hs. unfold Py.to_microseconds, Entsoe.whole_seconds, Py.toordinal, Py.US_PER_DAY.
    cbn. lia.
Qed.

(** X14.  The window of [get_date_range].  Start and end are valid
    datetimes without microseconds; the start is the first reading of the
    clock, cut to the whole second, minus 24 hours; the end is the second
    reading, cut to the whole second, plus 2 hours; the clock has been read
    twice and the table is untouched. *)
Theorem get_date_range_window (env : Env) (w : World) (start finish : Py.datetime) :
  fst (Entsoe.get_date_range env w) = Py.Ok (start, finish) ->
  Py.valid start = true /\ Py.valid finish = true /\
  Py.microsecond start = 0 /\ Py.microsecond finish = 0 /\
  Py.to_microseconds start
  = (clock env (clock_reads w) / 1000000 - 86400) * 1000000
    + Py.EPOCH_ORD * Py.US_PER_DAY /\
  Py.to_microseconds finish
  = (clock env (S (clock_reads w)) / 1000000 + 7200) * 1000000
    + Py.EPOCH_ORD * Py.US_PER_DAY /\
  snd (Entsoe.get_date_range env w)
  = {| table := table w; clock_reads := S (S (clock_reads w)) |}.
Proof.
  unfold Entsoe.get_date_range, bind, lift, today, ret. cbn [table clock_reads].
  destruct (Py.fromtimestamp (clock env (clock_reads w))) as [now1|e|] eqn:Hn1;
    try discriminate.
  destruct (Py.add now1 (- Py.timedelta 1 0 0)) as [t1|e|] eqn:Ha1; try discriminate.
  destruct (Py.fromtimestamp (clock env (S (clock_reads w)))) as [now2|e|] eqn:Hn2;
    try discriminate.
  destruct (Py.add now2 (Py.timedelta 0 2 0)) as [t2|e|] eqn:Ha2; try discriminate.
  cbn [fst snd]. intros H. inversion H. subst start finish. clear H.
  destruct (fromtimestamp_spec _ _ Hn1) as [_ Hu1].
  destruct (fromtimestamp_spec _ _ Hn2) as [_ Hu2].
  destruct (add_spec _ _ _ Ha1) as [Hv1 Hs1].
  destruct (add_spec _ _ _ Ha2) as [Hv2 Hs2].
  destruct (whole_seconds_spec t1 Hv1) as (Hw1 & Hm1 & Ht1).
  destruct (whole_seconds_spec t2 Hv2) as (Hw2 & Hm2 & Ht2).
  repeat split; try assumption.
  - rewrite Ht1, Hs1, Hu1. unfold Py.timedelta, Py.US_PER_DAY.
    set (E := Py.EPOCH_ORD). set (c := clock env (clock_reads w)).
    match goal with
    | |- ?a / 1000000 * 1000000 = _ =>
        replace a with (c + (E * 86400 - 86400) * 1000000) by lia
    end.
    rewrite Z.div_add by lia. lia.
  - rewrite Ht2, Hs2, Hu2. unfold Py.timedelta, Py.US_PER_DAY.
    set (E := Py.EPOCH_ORD). set (c := clock env (S (clock_reads w))).
    match goal with
    | |- ?a / 1000000 * 1000000 = _ =>
        replace a with (c + (E * 86400 + 7200) * 1000000) by lia
    end.
    rewrite Z.div_add by lia. lia.
Qed.

(** ** The query service only reads *)

Lemma reads_only_ret {A : Type} (a : A) : reads_only (ret a).
Proof. intros w. reflexivity. Qed.

Lemma reads_only_raise {A : Type} (e : Py.exn) : reads_only (raise e : M A).
Proof. intros w. reflexivity. Qed.

Lemma reads_only_lift {A : Type} (o : Py.outcome A) : reads_only (lift o).
Proof. intros w. reflexivity. Qed.

Lemma reads_only_bind {A B : Type} (c : M A) (k : A -> M B) :
  reads_only c -> (forall a, reads_only (k a)) -> reads_only (bind c k).
Proof.
  intros Hc Hk w. unfold bind. specialize (Hc w).
  destruct (c w) as [[a|e|] w']; cbn [snd] in *; [|exact Hc..].
  rewrite (Hk a w'). exact Hc.
Qed.

Lemma reads_only_try_except {A : Type} (c : M A) (h : Py.exn -> M A) :
  reads_only c -> (forall e, reads_only (h e)) -> reads_only (try_except c h).
Proof.
  intros Hc Hh w. unfold try_except. specialize (Hc w).
  destruct (c w) as [[a|e|] w']; cbn [snd] in *; [exact Hc| |exact Hc].
  rewrite (Hh e w'). exact Hc.
Qed.

Lemma reads_only_map_m {A B : Type} (f : A -> M B) (xs : list A) :
  (forall x, reads_only (f x)) -> reads_only (map_m f xs).
Proof.
  intros Hf. induction xs as [|x xs IH]; [apply reads_only_ret|].
  cbn [map_m]. apply reads_only_bind; [apply Hf|]. intros y.
  apply reads_only_bind; [exact IH|]. intros ys. apply reads_only_ret.
Qed.

Lemma reads_only_batch_get_item (env : Env) (keys : list (Z * Z)) :
  reads_only (batch_get_item env keys).
Proof.
  intros w. unfold batch_get_item. destruct keys as [|k keys]; [reflexivity|].
  destruct (batch_get_item_error env (k :: keys)); [reflexivity|].
  destruct (_ <=? _)%nat; reflexivity.
Qed.

Lemma reads_only_get_todays (env : Env) :
  reads_only (SecondLambda.get_todays_data_from_db env).
Proof.
  unfold SecondLambda.get_todays_data_from_db.
  apply reads_only_try_except; [|intros e; apply reads_only_raise].
  apply reads_only_bind; [exact (get_date_keys_table env)|]. intros keys.
  apply reads_only_bind.
  { apply reads_only_map_m. intros dt. apply reads_only_lift. }
  intros ks. apply reads_only_bind; [apply reads_only_batch_get_item|]. intros data.
  destruct (Dynamo.Responses data) as [r|]; [|apply reads_only_raise].
  destruct (Dynamo.dict_get _ r) as [items|]; [|apply reads_only_raise].
  apply reads_only_lift.
Qed.

(** X15.  The query service never writes: after [lambda_handler], after
    [get_todays_data_from_db] and after [get_date_keys], in every outcome,
    the table is the table before. *)
Theorem query_service_reads_only (env : Env) (w : World) :
  table (snd (SecondLambda.lambda_handler env w)) = table w /\
  table (snd (SecondLambda.get_todays_data_from_db env w)) = table w /\
  table (snd (SecondLambda.get_date_keys env w)) = table w.
Proof.
  split; [|split; [apply reads_only_get_todays | apply get_date_keys_table]].
  revert w. change (reads_only (SecondLambda.lambda_handler env)).
  unfold SecondLambda.lambda_handler.
  apply reads_only_try_except; [|intros e; apply reads_only_ret].
  apply reads_only_bind; [apply reads_only_get_todays|]. intros r. apply reads_only_ret.
Qed.

Lemma get_todays_raise (env : Env) (w : World) (e : Py.exn) :
  fst (SecondLambda.get_todays_data_from_db env w) = Py.Raise e ->
  exists cause,
    e = Py.PyError "Exception" ("Error fetching data from DynamoDB: " ++ Py.str_exn cause).
Proof.
  unfold SecondLambda.get_todays_data_from_db, try_except.
  match goal with |- context [match ?c w with _ => _ end] => destruct (c w) as [[r|e0|] w'] end;
    cbn [fst]; try discriminate.
  unfold raise. cbn [fst]. intros H. inversion H. exists e0. reflexivity.
Qed.

(** X16.  Every response of the query handler other than a 200 has
    statusCode 500, the two CORS headers, and a message made of the prefix of
    the handler, the prefix of [get_todays_data_from_db] and the text of the
    cause. *)
Theorem query_error_message (env : Env) (w : World) (response : Response) :
  fst (SecondLambda.lambda_handler env w) = Py.Ok response ->
  statusCode response <> 200 ->
  exists cause,
    response
    = {| statusCode := 500;
         headers := Some [("Content-Type", "application/json");
                          ("Access-Control-Allow-Origin", "*")]%string;
         body := JObject
                   [("message"%string,
                     JString ("Error processing request: Error fetching data from DynamoDB: "
                              ++ Py.str_exn cause))] |}.
Proof.
  pose proof (query_handler_total env w) as Ht.
  pose proof (get_todays_raise env w) as Hr.
  destruct (fst (SecondLambda.get_todays_data_from_db env w)) as [r|e|]; [| |destruct Ht].
  - rewrite Ht. intros H. inversion H. subst response. cbn. congruence.
  - rewrite Ht. intros H _. inversion H.
    destruct (Hr e eq_refl) as [cause ->]. exists cause. reflexivity.
Qed.

(** ** The sort of the read path *)

Lemma insert_sorted_perm (x : Dynamo.Item) (l : list Dynamo.Item) :
  Permutation (x :: l) (SecondLambda.insert_sorted x l).
Proof.
  induction l as [|y l IH]; cbn [SecondLambda.insert_sorted]; [reflexivity|].
  destruct (Dynamo.datetime x <=? Dynamo.datetime y); [reflexivity|].
  etransitivity; [apply perm_swap|]. apply perm_skip. exact IH.
Qed.

Lemma insert_sorted_In (x y : Dynamo.Item) (l : list Dynamo.Item) :
  In y (SecondLambda.insert_sorted x l) -> y = x \/ In y l.
Proof.
  intros H. apply (Permutation_in _ (Permutation_sym (insert_sorted_perm x l))) in H.
  destruct H as [<-|H]; [left; reflexivity | right; exact H].
Qed.

Lemma insert_sorted_sorted (x : Dynamo.Item) (l : list Dynamo.Item) :
  StronglySorted by_datetime l -> StronglySorted by_datetime (SecondLambda.insert_sorted x l).
Proof.
  induction 1 as [|y l Hl IH Hy]; cbn [SecondLambda.insert_sorted].
  - constructor; constructor.
  - destruct (Z.leb_spec (Dynamo.datetime x) (Dynamo.datetime y)) as [Hle|Hgt].
    + constructor; [constructor; assumption|].
      constructor; [exact Hle|].
      eapply List.Forall_impl; [|exact Hy]. unfold by_datetime. intros a Ha. lia.
    + constructor; [exact IH|].
      apply List.Forall_forall. intros a Ha.
      destruct (insert_sorted_In _ _ _ Ha) as [->|Hin].
      * unfold by_datetime. lia.
      * rewrite List.Forall_forall in Hy. exact (Hy a Hin).
Qed.

Lemma insert_sorted_with_datetime (d : Z) (x : Dynamo.Item) (l : list Dynamo.Item) :
  with_datetime d (SecondLambda.insert_sorted x l) = with_datetime d (x :: l).
Proof.
  unfold with_datetime.
  induction l as [|y l IH]; cbn [SecondLambda.insert_sorted]; [reflexivity|].
  destruct (Z.leb_spec (Dynamo.datetime x) (Dynamo.datetime y)) as [Hle|Hgt]; [reflexivity|].
  cbn [List.filter] in *. rewrite IH.
  destruct (Z.eqb_spec (Dynamo.datetime x) d) as [Hx|Hx]; [|reflexivity].
  destruct (Z.eqb_spec (Dynamo.datetime y) d) as [Hy|Hy]; [lia | reflexivity].
Qed.

(** X17.  The sort of the read path is a stable sort by datetime: the
    result is a permutation of the records, in non-decreasing order of
    datetime, and the records of equal datetime keep their order. *)
Theorem sorted_is_a_stable_sort (l : list Dynamo.Item) :
  Permutation l (SecondLambda.sorted l) /\
  StronglySorted by_datetime (SecondLambda.sorted l) /\
  forall d, with_datetime d (SecondLambda.sorted l) = with_datetime d l.
Proof.
  induction l as [|x l (Hp & Hs & Hd)]; cbn [SecondLambda.sorted fold_right].
  - split; [constructor|]. split; [constructor | reflexivity].
  - fold (SecondLambda.sorted l). split; [|split].
    + etransitivity; [apply perm_skip; exact Hp | apply insert_sorted_perm].
    + apply insert_sorted_sorted. exact Hs.
    + intros d. rewrite insert_sorted_with_datetime. unfold with_datetime in *.
      cbn [List.filter]. rewrite Hd. reflexivity.
Qed.

(** ** The stored window is served *)

Lemma div_digits (n q r b : Z) : 0 <= r < b -> n = q * b + r -> n / b = q.
Proof. intros Hr Hn. symmetry. apply (Z.div_unique n b q r); lia. Qed.

Lemma mod_digits (n q r b : Z) : 0 <= r < b -> n = q * b + r -> n mod b = r.
Proof. intros Hr Hn. symmetry. apply (Z.mod_unique n b q r); lia. Qed.

(** The six fields of a key. *)
Lemma key_digits (y m d h mi s : Z) :
  1 <= m <= 12 -> 1 <= d <= 31 -> 0 <= h <= 23 -> 0 <= mi <= 59 -> 0 <= s <= 59 ->
  let k := ((y * 100 + m) * 100 + d) * 1000000 + (h * 100 + mi) * 100 + s in
  k / 10000000000 = y /\ (k / 100000000) mod 100 = m /\ (k / 1000000) mod 100 = d
  /\ (k / 10000) mod 100 = h /\ (k / 100) mod 100 = mi /\ k mod 100 = s.
Proof.
  intros Hm Hd Hh Hmi Hs k. subst k.
  split; [apply (div_digits _ _ (((m * 100 + d) * 100 + h) * 10000 + mi * 100 + s)); lia|].
  split.
  { rewrite (div_digits _ (y * 100 + m) ((d * 100 + h) * 10000 + mi * 100 + s)) by lia.
    apply (mod_digits _ y); lia. }
  split.
  { rewrite (div_digits _ ((y * 100 + m) * 100 + d) (h * 10000 + mi * 100 + s)) by lia.
    apply (mod_digits _ (y * 100 + m)); lia. }
  split.
  { rewrite (div_digits _ (((y * 100 + m) * 100 + d) * 100 + h) (mi * 100 + s)) by lia.
    apply (mod_digits _ ((y * 100 + m) * 100 + d)); lia. }
  split.
  { rewrite (div_digits _ ((((y * 100 + m) * 100 + d) * 100 + h) * 100 + mi) s) by lia.
    apply (mod_digits _ (((y * 100 + m) * 100 + d) * 100 + h)); lia. }
  apply (mod_digits _ ((((y * 100 + m) * 100 + d) * 100 + h) * 100 + mi)); lia.
Qed.

Lemma stamp_fields_key_value (t : Py.datetime) :
  Py.valid t = true ->
  stamp_fields (key_value t)
  = [Py.year t; Py.month t; Py.day t; Py.hour t; Py.minute t; Py.second t].
Proof.
  intros Hv. rewrite (key_value_fields t Hv).
  apply valid_spec in Hv. destruct Hv as (Hy & Hm & Hd & Hh & Hmi & Hs & _).
  pose proof (days_in_month_le_31 (Py.year t) (Py.month t)) as H31.
  assert (Hd' : 1 <= Py.day t <= 31) by lia.
  destruct (key_digits (Py.year t) _ _ _ _ _ Hm Hd' Hh Hmi Hs)
    as (E1 & E2 & E3 & E4 & E5 & E6).
  unfold stamp_fields. rewrite E1, E2, E3, E4, E5, E6. reflexivity.
Qed.

Lemma valid_stamp_key_value (t : Py.datetime) :
  Py.valid t = true -> 1000 <= Py.year t -> valid_stamp (key_value t) = true.
Proof.
  intros Hv Hy. unfold valid_stamp. rewrite (stamp_fields_key_value t Hv).
  apply valid_spec in Hv. destruct Hv as (Hy1 & Hm & Hd & Hh & Hmi & Hs & _).
  repeat (apply andb_true_iff; split); apply Z.leb_le; lia.
Qed.

(** A datetime after the start of 1969 has a four-digit year. *)
Lemma year_after_1969 (t : Py.datetime) :
  Py.valid t = true ->
  (Py.EPOCH_ORD - 365) * Py.US_PER_DAY <= Py.to_microseconds t ->
  1969 <= Py.year t.
Proof.
  intros Hv Hlo. destruct (Z.le_gt_cases 1969 (Py.year t)) as [H|H]; [exact H|].
  exfalso. apply valid_spec in Hv. destruct Hv as (Hy & Hm & Hd & Hh & Hmi & Hs & Hu).
  assert (H1 : 1 <= 1 <= 12) by lia.
  assert (H2 : 1 <= 1 <= Py.days_in_month 1969 1) by (vm_compute; split; discriminate).
  pose proof (ymd2ord_lt (Py.year t) (Py.month t) (Py.day t) 1969 1 1 Hm Hd H1 H2
                (or_introl H)) as Hlt.
  change (Py.ymd2ord 1969 1 1) with (Py.EPOCH_ORD - 365) in Hlt.
  unfold Py.to_microseconds, Py.toordinal, Py.US_PER_DAY in Hlo.
  change Py.EPOCH_ORD with 719163 in *. lia.
Qed.

Lemma window_start_after_1969 (c : Z) (now end_range start_range : Py.datetime) :
  0 <= c ->
  Py.fromtimestamp c = Py.Ok now ->
  SecondLambda.hour_rounder now = Py.Ok end_range ->
  Py.add end_range (- Py.timedelta 0 24 0) = Py.Ok start_range ->
  (Py.EPOCH_ORD - 365) * Py.US_PER_DAY <= Py.to_microseconds start_range.
Proof.
  intros Hc Hn He Hs.
  destruct (fromtimestamp_spec _ _ Hn) as [Hv Hu].
  destruct (hour_rounder_spec now end_range Hv He) as (_ & Hue & Hun).
  destruct (add_spec _ _ _ Hs) as [_ Hus].
  apply valid_spec in Hv. destruct Hv as (Hy & Hm & Hd & Hh & Hmi & Hsec & Hmu).
  unfold Py.timedelta, Py.US_PER_DAY in *. change Py.EPOCH_ORD with 719163 in *.
  destruct (Py.minute now <? 30); lia.
Qed.

Lemma key_after_stamp (s0 : Z) (k : Z) :
  (Py.EPOCH_ORD - 365) * Py.US_PER_DAY <= s0 -> key_after s0 k ->
  valid_stamp k = true /\ 10 ^ 13 <= k < 10 ^ 14.
Proof.
  intros Hs0 (t & Hq & -> & Hlt).
  destruct Hq as [Hv _].
  assert (Hy : 1969 <= Py.year t) by (apply year_after_1969; [exact Hv | lia]).
  split; [apply valid_stamp_key_value; [exact Hv | lia]|].
  apply key_value_14; [exact Hv | lia].
Qed.

Lemma map_m_key_for_14 (keys : list Z) (w : World) :
  Forall (fun k => 10 ^ 13 <= k < 10 ^ 14) keys ->
  map_m (fun dt => lift (SecondLambda.key_for dt)) keys w = (Py.Ok (map composite keys), w).
Proof.
  induction 1 as [|k keys Hk _ IH]; [reflexivity|].
  cbn [map_m map]. unfold bind at 1, lift at 1. rewrite (key_for_14 k Hk).
  unfold bind at 1. rewrite IH. reflexivity.
Qed.

Lemma omap_cons {A B : Type} (f : A -> option B) (x : A) (l : list A) :
  omap f (x :: l) = match f x with Some y => y :: omap f l | None => omap f l end.
Proof. reflexivity. Qed.

(** The records a well-keyed table holds under growing keys. *)
Lemma found_sorted (t : gmap (Z * Z) Dynamo.Item) (keys : list Z) :
  table_keyed t -> StronglySorted Z.lt keys ->
  StronglySorted Z.lt (map Dynamo.datetime (omap (fun k => t !! k) (map composite keys))) /\
  Forall (fun i => In (Dynamo.datetime i) keys) (omap (fun k => t !! k) (map composite keys)).
Proof.
  intros Ht. induction 1 as [|k keys Hs IH Hk]; [split; constructor|].
  destruct IH as [IH1 IH2].
  assert (Hrest : Forall (fun i => In (Dynamo.datetime i) (k :: keys))
                    (omap (fun k => t !! k) (map composite keys))).
  { eapply List.Forall_impl; [|exact IH2]. intros i Hi. right. exact Hi. }
  cbn [map]. rewrite omap_cons.
  destruct (t !! composite k) as [i|] eqn:Hl; [|split; assumption].
  destruct (Ht _ _ Hl) as [Hkey _]. unfold Dynamo.key_of, composite in Hkey.
  assert (Hdt : Dynamo.datetime i = k) by congruence. clear Hkey.
  split.
  - cbn [map]. constructor; [exact IH1|].
    apply List.Forall_forall. intros d Hd'. apply in_map_iff in Hd'.
    destruct Hd' as (j & <- & Hj). rewrite List.Forall_forall in IH2, Hk.
    rewrite Hdt. apply Hk. apply IH2. exact Hj.
  - constructor; [left; symmetry; exact Hdt | exact Hrest].
Qed.

Lemma timegm_seconds (t : Py.datetime) :
  Py.valid t = true -> Py.timegm t = seconds_of t - Py.EPOCH_ORD * 86400.
Proof.
  intros Hv. rewrite (seconds_of_fields t Hv).
  unfold Py.timegm, Py.toordinal, Py.ymd2ord. lia.
Qed.

Lemma stamp_digits (dt : Z) :
  ((dt / 10000000000 * 100 + (dt / 100000000) mod 100) * 100 + (dt / 1000000) mod 100)
  * 1000000
  + ((dt / 10000) mod 100 * 100 + (dt / 100) mod 100) * 100 + dt mod 100 = dt.
Proof.
  replace (dt / 10000) with (dt / 100 / 100) by (rewrite Z.div_div by lia; reflexivity).
  replace (dt / 1000000) with (dt / 100 / 100 / 100)
    by (rewrite !Z.div_div by lia; reflexivity).
  replace (dt / 100000000) with (dt / 100 / 100 / 100 / 100)
    by (rewrite !Z.div_div by lia; reflexivity).
  replace (dt / 10000000000) with (dt / 100 / 100 / 100 / 100 / 100)
    by (rewrite !Z.div_div by lia; reflexivity).
  set (a1 := dt / 100). set (a2 := a1 / 100). set (a3 := a2 / 100). set (a4 := a3 / 100).
  pose proof (Z.div_mod dt 100 ltac:(lia)) as H0. fold a1 in H0.
  pose proof (Z.div_mod a1 100 ltac:(lia)) as H1. fold a2 in H1.
  pose proof (Z.div_mod a2 100 ltac:(lia)) as H2. fold a3 in H2.
  pose proof (Z.div_mod a3 100 ltac:(lia)) as H3. fold a4 in H3.
  pose proof (Z.div_mod a4 100 ltac:(lia)) as H4.
  lia.
Qed.

Lemma stamp_time_valid (dt : Z) :
  valid_stamp dt = true ->
  Py.valid (stamp_time dt) = true /\ key_value (stamp_time dt) = dt.
Proof.
  intros Hv. apply valid_stamp_spec in Hv.
  destruct Hv as (Hy & Hm & Hd & Hh & Hmi & Hs).
  assert (Hval : Py.valid (stamp_time dt) = true).
  { apply valid_spec. unfold stamp_time.
    cbn [Py.year Py.month Py.day Py.hour Py.minute Py.second Py.microsecond].
    repeat split; lia. }
  split; [exact Hval|].
  rewrite (key_value_fields _ Hval). unfold stamp_time.
  cbn [Py.year Py.month Py.day Py.hour Py.minute Py.second Py.microsecond].
  apply stamp_digits.
Qed.

Lemma epoch_of_lt (a b : Z) :
  valid_stamp a = true -> valid_stamp b = true -> a < b -> epoch_of a < epoch_of b.
Proof.
  intros Ha Hb Hlt.
  destruct (stamp_time_valid a Ha) as [Hva Hka].
  destruct (stamp_time_valid b Hb) as [Hvb Hkb].
  unfold epoch_of. rewrite (timegm_seconds _ Hva), (timegm_seconds _ Hvb).
  assert (seconds_of (stamp_time a) < seconds_of (stamp_time b)); [|lia].
  apply key_lt_seconds; [exact Hva | exact Hvb | lia].
Qed.

Lemma epoch_item_stamp (i : Dynamo.Item) :
  valid_stamp (Dynamo.datetime i) = true ->
  SecondLambda.epoch_item i
  = Py.Ok (SecondLambda.set_datetime i (epoch_of (Dynamo.datetime i))) /\
  converted i (SecondLambda.set_datetime i (epoch_of (Dynamo.datetime i))).
Proof.
  intros Hv. unfold SecondLambda.epoch_item. rewrite (strptime_stamp _ Hv).
  pose proof (stamp_time_valid _ Hv) as [Hval _].
  unfold epoch_of, stamp_time in *.
  split; [reflexivity|].
  unfold converted. cbn [SecondLambda.set_datetime Dynamo.date Dynamo.flows Dynamo.datetime].
  split; [reflexivity|]. split; [reflexivity|].
  rewrite (gmtime_timegm _ Hval). reflexivity.
Qed.

Lemma epoch_items_grow (items : list Dynamo.Item) :
  Forall (fun i => valid_stamp (Dynamo.datetime i) = true) items ->
  StronglySorted Z.lt (map Dynamo.datetime items) ->
  exists items',
    SecondLambda.epoch_items items = Py.Ok items' /\
    Forall2 converted items items' /\
    StronglySorted Z.lt (map Dynamo.datetime items') /\
    map Dynamo.datetime items' = map epoch_of (map Dynamo.datetime items).
Proof.
  induction 1 as [|i items Hi Hv IH]; intros Hs.
  - exists []. repeat split; constructor.
  - cbn [map] in Hs. inversion Hs as [|? ? Hl Hx]; subst.
    destruct (IH Hl) as (items' & He & Hc & Hs' & Hm).
    destruct (epoch_item_stamp i Hi) as [Hei Hci].
    exists (SecondLambda.set_datetime i (epoch_of (Dynamo.datetime i)) :: items').
    cbn [SecondLambda.epoch_items]. rewrite Hei, He.
    split; [reflexivity|]. split; [constructor; assumption|].
    cbn [map SecondLambda.set_datetime Dynamo.datetime]. rewrite Hm.
    split; [|reflexivity]. constructor; [rewrite <- Hm; exact Hs'|].
    apply List.Forall_forall. intros e He'. apply in_map_iff in He'.
    destruct He' as (d & <- & Hd). apply in_map_iff in Hd. destruct Hd as (j & <- & Hj).
    rewrite List.Forall_forall in Hv, Hx.
    apply epoch_of_lt; [exact Hi | apply Hv; exact Hj |].
    apply Hx. apply in_map. exact Hj.
Qed.

Lemma world_of_keyed (items : list Dynamo.Item) :
  Forall (fun i => Dynamo.date i = Dynamo.datetime i / 1000000) items ->
  table_keyed (table (world_of items)).
Proof.
  intros Hf k i Hl. unfold world_of in Hl. cbn [table] in Hl.
  apply elem_of_list_to_map_2 in Hl. apply list_elem_of_In in Hl.
  apply in_map_iff in Hl. destruct Hl as (j & Hj & Hin).
  inversion Hj. subst. split; [reflexivity|].
  rewrite List.Forall_forall in Hf. exact (Hf _ Hin).
Qed.

Lemma sorted_permutation (l : list Dynamo.Item) : Permutation l (SecondLambda.sorted l).
Proof.
  induction l as [|x l IH]; [constructor|].
  cbn [SecondLambda.sorted fold_right]. fold (SecondLambda.sorted l).
  etransitivity; [apply perm_skip; exact IH | apply insert_sorted_perm].
Qed.

Lemma sorted_by_datetime (l : list Dynamo.Item) :
  StronglySorted by_datetime (SecondLambda.sorted l).
Proof.
  induction l as [|x l IH]; [constructor|].
  cbn [SecondLambda.sorted fold_right]. fold (SecondLambda.sorted l).
  apply insert_sorted_sorted. exact IH.
Qed.

(** Records of different datetimes have one arrangement in the order of
    their datetime. *)
Lemma sorted_arrangement (a b : list Dynamo.Item) :
  StronglySorted by_datetime a ->
  StronglySorted Z.lt (map Dynamo.datetime b) ->
  Permutation a b -> a = b.
Proof.
  intros Ha. revert b. induction Ha as [|x a Ha IH Hx]; intros b Hb Hp.
  - apply Permutation_nil in Hp. subst b. reflexivity.
  - destruct b as [|y b]; [apply Permutation_sym, Permutation_nil in Hp; discriminate|].
    cbn [map] in Hb. inversion Hb as [|? ? Hb' Hy]; subst.
    assert (Hxy : x = y).
    { assert (Hxin : In x (y :: b)) by (apply (Permutation_in _ Hp); left; reflexivity).
      assert (Hyin : In y (x :: a))
        by (apply (Permutation_in _ (Permutation_sym Hp)); left; reflexivity).
      destruct Hxin as [->|Hxin]; [reflexivity|].
      destruct Hyin as [->|Hyin]; [reflexivity|].
      exfalso. rewrite List.Forall_forall in Hx, Hy.
      pose proof (Hx y Hyin) as H1. unfold by_datetime in H1.
      pose proof (Hy (Dynamo.datetime x) (in_map _ _ _ Hxin)) as H2. lia. }
    subst y. f_equal. apply IH; [exact Hb'|].
    exact (Permutation_cons_inv Hp).
Qed.

Lemma StronglySorted_filter_lt (P : Z -> Prop) `{forall x, Decision (P x)} (l : list Z) :
  StronglySorted Z.lt l -> StronglySorted Z.lt (filter P l).
Proof.
  induction 1 as [|x l Hl IH Hx]; [constructor|].
  rewrite filter_cons. destruct (decide (P x)); [|exact IH].
  constructor; [exact IH|].
  apply List.Forall_forall. intros y Hy.
  apply list_elem_of_In, list_elem_of_filter in Hy. destruct Hy as [_ Hy].
  rewrite List.Forall_forall in Hx. apply Hx, list_elem_of_In, Hy.
Qed.

Lemma filter_all (P : Z -> Prop) `{forall x, Decision (P x)} (l : list Z) :
  (forall x, In x l -> P x) -> filter P l = l.
Proof.
  induction l as [|x l IH]; intros Hall; [reflexivity|].
  rewrite filter_cons. destruct (decide (P x)) as [_|Hn].
  - rewrite IH; [reflexivity|]. intros y Hy. apply Hall. right. exact Hy.
  - exfalso. apply Hn, Hall. left. reflexivity.
Qed.

Lemma StronglySorted_lt_NoDup (l : list Z) : StronglySorted Z.lt l -> NoDup l.
Proof.
  induction 1 as [|x l Hl IH Hx]; constructor; [|exact IH].
  intros Hin. apply list_elem_of_In in Hin. rewrite List.Forall_forall in Hx.
  pose proof (Hx x Hin). lia.
Qed.

Lemma composite_inj (a b : Z) : composite a = composite b -> a = b.
Proof. unfold composite. intros H. inversion H. reflexivity. Qed.

(** The keys the service answers are the generated keys it got to. *)
Lemma batch_answered_keys (env : Env) (keys : list Z) :
  StronglySorted Z.lt keys ->
  Permutation (batch_answered env (map composite keys))
              (map composite (answered_keys env keys)).
Proof.
  intros Hs. apply NoDup_Permutation.
  - apply NoDup_remove_dups.
  - apply (NoDup_fmap_2_strong composite).
    + intros a b _ _ Hab. exact (composite_inj a b Hab).
    + unfold answered_keys. apply NoDup_filter, StronglySorted_lt_NoDup, Hs.
  - intros k. unfold answered_keys. split.
    + intros Hk. pose proof Hk as Hk'. unfold batch_answered in Hk'.
      apply elem_of_remove_dups, list_elem_of_filter in Hk'. destruct Hk' as [Hin _].
      apply list_elem_of_fmap in Hin. destruct Hin as (dt & -> & Hdt).
      apply list_elem_of_fmap_2. apply list_elem_of_filter. split; [exact Hk | exact Hdt].
    + intros Hk. apply list_elem_of_fmap in Hk. destruct Hk as (dt & -> & Hdt).
      apply list_elem_of_filter in Hdt. apply Hdt.
Qed.

Lemma omap_composite (t : gmap (Z * Z) Dynamo.Item) (keys : list Z) :
  omap (fun dt => t !! (dt, dt / 1000000)) keys
  = omap (fun k => t !! k) (map composite keys).
Proof.
  induction keys as [|k keys IH]; [reflexivity|].
  cbn [map]. rewrite !omap_cons, IH. reflexivity.
Qed.

(** X18.  From a well keyed table, when the first reading of the clock is
    not before 1970, the keys generated number between 1 and 100 and the
    batch read goes through, the query handler answers 200 with exactly the
    records stored under the keys the service answered, whatever the order
    of its answer, in the order of the keys: each keeps its date and its
    flows, its datetime is the epoch value of the same instant, and the
    epoch values grow strictly.  When the service gets to every key, these
    are the records stored under all the generated keys. *)
Theorem stored_window_is_served (env : Env) (w : World) (keys : list Z) :
  table_keyed (table w) ->
  0 <= clock env (clock_reads w) ->
  fst (SecondLambda.get_date_keys env w) = Py.Ok keys ->
  (1 <= length keys <= 100)%nat ->
  batch_get_item_error env (map composite keys) = None ->
  exists result,
    fst (SecondLambda.get_todays_data_from_db env w) = Py.Ok result /\
    fst (SecondLambda.lambda_handler env w)
    = Py.Ok {| statusCode := 200; headers := Some SecondLambda.cors_headers;
               body := SecondLambda.json_of_result result |} /\
    Forall2 converted
      (omap (fun dt => table w !! (dt, dt / 1000000)) (answered_keys env keys))
      (SecondLambda.records result) /\
    StronglySorted Z.lt (map Dynamo.datetime (SecondLambda.records result)) /\
    ((forall dt, In dt keys -> In (composite dt) (batch_get_item_answer env (map composite keys))) ->
     Forall2 converted (omap (fun dt => table w !! (dt, dt / 1000000)) keys)
             (SecondLambda.records result)).
Proof.
  intros Htab Hc Hkeys Hlen Hbatch.
  destruct (get_date_keys_start env w keys Hkeys)
    as (now & end_range & start & Hn & He & Hs & Hsorted & Hafter).
  pose proof (window_start_after_1969 _ _ _ _ Hc Hn He Hs) as Hstart.
  assert (Hstamps : Forall (fun k => valid_stamp k = true /\ 10 ^ 13 <= k < 10 ^ 14) keys).
  { eapply List.Forall_impl; [|exact Hafter]. intros k Hk.
    exact (key_after_stamp _ k Hstart Hk). }
  assert (H14 : Forall (fun k => 10 ^ 13 <= k < 10 ^ 14) keys).
  { eapply List.Forall_impl; [|exact Hstamps]. intros k [_ H]. exact H. }
  assert (Hans : StronglySorted Z.lt (answered_keys env keys)).
  { unfold answered_keys. apply StronglySorted_filter_lt. exact Hsorted. }
  destruct (found_sorted (table w) (answered_keys env keys) Htab Hans) as [Hfs Hfin].
  rewrite (omap_composite (table w) (answered_keys env keys)).
  set (items := omap (fun k => table w !! k) (map composite (answered_keys env keys))) in *.
  assert (Hvalid : Forall (fun i => valid_stamp (Dynamo.datetime i) = true) items).
  { eapply List.Forall_impl; [|exact Hfin]. intros i Hi. cbn beta in Hi.
    rewrite List.Forall_forall in Hstamps.
    assert (Hin : In (Dynamo.datetime i) keys).
    { unfold answered_keys in Hi. apply list_elem_of_In, list_elem_of_filter in Hi.
      apply list_elem_of_In, Hi. }
    exact (proj1 (Hstamps _ Hin)). }
  destruct (epoch_items_grow items Hvalid Hfs) as (items' & Hei & Hconv & Hgrow & _).
  assert (Hsort : SecondLambda.sorted
                    (omap (fun k => table w !! k) (batch_answered env (map composite keys)))
                  = items).
  { apply sorted_arrangement; [apply sorted_by_datetime | exact Hfs |].
    etransitivity; [apply Permutation_sym, sorted_permutation|].
    unfold items. apply omap_Permutation. apply batch_answered_keys. exact Hsorted. }
  assert (Hrun : SecondLambda.get_todays_data_from_db env w
                 = (Py.Ok {| Dynamo.Responses := Some [(SecondLambda.TABLE, items')] |},
                    snd (SecondLambda.get_date_keys env w))).
  { unfold SecondLambda.get_todays_data_from_db, try_except.
    pose proof (get_date_keys_table env w) as Ht.
    unfold bind at 1.
    destruct (SecondLambda.get_date_keys env w) as [[keys0|e|] w1]; cbn [fst snd] in *;
      try discriminate.
    inversion Hkeys. subst keys0.
    unfold bind at 1. rewrite (map_m_key_for_14 keys w1 H14).
    unfold bind.
    rewrite (batch_get_item_asked env (map composite keys) w1)
      by (rewrite length_map; lia).
    rewrite Hbatch, length_map.
    assert (Hb : (length keys <=? 100)%nat = true) by (apply Nat.leb_le; lia).
    rewrite Hb.
    unfold lift, SecondLambda.convert_to_epoch, SecondLambda.TABLE.
    cbn [Dynamo.Responses Dynamo.dict_get SecondLambda.dict_set].
    rewrite !String.eqb_refl.
    cbn [Dynamo.Responses Dynamo.dict_get SecondLambda.dict_set].
    rewrite !String.eqb_refl.
    rewrite Ht, Hsort, Hei. reflexivity. }
  exists {| Dynamo.Responses := Some [(SecondLambda.TABLE, items')] |}.
  split; [rewrite Hrun; reflexivity|]. split.
  { pose proof (query_handler_total env w) as Hq. rewrite Hrun in Hq. exact Hq. }
  assert (Hrec : SecondLambda.records {| Dynamo.Responses := Some [(SecondLambda.TABLE, items')] |}
                 = items').
  { unfold SecondLambda.records, SecondLambda.TABLE.
    cbn [Dynamo.Responses Dynamo.dict_get]. rewrite !String.eqb_refl. reflexivity. }
  rewrite Hrec. split; [exact Hconv|]. split; [exact Hgrow|].
  intros Hall. rewrite (omap_composite (table w) keys).
  assert (Hfull : answered_keys env keys = keys).
  { unfold answered_keys. apply filter_all. intros dt Hdt.
    unfold batch_answered. apply elem_of_remove_dups, list_elem_of_filter. split.
    - apply list_elem_of_fmap_2, list_elem_of_In, Hdt.
    - apply list_elem_of_In, Hall, Hdt. }
  unfold items in Hconv. rewrite Hfull in Hconv. exact Hconv.
Qed.

(** ** Net flows and their frame *)

Lemma same_instant_refl (t : Py.datetime) : Pd.same_instant t t = true.
Proof. unfold Pd.same_instant. apply Z.eqb_refl. Qed.

Lemma insert_index_member (t : Py.datetime) (idx : list Py.datetime) :
  StronglySorted earlier idx -> In t idx -> Pd.insert_index t idx = idx.
Proof.
  induction 1 as [|u idx Hs IH Hu]; intros Hin; [destruct Hin|].
  cbn [Pd.insert_index]. destruct Hin as [->|Hin].
  - rewrite Z.ltb_irrefl, same_instant_refl. reflexivity.
  - rewrite List.Forall_forall in Hu. pose proof (Hu t Hin) as Hlt. unfold earlier in Hlt.
    destruct (Z.ltb_spec (Py.to_microseconds t) (Py.to_microseconds u)); [lia|].
    unfold Pd.same_instant.
    destruct (Z.eqb_spec (Py.to_microseconds t) (Py.to_microseconds u)); [lia|].
    rewrite (IH Hin). reflexivity.
Qed.

Lemma union_index_members (a b : list Py.datetime) :
  StronglySorted earlier a -> (forall t, In t b -> In t a) -> Pd.union_index a b = a.
Proof.
  intros Hs. unfold Pd.union_index. induction b as [|t b IH]; intros Hin; [reflexivity|].
  cbn [fold_left]. rewrite (insert_index_member t a Hs) by (apply Hin; left; reflexivity).
  apply IH. intros u Hu. apply Hin. right. exact Hu.
Qed.

Lemma get_later (t u : Py.datetime) (v : spec_float) (s : Pd.Series) :
  earlier u t -> Pd.get t ((u, v) :: s) = Pd.get t s.
Proof.
  intros H. unfold earlier in H. cbn [Pd.get]. unfold Pd.same_instant.
  destruct (Z.eqb_spec (Py.to_microseconds t) (Py.to_microseconds u)); [lia | reflexivity].
Qed.

Lemma sub_aligned (a b : Pd.Series) :
  StronglySorted earlier (map fst a) ->
  Forall2 (fun x y => fst x = fst y) a b ->
  map (fun t => (t, SFsub Pd.prec Pd.emax (Pd.get t a) (Pd.get t b))) (map fst a)
  = map reading_sub (combine a b).
Proof.
  intros Hs Hf. revert Hs.
  induction Hf as [|[t v] [t' v'] a b Ht Hf IH]; intros Hs; [reflexivity|].
  cbn [fst] in Ht. subst t'. cbn [map fst] in Hs. inversion Hs as [|? ? Hl Hx]; subst.
  cbn [map combine fst]. f_equal.
  - unfold reading_sub. cbn [fst snd Pd.get]. rewrite same_instant_refl. reflexivity.
  - rewrite <- (IH Hl). apply map_ext_in. intros u Hu.
    rewrite List.Forall_forall in Hx. pose proof (Hx u Hu) as He.
    rewrite !(get_later u t) by exact He. reflexivity.
Qed.

Lemma Forall2_same_index (a b : Pd.Series) :
  Forall2 (fun x y => fst x = fst y) a b -> map fst b = map fst a.
Proof.
  induction 1 as [|x y a b Hxy _ IH]; [reflexivity|]. cbn [map]. rewrite Hxy, IH. reflexivity.
Qed.

(** X19.  When the two queries for a country return series over the same
    strictly increasing timestamps, [get_net_flow] returns, at each of these
    timestamps, the outward value minus the inward value (in binary64), and
    leaves the world as it is. *)
Theorem net_flow_pointwise (env : Env) (range : Py.datetime * Py.datetime)
  (code : string) (w : World) (outward inward : Pd.Series) :
  query_crossborder_flows env Entsoe.uk_country_code code (fst range) (snd range)
  = Py.Ok outward ->
  query_crossborder_flows env code Entsoe.uk_country_code (fst range) (snd range)
  = Py.Ok inward ->
  StronglySorted earlier (map fst outward) ->
  Forall2 (fun x y => fst x = fst y) outward inward ->
  Entsoe.get_net_flow env range code w
  = (Py.Ok (map (fun p => (fst (fst p), SFsub Pd.prec Pd.emax (snd (fst p)) (snd (snd p))))
               (combine outward inward)), w).
Proof.
  intros Ho Hi Hs Hf.
  unfold Entsoe.get_net_flow, try_except, bind, lift, ret. rewrite Ho, Hi.
  f_equal. f_equal. unfold Pd.sub.
  rewrite union_index_members; [exact (sub_aligned outward inward Hs Hf) | exact Hs |].
  rewrite (Forall2_same_index _ _ Hf). intros t Ht. exact Ht.
Qed.

Lemma insert_index_In (t u : Py.datetime) (idx : list Py.datetime) :
  In u (Pd.insert_index t idx) -> u = t \/ In u idx.
Proof.
  induction idx as [|v idx IH]; cbn [Pd.insert_index].
  - intros [<-|[]]. left. reflexivity.
  - destruct (Py.to_microseconds t <? Py.to_microseconds v).
    + intros [<-|H]; [left; reflexivity | right; exact H].
    + destruct (Pd.same_instant t v); [intros H; right; exact H|].
      intros [<-|H]; [right; left; reflexivity|].
      destruct (IH H) as [->|Hin]; [left; reflexivity | right; right; exact Hin].
Qed.

Lemma insert_index_sorted (t : Py.datetime) (idx : list Py.datetime) :
  StronglySorted earlier idx -> StronglySorted earlier (Pd.insert_index t idx).
Proof.
  induction 1 as [|u idx Hs IH Hu]; cbn [Pd.insert_index].
  - constructor; constructor.
  - destruct (Z.ltb_spec (Py.to_microseconds t) (Py.to_microseconds u)) as [Hlt|Hge].
    + constructor; [constructor; assumption|].
      constructor; [exact Hlt|].
      eapply List.Forall_impl; [|exact Hu]. unfold earlier. intros a Ha. lia.
    + unfold Pd.same_instant.
      destruct (Z.eqb_spec (Py.to_microseconds t) (Py.to_microseconds u)) as [Heq|Hne].
      * constructor; assumption.
      * constructor; [exact IH|].
        apply List.Forall_forall. intros a Ha.
        destruct (insert_index_In _ _ _ Ha) as [->|Hin].
        -- unfold earlier. lia.
        -- rewrite List.Forall_forall in Hu. exact (Hu a Hin).
Qed.

Lemma union_index_sorted (a b : list Py.datetime) :
  StronglySorted earlier a -> StronglySorted earlier (Pd.union_index a b).
Proof.
  unfold Pd.union_index. revert a.
  induction b as [|t b IH]; intros a Ha; [exact Ha|].
  cbn [fold_left]. apply IH. apply insert_index_sorted. exact Ha.
Qed.

Lemma length_fill_from (last vs : list spec_float) :
  length (Pd.fill_from last vs) = length vs.
Proof.
  revert vs. induction last as [|l last IH]; intros [|v vs]; cbn [Pd.fill_from length];
    try reflexivity.
  rewrite IH. reflexivity.
Qed.

Lemma fill_from_missing (last vs : list spec_float) :
  length last = length vs -> missing_above last (Pd.fill_from last vs).
Proof.
  revert vs. induction last as [|l last IH]; intros [|v vs] Hlen; try discriminate.
  - intros [|c]; cbn; discriminate.
  - cbn [Pd.fill_from]. intros [|c]; cbn [nth].
    + destruct (Pd.is_nan v) eqn:Hv; [intros H; exact H | congruence].
    + apply IH. cbn [length] in Hlen. lia.
Qed.

Lemma ffill_rows_index (last : list spec_float) (rs : list (Py.datetime * list spec_float)) :
  map fst (Pd.ffill_rows last rs) = map fst rs.
Proof.
  revert last. induction rs as [|[t vs] rs IH]; intros last; [reflexivity|].
  cbn [Pd.ffill_rows map fst]. rewrite IH. reflexivity.
Qed.

Lemma ffill_rows_width (n : nat) (last : list spec_float)
  (rs : list (Py.datetime * list spec_float)) :
  Forall (fun r => length (snd r) = n) rs ->
  Forall (fun r => length (snd r) = n) (Pd.ffill_rows last rs).
Proof.
  intros H. revert last. induction H as [|[t vs] rs Hr _ IH]; intros last; [constructor|].
  cbn [Pd.ffill_rows]. constructor; [|apply IH].
  cbn [snd] in *. rewrite length_fill_from. exact Hr.
Qed.

Lemma ffill_rows_missing (n : nat) (rs : list (Py.datetime * list spec_float)) :
  Forall (fun r => length (snd r) = n) rs ->
  forall last before upper lower after,
    Pd.ffill_rows last rs = before ++ upper :: lower :: after ->
    missing_above (snd upper) (snd lower).
Proof.
  induction 1 as [|[t vs] rs Hr Hrs IH]; intros last before upper lower after Heq.
  - destruct before; discriminate.
  - cbn [Pd.ffill_rows] in Heq. destruct before as [|b before].
    + cbn [app] in Heq. inversion Heq as [[Hup Hrest]]. clear Heq.
      destruct rs as [|[t2 v2] rs]; [discriminate|].
      cbn [Pd.ffill_rows] in Hrest. inversion Hrest as [[Hlow Hafter]].
      cbn [snd]. apply fill_from_missing. rewrite length_fill_from.
      inversion Hrs as [|? ? Hr2 _]; subst. cbn [snd] in *. congruence.
    + cbn [app] in Heq. inversion Heq as [[Hb Hrest]].
      exact (IH _ _ _ _ _ Hrest).
Qed.

Lemma union_fold_sorted (indexes : list (list Py.datetime)) (acc : list Py.datetime) :
  StronglySorted earlier acc ->
  StronglySorted earlier (fold_left Pd.union_index indexes acc).
Proof.
  revert acc. induction indexes as [|idx indexes IH]; intros acc Ha; [exact Ha|].
  cbn [fold_left]. apply IH. apply union_index_sorted. exact Ha.
Qed.

Lemma sorted_unique_index (idx : list Py.datetime) :
  StronglySorted earlier idx -> Pd.unique_index idx = true.
Proof.
  induction 1 as [|t idx Hs IH Ht]; [reflexivity|].
  cbn [Pd.unique_index]. rewrite IH, andb_true_r. apply negb_true_iff.
  apply not_true_is_false. intros Hex. apply existsb_exists in Hex.
  destruct Hex as (u & Hu & Hsame). rewrite List.Forall_forall in Ht.
  pose proof (Ht u Hu) as Hlt. unfold earlier in Hlt. unfold Pd.same_instant in Hsame.
  apply Z.eqb_eq in Hsame. lia.
Qed.

Lemma nth_positions {A : Type} (l : list A) (d : A) :
  map (fun i => nth i l d) (Pd.positions l) = l.
Proof.
  unfold Pd.positions. induction l as [|x l IH]; [reflexivity|].
  cbn [length seq map nth]. f_equal. rewrite <- seq_shift, map_map. exact IH.
Qed.

(** The frame of series whose timestamps grow strictly. *)
Lemma concat_frame (unaligned : list (string * Pd.Series) -> Py.outcome Pd.DataFrame)
  (d : list (string * Pd.Series)) (df : Pd.DataFrame) :
  Forall (fun s => StronglySorted earlier (map fst (snd s))) d ->
  Pd.concat unaligned d = Py.Ok df ->
  Pd.columns df = map fst d /\
  StronglySorted earlier (map fst (Pd.rows df)) /\
  Forall (fun r => length (snd r) = length d) (Pd.rows df).
Proof.
  intros Hd. unfold Pd.concat. destruct d as [|s0 d0] eqn:Ed; [discriminate|].
  rewrite <- Ed in *. clear Ed s0 d0.
  set (indexes := map (fun s => map fst (snd s)) d).
  assert (Hidx : Forall (StronglySorted earlier) indexes).
  { unfold indexes. apply List.Forall_forall. intros idx Hin. apply in_map_iff in Hin.
    destruct Hin as (s & <- & Hs). rewrite List.Forall_forall in Hd. exact (Hd s Hs). }
  destruct (List.filter (fun idx => negb (Pd.is_empty idx)) indexes) as [|index others] eqn:Ef.
  - intros H. inversion H. cbn [Pd.columns Pd.rows map].
    split; [reflexivity|]. split; constructor.
  - assert (Hindex : StronglySorted earlier index).
    { assert (Hin : In index (List.filter (fun idx => negb (Pd.is_empty idx)) indexes))
        by (rewrite Ef; left; reflexivity).
      apply List.filter_In in Hin. rewrite List.Forall_forall in Hidx. apply Hidx, Hin. }
    destruct (forallb (Pd.same_index index) others).
    + intros H. inversion H. cbn [Pd.columns Pd.rows].
      split; [reflexivity|]. split.
      * rewrite map_map. cbn [fst]. rewrite nth_positions. exact Hindex.
      * apply List.Forall_forall. intros r Hr. apply in_map_iff in Hr.
        destruct Hr as (i & <- & _). cbn [snd]. unfold Pd.row_at.
        apply length_map.
    + assert (Hu : forallb Pd.unique_index indexes = true).
      { apply forallb_forall. intros idx Hin. apply sorted_unique_index.
        rewrite List.Forall_forall in Hidx. exact (Hidx idx Hin). }
      rewrite Hu. intros H. inversion H. cbn [Pd.columns Pd.rows].
      split; [reflexivity|]. split.
      * rewrite map_map. cbn [fst]. rewrite map_id.
        apply union_fold_sorted. constructor.
      * apply List.Forall_forall. intros r Hr. apply in_map_iff in Hr.
        destruct Hr as (t & <- & _). cbn [snd]. apply length_map.
Qed.

Lemma sub_index (a b : Pd.Series) :
  map fst (Pd.sub a b) = Pd.union_index (map fst a) (map fst b).
Proof. unfold Pd.sub. rewrite map_map. cbn [fst]. apply map_id. Qed.

Lemma get_net_flow_ok (env : Env) (range : Py.datetime * Py.datetime) (code : string)
  (w : World) (flow : Pd.Series) :
  fst (Entsoe.get_net_flow env range code w) = Py.Ok flow ->
  exists outward inward,
    query_crossborder_flows env Entsoe.uk_country_code code (fst range) (snd range)
    = Py.Ok outward /\
    query_crossborder_flows env code Entsoe.uk_country_code (fst range) (snd range)
    = Py.Ok inward /\
    flow = Pd.sub outward inward.
Proof.
  unfold Entsoe.get_net_flow, try_except, bind, lift, ret.
  destruct (query_crossborder_flows env Entsoe.uk_country_code code (fst range) (snd range))
    as [a|[m [st|]|c m]|]; cbn [fst]; try discriminate.
  destruct (query_crossborder_flows env code Entsoe.uk_country_code (fst range) (snd range))
    as [b|[m [st|]|c m]|]; cbn [fst]; try discriminate.
  intros H. inversion H. exists a, b. repeat split.
Qed.

Lemma collect_flows_series (env : Env) (range : Py.datetime * Py.datetime)
  (countries : list (string * string)) (w : World) (d : list (string * Pd.Series)) :
  (forall a b s e series,
      query_crossborder_flows env a b s e = Py.Ok series ->
      StronglySorted earlier (map fst series)) ->
  fst (Entsoe.collect_flows env range countries w) = Py.Ok d ->
  map fst d = map fst countries /\
  Forall (fun s => StronglySorted earlier (map fst (snd s))) d.
Proof.
  intros Hapi. revert w d.
  induction countries as [|[country code] countries IH]; intros w d.
  - cbn. intros H. inversion H. split; [reflexivity | constructor].
  - cbn [Entsoe.collect_flows]. unfold bind at 1. unfold try_except.
    pose proof (get_net_flow_ok env range code w) as Hnet.
    destruct (Entsoe.get_net_flow env range code w) as [[flow|e|] w1]; cbn [fst] in *;
      try discriminate.
    unfold bind at 1. specialize (IH w1).
    destruct (Entsoe.collect_flows env range countries w1) as [[others|e|] w2];
      cbn [fst] in *; try discriminate.
    unfold ret. cbn [fst]. intros H. inversion H. cbn [map fst].
    destruct (IH others eq_refl) as [IH1 IH2]. rewrite IH1.
    split; [reflexivity|]. constructor; [|exact IH2].
    cbn [snd]. destruct (Hnet flow eq_refl) as (a & b & Ha & Hb & ->).
    rewrite sub_index. apply union_index_sorted. exact (Hapi _ _ _ _ _ Ha).
Qed.

Lemma get_all_frame (env : Env) (countries : list (string * string)) (w : World)
  (df : Pd.DataFrame) :
  (forall a b s e series,
      query_crossborder_flows env a b s e = Py.Ok series ->
      StronglySorted earlier (map fst series)) ->
  fst (Entsoe.get_all_interconnector_flows env countries w) = Py.Ok df ->
  exists d df0,
    map fst d = map fst countries /\
    Forall (fun s => StronglySorted earlier (map fst (snd s))) d /\
    Pd.concat (concat_unaligned env) d = Py.Ok df0 /\
    df = Pd.ffill df0.
Proof.
  intros Hapi. unfold Entsoe.get_all_interconnector_flows. unfold bind at 1.
  destruct (Entsoe.get_date_range env w) as [[range|e|] w1]; cbn [fst]; try discriminate.
  unfold bind at 1.
  pose proof (collect_flows_series env range countries w1) as Hn.
  destruct (Entsoe.collect_flows env range countries w1) as [[d|e|] w2];
    cbn [fst] in *; try discriminate.
  unfold bind, lift, ret.
  destruct (Pd.concat (concat_unaligned env) d) as [df0|e|] eqn:Hc; cbn [fst];
    try discriminate.
  intros H. inversion H. destruct (Hn d Hapi eq_refl) as [Hn1 Hn2].
  exists d, df0. repeat split; assumption.
Qed.

(** X20.  When every series the remote API returns has strictly increasing
    timestamps, the frame [get_all_interconnector_flows] returns has one
    column per country, in the order of the dict; its timestamps grow
    strictly; every row has one value per country; and after the forward
    fill a value is missing only where the row above misses it too. *)
Theorem frame_of_flows (env : Env) (countries : list (string * string)) (w : World)
  (df : Pd.DataFrame) :
  (forall a b s e series,
      query_crossborder_flows env a b s e = Py.Ok series ->
      StronglySorted earlier (map fst series)) ->
  fst (Entsoe.get_all_interconnector_flows env countries w) = Py.Ok df ->
  Pd.columns df = map fst countries /\
  StronglySorted earlier (map fst (Pd.rows df)) /\
  Forall (fun r => length (snd r) = length countries) (Pd.rows df) /\
  forall before upper lower after,
    Pd.rows df = before ++ upper :: lower :: after ->
    missing_above (snd upper) (snd lower).
Proof.
  intros Hapi H.
  destruct (get_all_frame env countries w df Hapi H) as (d & df0 & Hd & Hs & Hc & ->).
  destruct (concat_frame _ d df0 Hs Hc) as (Hcol & Hsorted & Hwidth).
  assert (Hlen : length d = length countries)
    by (rewrite <- (length_map fst d), Hd; apply length_map).
  assert (Hwidth' : Forall (fun r => length (snd r) = length countries) (Pd.rows df0)).
  { eapply List.Forall_impl; [|exact Hwidth]. intros r Hr. cbn beta in Hr |- *. rewrite Hr. exact Hlen. }
  unfold Pd.ffill. cbn [Pd.columns Pd.rows].
  split; [rewrite Hcol; exact Hd|]. split.
  - rewrite ffill_rows_index. exact Hsorted.
  - split; [apply ffill_rows_width; exact Hwidth'|].
    intros before upper lower after Heq.
    exact (ffill_rows_missing _ (Pd.rows df0) Hwidth' [] before upper lower after Heq).
Qed.

(** ** A record whose datetime cannot be read *)

Lemma epoch_items_bad (items : list Dynamo.Item) (i : Dynamo.Item) :
  In i items ->
  (forall t, Py.strptime_YmdHMS (Py.str_int (Dynamo.datetime i)) <> Py.Ok t) ->
  forall out, SecondLambda.epoch_items items <> Py.Ok out.
Proof.
  intros Hin Hbad. induction items as [|j items IH]; [destruct Hin|].
  intros out. cbn [SecondLambda.epoch_items]. destruct Hin as [->|Hin].
  - unfold SecondLambda.epoch_item.
    destruct (Py.strptime_YmdHMS (Py.str_int (Dynamo.datetime i))) as [t|e|] eqn:Hp;
      [exfalso; exact (Hbad t eq_refl) | discriminate | discriminate].
  - destruct (SecondLambda.epoch_item j) as [j'|e|]; try discriminate.
    specialize (IH Hin).
    destruct (SecondLambda.epoch_items items) as [out'|e|]; try discriminate.
    exfalso. exact (IH out' eq_refl).
Qed.

(** X21.  [convert_to_epoch] converts all records or none: a single
    record whose datetime [strptime] does not accept makes the whole call
    raise, with the prefix of [convert_to_epoch] before the text of the
    cause. *)
Theorem one_bad_datetime_fails_the_conversion (responses : list (string * list Dynamo.Item))
  (items : list Dynamo.Item) (i : Dynamo.Item) :
  Dynamo.dict_get SecondLambda.TABLE responses = Some items ->
  In i items ->
  (forall t, Py.strptime_YmdHMS (Py.str_int (Dynamo.datetime i)) <> Py.Ok t) ->
  exists cause,
    SecondLambda.convert_to_epoch {| Dynamo.Responses := Some responses |}
    = Py.Raise (Py.PyError "Exception" ("Error converting to epoch: " ++ Py.str_exn cause)).
Proof.
  intros Hd Hin Hbad. unfold SecondLambda.convert_to_epoch. cbn [Dynamo.Responses].
  rewrite Hd.
  pose proof (epoch_items_bad items i Hin Hbad) as Hno.
  pose proof (epoch_items_returns items) as Hret.
  destruct (SecondLambda.epoch_items items) as [out|e|].
  - exfalso. exact (Hno out eq_refl).
  - exists e. reflexivity.
  - congruence.
Qed.

(* ===================================================================== *)
(** * The theorems at concrete runs *)
(* ===================================================================== *)

Lemma handler_boundaries_witness :
  (exists document,
      fst (Entsoe.lambda_handler (http_error_env 404) empty_world)
      = Py.Ok {| statusCode := 500; headers := None; body := document |}) /\
  fst (Entsoe.lambda_handler timeout_env empty_world)
  = Py.Raise (Py.PyError "ConnectTimeout" "timed out").
Proof.
  split.
  - destruct (handler_boundaries (http_error_env 404) empty_world) as (_ & Hhttp & _).
    apply (Hhttp "Client Error"%string 404). vm_compute. reflexivity.
  - destruct (handler_boundaries timeout_env empty_world) as (_ & _ & Hother).
    apply (Hother "ConnectTimeout"%string "timed out"%string). vm_compute. reflexivity.
Defined.

Lemma put_into_dynamo_db_first_write_wins_witness :
  snd (Entsoe.put_into_dynamo_db quiet_env (item_at 20240102101500 9)
         (world_of [item_at 20240102101500 7]))
  = world_of [item_at 20240102101500 7] /\
  table (snd (Entsoe.put_into_dynamo_db quiet_env (item_at 20240102101500 9)
                (world_of [item_at 20240102101500 7])))
    !! (20240102101500, 20240102)
  = Some (item_at 20240102101500 7).
Proof.
  assert (Hheld : table (world_of [item_at 20240102101500 7])
                    !! (Dynamo.datetime (item_at 20240102101500 9),
                        Dynamo.date (item_at 20240102101500 9))
                  = Some (item_at 20240102101500 7)) by (vm_compute; reflexivity).
  destruct (put_into_dynamo_db_first_write_wins quiet_env
              (world_of [item_at 20240102101500 7]) (item_at 20240102101500 9)
              (item_at 20240102101500 7) Hheld) as (Hsame & Hvalue & _).
  split; [exact Hsame | exact Hvalue].
Defined.

Lemma live_clock_window_witness :
  (95 <= length keys_1020 <= 98)%nat /\
  forall result,
    fst (SecondLambda.get_todays_data_from_db quiet_env empty_world) = Py.Ok result ->
    (length (SecondLambda.records result) <= length keys_1020 <= 100)%nat.
Proof.
  assert (Hkeys : fst (SecondLambda.get_date_keys quiet_env empty_world) = Py.Ok keys_1020)
    by (vm_compute; reflexivity).
  destruct (live_clock_window quiet_env empty_world keys_1020 Hkeys)
    as (now & end_range & start_range & _ & _ & _ & _ & _ & _ & Hrec & Hlen).
  split; [apply Hlen; intros n; reflexivity | exact Hrec].
Defined.

Lemma date_is_leading_digits_witness :
  SecondLambda.key_for 20240102101500 = Py.Ok (20240102101500, 20240102).
Proof.
  destruct date_is_leading_digits as [_ Hread].
  apply (Hread 20240102101500). lia.
Defined.

Lemma epoch_round_trip_witness :
  exists items',
    SecondLambda.convert_to_epoch
      {| Dynamo.Responses :=
           Some [("interconnector-data"%string, [item_at 20240102101500 7])] |}
    = Py.Ok {| Dynamo.Responses := Some [("interconnector-data"%string, items')] |} /\
    Forall2 converted [item_at 20240102101500 7] items'.
Proof.
  assert (Hget : Dynamo.dict_get SecondLambda.TABLE
                   [("interconnector-data"%string, [item_at 20240102101500 7])]
                 = Some [item_at 20240102101500 7]) by reflexivity.
  assert (Hvalid : Forall (fun i => valid_stamp (Dynamo.datetime i) = true)
                     [item_at 20240102101500 7]).
  { constructor; [vm_compute; reflexivity | constructor]. }
  destruct (epoch_round_trip _ _ Hget Hvalid) as (items' & Hconv & Hback).
  exists items'. split; [exact Hconv | exact Hback].
Defined.

Lemma http_error_response_witness :
  fst (Entsoe.lambda_handler (http_error_env 403) empty_world)
  = Py.Ok {| statusCode := 500; headers := None;
             body := JObject
                       [("error", JString "API Authentication Failed");
                        ("details", JString "Client Error");
                        ("possible_causes",
                         JArray [JString "API key not correctly set in SSM";
                                 JString "API key expired or invalid";
                                 JString "IP address blocked";
                                 JString "Request parameters invalid"])]%string |}.
Proof.
  assert (Hrange : fst (Entsoe.get_date_range (http_error_env 403) empty_world)
                   = Py.Ok range_1020) by (vm_compute; reflexivity).
  assert (Hrange' : fst (Entsoe.get_date_range (http_error_env 403)
                           (snd (Entsoe.get_date_range (http_error_env 403) empty_world)))
                    = Py.Ok range_1020) by (vm_compute; reflexivity).
  assert (Hfirst : first_failure (http_error_env 403) range_1020
                     Entsoe.country_code_non_uk_dict
                   = Some (Py.HTTPError "Client Error" (Some 403)))
    by (vm_compute; reflexivity).
  exact (http_error_response (http_error_env 403) empty_world range_1020 range_1020
           "Client Error"%string 403 Hrange Hrange' Hfirst).
Defined.

Lemma query_failure_writes_nothing_witness :
  table (snd (Entsoe.lambda_handler timeout_env (world_of [item_at 20240102101500 7])))
  = table (world_of [item_at 20240102101500 7]).
Proof.
  assert (Hrange : fst (Entsoe.get_date_range timeout_env
                          (snd (Entsoe.get_date_range timeout_env
                                  (world_of [item_at 20240102101500 7]))))
                   = Py.Ok range_1020) by (vm_compute; reflexivity).
  assert (Hin : In ("Netherlands"%string, "10YNL----------L"%string)
                  Entsoe.country_code_non_uk_dict) by (right; left; reflexivity).
  assert (Hfail : query_fails timeout_env range_1020 "10YNL----------L").
  { right. exists (Py.PyError "ConnectTimeout" "timed out"). vm_compute. reflexivity. }
  destruct (query_failure_writes_nothing timeout_env (world_of [item_at 20240102101500 7])
              range_1020 "Netherlands"%string "10YNL----------L"%string Hrange Hin Hfail)
    as [Htable _].
  exact Htable.
Defined.

Lemma date_keys_on_quarter_hours_witness :
  20240101101500 mod 100 = 0 /\
  ((20240101101500 / 100) mod 100 = 0 \/ (20240101101500 / 100) mod 100 = 15
   \/ (20240101101500 / 100) mod 100 = 30 \/ (20240101101500 / 100) mod 100 = 45).
Proof.
  assert (Hkeys : fst (SecondLambda.get_date_keys quiet_env empty_world) = Py.Ok keys_1020)
    by (vm_compute; reflexivity).
  assert (Hin : In 20240101101500 keys_1020) by (left; reflexivity).
  exact (date_keys_on_quarter_hours quiet_env empty_world keys_1020 Hkeys
           20240101101500 Hin).
Defined.

Lemma put_into_dynamo_db_stores_witness :
  table (snd (Entsoe.put_into_dynamo_db quiet_env (item_at 20240102101500 7) empty_world))
    !! (20240102101500, 20240102)
  = Some (item_at 20240102101500 7).
Proof.
  assert (H : fst (Entsoe.put_into_dynamo_db quiet_env (item_at 20240102101500 7) empty_world)
              = Py.Ok tt) by (vm_compute; reflexivity).
  destruct (put_into_dynamo_db_stores quiet_env empty_world (item_at 20240102101500 7) H)
    as [H1 _].
  exact H1.
Defined.

Lemma update_dynamo_db_stops_at_first_error_witness :
  Entsoe.update_dynamo_db second_read_fails_env
    ([item_at 20240102101500 7] ++ item_at 20240102103000 8 :: [item_at 20240102104500 9])
    empty_world
  = (Py.Raise (Dynamo.ClientError "ProvisionedThroughputExceededException"),
     snd (Entsoe.update_dynamo_db second_read_fails_env [item_at 20240102101500 7]
            empty_world)).
Proof.
  apply update_dynamo_db_stops_at_first_error.
  - vm_compute. reflexivity.
  - vm_compute. reflexivity.
Defined.

Lemma update_dynamo_db_result_witness :
  fst (Entsoe.update_dynamo_db quiet_env
         [item_at 20240102101500 7; item_at 20240102101500 9] empty_world) = Py.Ok tt /\
  table (snd (Entsoe.update_dynamo_db quiet_env
                [item_at 20240102101500 7; item_at 20240102101500 9] empty_world))
    !! (20240102101500, 20240102)
  = Some (item_at 20240102101500 7).
Proof.
  destruct (update_dynamo_db_result quiet_env empty_world
              [item_at 20240102101500 7; item_at 20240102101500 9]
              (fun _ => eq_refl) (fun _ => eq_refl)) as [H1 H2].
  split; [exact H1|]. rewrite H2. vm_compute. reflexivity.
Defined.

Lemma update_dynamo_db_rerun_witness :
  snd (Entsoe.update_dynamo_db store_down_env [item_at 20240102101500 7]
         (snd (Entsoe.update_dynamo_db quiet_env [item_at 20240102101500 7] empty_world)))
  = snd (Entsoe.update_dynamo_db quiet_env [item_at 20240102101500 7] empty_world).
Proof.
  apply update_dynamo_db_rerun. vm_compute. reflexivity.
Defined.

Lemma ingestion_keeps_records_witness :
  table (snd (Entsoe.lambda_handler quiet_env (world_of [item_at 20240102102000 3])))
    !! (20240102102000, 20240102)
  = Some (item_at 20240102102000 3).
Proof.
  apply ingestion_keeps_records. vm_compute. reflexivity.
Defined.

Lemma ingestion_keeps_table_keyed_witness :
  exists i,
    table (snd (Entsoe.lambda_handler quiet_env empty_world)) !! (20240102102000, 20240102)
    = Some i /\
    Dynamo.key_of i = (20240102102000, 20240102) /\
    Dynamo.date i = Dynamo.datetime i / 1000000.
Proof.
  assert (H0 : table_keyed (table empty_world))
    by (intros k i H; vm_compute in H; discriminate).
  pose proof (ingestion_keeps_table_keyed quiet_env empty_world H0) as Hk.
  assert (Hl : table (snd (Entsoe.lambda_handler quiet_env empty_world))
                 !! (20240102102000, 20240102)
               = Some {| Dynamo.datetime := 20240102102000; Dynamo.date := 20240102;
                         Dynamo.flows := [("France", 0); ("Netherlands", 0);
                                          ("Belgium", 0); ("Norway", 0)]%string |})
    by (vm_compute; reflexivity).
  eexists. split; [exact Hl|]. exact (Hk _ _ Hl).
Defined.

Lemma ingestion_success_stores_every_row_witness :
  exists i,
    table (snd (Entsoe.lambda_handler quiet_env empty_world)) !! (20240102102000, 20240102)
    = Some i.
Proof.
  assert (Hdf : fst (Entsoe.get_all_interconnector_flows quiet_env
                       Entsoe.country_code_non_uk_dict
                       (snd (Entsoe.get_date_range quiet_env empty_world)))
                = Py.Ok frame_1020) by (vm_compute; reflexivity).
  assert (Hr : fst (Entsoe.lambda_handler quiet_env empty_world)
               = Py.Ok {| statusCode := 200; headers := None;
                          body := JString "Everything works!" |})
    by (vm_compute; reflexivity).
  assert (Hin : In (now_1020, [S754_zero false; S754_zero false; S754_zero false;
                               S754_zero false]) (Pd.rows frame_1020))
    by (left; reflexivity).
  destruct (ingestion_success_stores_every_row quiet_env empty_world frame_1020 _
              Hdf Hr eq_refl _ Hin) as (i & Hi & _).
  exists i. exact Hi.
Defined.

Lemma ingestion_succeeds_witness :
  fst (Entsoe.lambda_handler quiet_env empty_world)
  = Py.Ok {| statusCode := 200; headers := None; body := JString "Everything works!" |}.
Proof.
  apply (ingestion_succeeds quiet_env empty_world range_1020 frame_1020).
  - vm_compute. reflexivity.
  - vm_compute. reflexivity.
  - intros k. reflexivity.
  - intros i. reflexivity.
Defined.

Lemma keys_order_like_time_witness :
  exists k1 k2,
    Py.int_str (Py.strftime_YmdHMS midnight) = Py.Ok k1 /\
    Py.int_str (Py.strftime_YmdHMS now_1020) = Py.Ok k2 /\
    (k1 < k2 <-> Py.to_microseconds midnight / 1000000
                 < Py.to_microseconds now_1020 / 1000000) /\
    (k1 = k2 <-> Py.to_microseconds midnight / 1000000
                 = Py.to_microseconds now_1020 / 1000000).
Proof.
  apply keys_order_like_time; vm_compute; reflexivity.
Defined.

Lemma same_key_on_both_paths_witness :
  exists row,
    Entsoe.convert_row (now_1020, [7]) = Py.Ok row /\
    SecondLambda.key_for (Entsoe.row_datetime row)
    = Py.Ok (Entsoe.row_datetime row, Entsoe.row_date row).
Proof.
  apply same_key_on_both_paths; [vm_compute; reflexivity | vm_compute; discriminate].
Defined.

Lemma hour_rounder_nearest_hour_witness :
  Py.valid at_1100 = true /\
  Py.minute at_1100 = 0 /\ Py.second at_1100 = 0 /\ Py.microsecond at_1100 = 0 /\
  Py.to_microseconds at_104030 - 1800000000 < Py.to_microseconds at_1100
  <= Py.to_microseconds at_104030 + 1800000000.
Proof.
  apply hour_rounder_nearest_hour; vm_compute; reflexivity.
Defined.

Lemma date_keys_end_and_grow_witness : StronglySorted Z.lt keys_1020.
Proof.
  assert (Hkeys : fst (SecondLambda.get_date_keys quiet_env empty_world) = Py.Ok keys_1020)
    by (vm_compute; reflexivity).
  destruct (date_keys_end_and_grow quiet_env empty_world) as [_ H].
  exact (H keys_1020 Hkeys).
Defined.

Lemma get_date_range_window_witness :
  Py.to_microseconds (fst range_1020)
  = (at_1020 / 1000000 - 86400) * 1000000 + Py.EPOCH_ORD * Py.US_PER_DAY /\
  Py.to_microseconds (snd range_1020)
  = (at_1020 / 1000000 + 7200) * 1000000 + Py.EPOCH_ORD * Py.US_PER_DAY.
Proof.
  assert (H : fst (Entsoe.get_date_range quiet_env empty_world)
              = Py.Ok (fst range_1020, snd range_1020)) by (vm_compute; reflexivity).
  destruct (get_date_range_window quiet_env empty_world _ _ H)
    as (_ & _ & _ & _ & H1 & H2 & _).
  split; [exact H1 | exact H2].
Defined.

Lemma query_error_message_witness :
  exists cause,
    {| statusCode := 500; headers := Some SecondLambda.cors_headers;
       body := JObject
                 [("message"%string,
                   JString "Error processing request: Error fetching data from DynamoDB: ServiceUnavailable")] |}
    = {| statusCode := 500;
         headers := Some [("Content-Type", "application/json");
                          ("Access-Control-Allow-Origin", "*")]%string;
         body := JObject
                   [("message"%string,
                     JString ("Error processing request: Error fetching data from DynamoDB: "
                              ++ Py.str_exn cause))] |}.
Proof.
  apply (query_error_message batch_down_env empty_world).
  - vm_compute. reflexivity.
  - cbn. discriminate.
Defined.

Lemma stored_window_is_served_witness :
  exists result,
    fst (SecondLambda.get_todays_data_from_db quiet_env
           (world_of [item_at 20240102101500 7; item_at 20240102100000 5])) = Py.Ok result /\
    fst (SecondLambda.lambda_handler quiet_env
           (world_of [item_at 20240102101500 7; item_at 20240102100000 5]))
    = Py.Ok {| statusCode := 200; headers := Some SecondLambda.cors_headers;
               body := SecondLambda.json_of_result result |} /\
    Forall2 converted [item_at 20240102100000 5; item_at 20240102101500 7]
            (SecondLambda.records result) /\
    StronglySorted Z.lt (map Dynamo.datetime (SecondLambda.records result)).
Proof.
  assert (Hkeyed : table_keyed
                     (table (world_of [item_at 20240102101500 7; item_at 20240102100000 5])))
    by (apply world_of_keyed; repeat constructor).
  assert (Hclock : 0 <= clock quiet_env
                          (clock_reads (world_of [item_at 20240102101500 7;
                                                  item_at 20240102100000 5])))
    by (vm_compute; discriminate).
  assert (Hkeys : fst (SecondLambda.get_date_keys quiet_env
                         (world_of [item_at 20240102101500 7; item_at 20240102100000 5]))
                  = Py.Ok keys_1020) by (vm_compute; reflexivity).
  assert (Hlen : (1 <= length keys_1020 <= 100)%nat)
    by (vm_compute; split; apply Nat.leb_le; reflexivity).
  destruct (stored_window_is_served quiet_env _ keys_1020 Hkeyed Hclock Hkeys Hlen eq_refl)
    as (result & H1 & H2 & _ & H4 & H5).
  exists result. split; [exact H1|]. split; [exact H2|]. split; [|exact H4].
  assert (Hom : omap (fun dt => table (world_of [item_at 20240102101500 7;
                                                 item_at 20240102100000 5])
                                  !! (dt, dt / 1000000)) keys_1020
                = [item_at 20240102100000 5; item_at 20240102101500 7])
    by (vm_compute; reflexivity).
  rewrite <- Hom. apply H5. intros dt Hdt.
  cbn [batch_get_item_answer quiet_env]. apply -> in_rev. apply in_map. exact Hdt.
Defined.

Lemma net_flow_pointwise_witness :
  Entsoe.get_net_flow quiet_env range_1020 "10YFR-RTE------C" empty_world
  = (Py.Ok (map (fun p => (fst (fst p), SFsub Pd.prec Pd.emax (snd (fst p)) (snd (snd p))))
               (combine [(now_1020, ten)] [(now_1020, ten)])), empty_world).
Proof.
  apply net_flow_pointwise.
  - reflexivity.
  - reflexivity.
  - repeat constructor.
  - repeat constructor.
Defined.

Lemma frame_of_flows_witness :
  Pd.columns frame_1020 = ["France"; "Netherlands"; "Belgium"; "Norway"]%string /\
  Forall (fun r => length (snd r) = 4%nat) (Pd.rows frame_1020).
Proof.
  assert (Hapi : forall a b s e series,
             query_crossborder_flows quiet_env a b s e = Py.Ok series ->
             StronglySorted earlier (map fst series))
    by (intros a b s e series H; inversion H; repeat constructor).
  assert (Hdf : fst (Entsoe.get_all_interconnector_flows quiet_env
                       Entsoe.country_code_non_uk_dict empty_world)
                = Py.Ok frame_1020) by (vm_compute; reflexivity).
  destruct (frame_of_flows quiet_env _ empty_world frame_1020 Hapi Hdf) as (H1 & _ & H3 & _).
  split; [exact H1 | exact H3].
Defined.

Lemma one_bad_datetime_fails_the_conversion_witness :
  exists cause,
    SecondLambda.convert_to_epoch
      {| Dynamo.Responses :=
           Some [("interconnector-data"%string,
                  [item_at 20240102101500 7; item_at 20240230000000 7])] |}
    = Py.Raise (Py.PyError "Exception" ("Error converting to epoch: " ++ Py.str_exn cause)).
Proof.
  apply (one_bad_datetime_fails_the_conversion _
           [item_at 20240102101500 7; item_at 20240230000000 7]
           (item_at 20240230000000 7)).
  - reflexivity.
  - right. left. reflexivity.
  - intros t. vm_compute. discriminate.
Defined.
